(** * The PDF viewer of the evaluation page: navigation and evidence highlighting

    A shallow embedding of [AdvancedPDFViewer] (the viewer component: page
    render tracking, printed/physical page offset, navigation, hash deep
    links, evidence highlighting) and of the part of [RunEvaluationPage]
    that owns the document source and the requested target page, with the
    flattening of the evidence of a result, the handlers of [UploadPanel]
    and the field labels of [EvaluationPanel].

    Conventions of the embedding.
    - A JavaScript number that holds a page number or an offset is an integer
      [Z]; a number that may be [NaN] is an [option Z] with [None] for [NaN].
      Doubles are exact on integers below 2^53, which is the range meant here.
    - [null] and [undefined] are [None] where the code treats them alike.
      The page number of an evidence entry is a [Js.Field]: the sum
      [ev.pageNumber + pageOffset] reads [undefined] as [NaN] and [null]
      as 0.
    - Strings are Stdlib strings of 8-bit characters; case folding and white
      space are those of the ASCII range.
    - React state is an explicit record, a handler is a function from the
      state of the render it closes over to the next state and the list of
      requests it sends to the rendering surface.
    - The DOM is a finite map from the page number [n] of the anchor
      [page_<n>] to the text spans of that page's text layer.
    - [zoom] is carried in the state; the zoom buttons and the page width,
      which compute on doubles, are left out. *)

From stdpp Require Import gmap strings list.
From Stdlib Require Import ZArith Ascii String QArith DecimalString.
From Stdlib Require DecimalPos.

Open Scope Z_scope.

(** ** JavaScript built-ins used by the viewer *)

Module Js.

(** [StrWhiteSpaceChar], ASCII range: TAB, LF, VT, FF, CR, SP. *)
Definition isWhiteSpace (c : ascii) : bool :=
  let n := N_of_ascii c in
  ((9 <=? n) && (n <=? 13))%N || (n =? 32)%N.

Definition digitValue (c : ascii) : option Z :=
  let n := N_of_ascii c in
  if ((48 <=? n) && (n <=? 57))%N then Some (Z.of_N n - 48) else None.

Fixpoint trimStart (s : string) : string :=
  match s with
  | String c s' => if isWhiteSpace c then trimStart s' else s
  | EmptyString => EmptyString
  end.

(** The longest prefix of decimal digits, as a number; [acc] is [None]
    while no digit has been read. *)
Fixpoint digits (s : string) (acc : option Z) : option Z :=
  match s with
  | String c s' =>
      match digitValue c with
      | Some d => digits s' (Some (10 * default 0 acc + d))
      | None => acc
      end
  | EmptyString => acc
  end.

(** [parseInt(s, 10)]: leading white space is skipped, one sign is read,
    then the longest run of digits; what follows is ignored, and no digit
    at all gives [NaN]. *)
Definition parseInt (s : string) : option Z :=
  match trimStart s with
  | String "-"%char r => Z.opp <$> digits r None
  | String "+"%char r => digits r None
  | r => digits r None
  end.

Definition lowerChar (c : ascii) : ascii :=
  let n := N_of_ascii c in
  if ((65 <=? n) && (n <=? 90))%N then ascii_of_N (n + 32) else c.

Fixpoint toLowerCase (s : string) : string :=
  match s with
  | String c s' => String (lowerChar c) (toLowerCase s')
  | EmptyString => EmptyString
  end.

Definition startsWith (s pat : string) : bool := String.prefix pat s.

(** [hay.includes(needle)] *)
Fixpoint includes (hay needle : string) : bool :=
  String.prefix needle hay ||
  match hay with
  | String _ hay' => includes hay' needle
  | EmptyString => false
  end.

Fixpoint dropChars (n : nat) (s : string) : string :=
  match n, s with
  | S n', String _ s' => dropChars n' s'
  | _, _ => s
  end.

(** [s.replace(pat, "")] with a string pattern: the first occurrence of
    [pat] is cut out. *)
Fixpoint replaceEmpty (pat s : string) : string :=
  if String.prefix pat s then dropChars (String.length pat) s
  else match s with
       | String c s' => String c (replaceEmpty pat s')
       | EmptyString => EmptyString
       end.

(** Truthiness of a number or [null]. *)
Definition truthyNum (v : option Z) : bool :=
  match v with
  | Some n => negb (n =? 0)
  | None => false
  end.

(** [ToNumber] on a number or [null]. *)
Definition toNumber (v : option Z) : Z := default 0 v.

(** [n.toString()] of an integer. *)
Definition toString (n : Z) : string :=
  DecimalString.NilZero.string_of_int (Z.to_int n).

(** A numeric field of an object read from JSON: absent, [null], or a
    number. *)
Inductive Field :=
  | Undefined
  | Null
  | Num (n : Z).

(** [ToNumber] on such a field: [undefined] is [NaN], [null] is 0. *)
Definition fieldNumber (v : Field) : option Z :=
  match v with
  | Undefined => None
  | Null => Some 0
  | Num n => Some n
  end.

(** A string that occurs inside another one. *)
Definition substring_of (needle hay : string) : Prop :=
  ∃ pre post : string, hay = pre +:+ needle +:+ post.

End Js.

(** ** Viewer state, props and the rendering surface *)

Record EvidenceEntry := {
  pageNumber : Js.Field;      (* [ev.pageNumber] *)
  evidence : option string;   (* [ev.evidence],   [None] when the field is missing *)
}.

Record Props := {
  file : option string;
  evidences : list EvidenceEntry;
  targetPage : option Z;
}.

Record ViewerState := {
  numPages : option Z;
  zoom : Q;
  renderedPages : gmap Z bool;
  userPageInput : string;
  currentPage : option Z;
  pageOffset : Z;
  isEditingOffset : bool;
  offsetInput : string;
}.

(** The values given to [useState] on mount. *)
Definition initialState : ViewerState := {|
  numPages := None;
  zoom := 12 # 10;
  renderedPages := ∅;
  userPageInput := "";
  currentPage := None;
  pageOffset := 0;
  isEditingOffset := false;
  offsetInput := "0";
|}.

Definition setNumPages (n : option Z) (st : ViewerState) : ViewerState :=
  {| numPages := n; zoom := zoom st; renderedPages := renderedPages st;
     userPageInput := userPageInput st; currentPage := currentPage st;
     pageOffset := pageOffset st; isEditingOffset := isEditingOffset st;
     offsetInput := offsetInput st |}.

Definition setRenderedPages (f : gmap Z bool → gmap Z bool) (st : ViewerState) : ViewerState :=
  {| numPages := numPages st; zoom := zoom st; renderedPages := f (renderedPages st);
     userPageInput := userPageInput st; currentPage := currentPage st;
     pageOffset := pageOffset st; isEditingOffset := isEditingOffset st;
     offsetInput := offsetInput st |}.

Definition setUserPageInput (s : string) (st : ViewerState) : ViewerState :=
  {| numPages := numPages st; zoom := zoom st; renderedPages := renderedPages st;
     userPageInput := s; currentPage := currentPage st;
     pageOffset := pageOffset st; isEditingOffset := isEditingOffset st;
     offsetInput := offsetInput st |}.

Definition setCurrentPage (p : option Z) (st : ViewerState) : ViewerState :=
  {| numPages := numPages st; zoom := zoom st; renderedPages := renderedPages st;
     userPageInput := userPageInput st; currentPage := p;
     pageOffset := pageOffset st; isEditingOffset := isEditingOffset st;
     offsetInput := offsetInput st |}.

Definition setPageOffset (o : Z) (st : ViewerState) : ViewerState :=
  {| numPages := numPages st; zoom := zoom st; renderedPages := renderedPages st;
     userPageInput := userPageInput st; currentPage := currentPage st;
     pageOffset := o; isEditingOffset := isEditingOffset st;
     offsetInput := offsetInput st |}.

Definition setIsEditingOffset (b : bool) (st : ViewerState) : ViewerState :=
  {| numPages := numPages st; zoom := zoom st; renderedPages := renderedPages st;
     userPageInput := userPageInput st; currentPage := currentPage st;
     pageOffset := pageOffset st; isEditingOffset := b;
     offsetInput := offsetInput st |}.

Definition setOffsetInput (s : string) (st : ViewerState) : ViewerState :=
  {| numPages := numPages st; zoom := zoom st; renderedPages := renderedPages st;
     userPageInput := userPageInput st; currentPage := currentPage st;
     pageOffset := pageOffset st; isEditingOffset := isEditingOffset st;
     offsetInput := s |}.

(** A text span of a page's text layer. *)
Record Span := {
  textContent : option string;
  classList : list string;
}.

(** [dom !! n] is the element with id [page_<n>], given by the spans that
    [querySelectorAll(".textLayer span")] finds in it. *)
Abbreviation Dom := (gmap Z (list Span)).

(** What a handler asks of the rendering surface. *)
Inductive Request :=
  | ScrollIntoView (page : Z).

(** A handler result: the next state and the requests sent. *)
Abbreviation Step := (ViewerState * list Request)%type.

(** ** Readiness *)

(** [numPages && Object.keys(renderedPages).length >= numPages], as the value
    JavaScript computes: [null] or [0] when [numPages] is falsy, the
    comparison otherwise. *)
Inductive LoadedValue :=
  | LoadedNull
  | LoadedNum (n : Z)
  | LoadedBool (b : bool).

Definition isLoadedValue (st : ViewerState) : LoadedValue :=
  match numPages st with
  | None => LoadedNull
  | Some n =>
      if Js.truthyNum (Some n)
      then LoadedBool (n <=? Z.of_nat (size (renderedPages st)))
      else LoadedNum n
  end.

Definition truthyLoaded (v : LoadedValue) : bool :=
  match v with
  | LoadedNull => false
  | LoadedNum n => negb (n =? 0)
  | LoadedBool b => b
  end.

Definition isLoaded (st : ViewerState) : bool := truthyLoaded (isLoadedValue st).

(** ** Handlers *)

Definition scrollToPage (dom : Dom) (actualPageNum : Z) (st : ViewerState) : Step :=
  match dom !! actualPageNum with
  | Some _ => (setCurrentPage (Some actualPageNum) st, [ScrollIntoView actualPageNum])
  | None => (st, [])
  end.

Definition handlePageJump (dom : Dom) (st : ViewerState) : Step :=
  match Js.parseInt (userPageInput st) with
  | Some target =>
      let actual := target + pageOffset st in
      if (1 <=? actual) && (actual <=? Js.toNumber (numPages st))
      then scrollToPage dom actual st
      else (st, [])
  | None => (st, [])
  end.

Definition handleOffsetSave (st : ViewerState) : Step :=
  let newOffset := Js.parseInt (offsetInput st) in
  let st1 := match newOffset with
             | Some n => setPageOffset n st
             | None => st
             end in
  (setIsEditingOffset false st1, []).

(** The click on the offset button: [setIsEditingOffset(true)] and
    [setOffsetInput(pageOffset.toString())]. *)
Definition handleOffsetEdit (st : ViewerState) : Step :=
  (setOffsetInput (Js.toString (pageOffset st)) (setIsEditingOffset true st), []).

Definition onDocumentLoadSuccess (n : Z) (st : ViewerState) : ViewerState :=
  setNumPages (Some n) st.

Definition onPageRenderSuccess (pageNum : Z) (st : ViewerState) : ViewerState :=
  setRenderedPages (λ prev, <[pageNum := true]> prev) st.

(** ** Effects *)

(** [tryScrollToAnchor] of the hash effect. [closure] is the render the
    function was created in (it reads [isLoaded], [pageOffset] and
    [renderedPages] from there); [hash] is [window.location.hash] when it
    runs; [st] is the state its [setCurrentPage] acts on. *)
Definition tryScrollToAnchor (dom : Dom) (hash : string) (closure st : ViewerState) : Step :=
  if negb (isLoaded closure) || negb (Js.startsWith hash "#page-") then (st, [])
  else
    let printedPage := Js.parseInt (Js.replaceEmpty "#page-" hash) in
    let actualPage := (λ p, p + pageOffset closure) <$> printedPage in
    match actualPage with
    | Some a =>
        match renderedPages closure !! a with
        | Some true => scrollToPage dom a st
        | _ => (st, [])
        end
    | None => (st, [])
    end.

(** The effect on [targetPage, isLoaded, numPages]. *)
Definition targetPageEffect (props : Props) (dom : Dom) (closure st : ViewerState) : Step :=
  if Js.truthyNum (targetPage props) && isLoaded closure then
    let actualPage := Js.toNumber (targetPage props) + pageOffset closure in
    if (1 <=? actualPage) && (actualPage <=? Js.toNumber (numPages closure))
    then scrollToPage dom actualPage st
    else (st, [])
  else (st, []).

(** ** Evidence highlighting *)

Definition highlightTokens : list string :=
  ["bg-yellow-500"; "rounded-sm"; "px-[1px]"; "opacity-50"].

(** [DOMTokenList.add]: a token already in the list is not added again. *)
Definition classListAdd (tokens : list string) (cl : list string) : list string :=
  foldl (λ acc t, if decide (t ∈ acc) then acc else acc ++ [t]) cl tokens.

Definition addHighlight (span : Span) : Span :=
  {| textContent := textContent span;
     classList := classListAdd highlightTokens (classList span) |}.

(** [search && search.includes(spanText)] *)
Definition searchMatches (spanText : string) (search : option string) : bool :=
  match search with
  | Some s => negb (String.eqb s "") && Js.includes s spanText
  | None => false
  end.

(** The body of [spans.forEach]: the span after the loop over
    [evidenceText], and how many times [classList.add] was called on it. *)
Definition markSpan (evidenceText : list (option string)) (span : Span) : Span * nat :=
  match Js.toLowerCase <$> textContent span with
  | Some spanText =>
      if String.eqb spanText "" then (span, 0%nat)
      else foldl (λ acc search,
                    if searchMatches spanText search
                    then (addHighlight acc.1, S acc.2)
                    else acc)
                 (span, 0%nat) evidenceText
  | None => (span, 0%nat)
  end.

(** One call of [classList.add], by page and position of the span. *)
Record HighlightOp := {
  opPage : Z;
  opSpan : nat;
}.

Definition evidenceTextFor (props : Props) (st : ViewerState) (pageNum : Z)
  : list (option string) :=
  (λ ev, Js.toLowerCase <$> evidence ev) <$>
  filter (λ ev, ((λ n, n + pageOffset st) <$> Js.fieldNumber (pageNumber ev)) = Some pageNum)
         (evidences props).

Definition tryHighlight (props : Props) (st : ViewerState) (dom : Dom) (pageNum : Z)
  : Dom * list HighlightOp :=
  if decide (targetPage props = Some pageNum) then
    match dom !! pageNum with
    | None => (dom, [])
    | Some spans =>
        let evidenceText := evidenceTextFor props st pageNum in
        if (List.length evidenceText =? 0)%nat then (dom, [])
        else
          let marked := markSpan evidenceText <$> spans in
          (<[pageNum := fst <$> marked]> dom,
           mjoin (imap (λ i m, replicate m.2 {| opPage := pageNum; opSpan := i |}) marked))
    end
  else (dom, []).

(** The unused lookup: it reads the field [page_number], which the entries
    built by the page do not have, so the sum is [NaN] for every entry. *)
Definition getHighlightsForPage (props : Props) (st : ViewerState) (pageNum : Z)
  : list EvidenceEntry :=
  filter (λ ev, ((λ n : Z, n + pageOffset st) <$> (None : option Z)) = Some pageNum)
         (evidences props).

(** ** The viewer as an event loop *)

(** A mounted viewer: its props and state, the URL fragment, the render whose
    [tryScrollToAnchor] is the registered [hashchange] listener, and the
    rendering surface. *)
Record Session := {
  viewerProps : Props;
  viewerState : ViewerState;
  locationHash : string;
  hashListener : ViewerState;
  surface : Dom;
}.

Definition withState (st : ViewerState) (s : Session) : Session :=
  {| viewerProps := viewerProps s; viewerState := st; locationHash := locationHash s;
     hashListener := hashListener s; surface := surface s |}.

Definition withProps (props : Props) (s : Session) : Session :=
  {| viewerProps := props; viewerState := viewerState s; locationHash := locationHash s;
     hashListener := hashListener s; surface := surface s |}.

Definition withHash (h : string) (s : Session) : Session :=
  {| viewerProps := viewerProps s; viewerState := viewerState s; locationHash := h;
     hashListener := hashListener s; surface := surface s |}.

Definition withListener (l : ViewerState) (s : Session) : Session :=
  {| viewerProps := viewerProps s; viewerState := viewerState s; locationHash := locationHash s;
     hashListener := l; surface := surface s |}.

Definition withSurface (d : Dom) (s : Session) : Session :=
  {| viewerProps := viewerProps s; viewerState := viewerState s; locationHash := locationHash s;
     hashListener := hashListener s; surface := d |}.

Definition withTargetPage (t : option Z) (props : Props) : Props :=
  {| file := file props; evidences := evidences props; targetPage := t |}.

Inductive Event :=
  | DocumentLoadSuccess (n : Z)
  | PageRenderSuccess (p : Z)
  | RenderTextLayerSuccess (p : Z)
  | HashChange (h : string)
  | TargetPageChange (t : option Z)
  | PageInputChange (v : string)
  | ClickGo
  | ClickOffsetEdit
  | OffsetInputChange (v : string)
  | ClickOffsetSave
  | ClickPrevious
  | ClickNext
  | SurfaceChange (d : Dom).

#[global] Instance LoadedValue_eq_dec : EqDecision LoadedValue.
Proof. solve_decision. Defined.

(** The mount: both effects run on the initial state, where [isLoaded] is
    [null], so neither navigates; the hash listener is registered. *)
Definition mount (props : Props) (hash : string) (dom : Dom) : Session :=
  {| viewerProps := props; viewerState := initialState; locationHash := hash;
     hashListener := initialState; surface := dom |}.

(** After a render, React runs the effects whose dependencies changed, in
    the order of their declaration: the hash effect on
    [renderedPages, isLoaded], then the target effect on
    [targetPage, isLoaded, numPages]. [newRendered] says that
    [renderedPages] is a new object. [old] is the previous render. *)
Definition runEffects (newRendered : bool) (old new : Session) : Session * list Request :=
  let render := viewerState new in
  let loadedChanged :=
    negb (bool_decide (isLoadedValue (viewerState old) = isLoadedValue render)) in
  let hashDeps := newRendered || loadedChanged in
  let targetDeps :=
    negb (bool_decide (targetPage (viewerProps old) = targetPage (viewerProps new)))
    || loadedChanged
    || negb (bool_decide (numPages (viewerState old) = numPages render)) in
  let '(st1, r1) :=
    if hashDeps
    then tryScrollToAnchor (surface new) (locationHash new) render render
    else (render, []) in
  let listener := if hashDeps then render else hashListener new in
  let '(st2, r2) :=
    if targetDeps
    then targetPageEffect (viewerProps new) (surface new) render st1
    else (st1, []) in
  (withListener listener (withState st2 new), r1 ++ r2).

(** A handler of the toolbar: its state change, then the effects. *)
Definition handle (h : ViewerState → Step) (s : Session) : Session * list Request :=
  let '(st', r) := h (viewerState s) in
  let '(s', r') := runEffects false s (withState st' s) in
  (s', r ++ r').

Definition step (e : Event) (s : Session) : Session * list Request :=
  match e with
  | DocumentLoadSuccess n =>
      runEffects false s (withState (onDocumentLoadSuccess n (viewerState s)) s)
  | PageRenderSuccess p =>
      runEffects true s (withState (onPageRenderSuccess p (viewerState s)) s)
  | RenderTextLayerSuccess p =>
      (withSurface (tryHighlight (viewerProps s) (viewerState s) (surface s) p).1 s, [])
  | HashChange h =>
      let '(st', r) :=
        tryScrollToAnchor (surface s) h (hashListener s) (viewerState s) in
      (withState st' (withHash h s), r)
  | TargetPageChange t =>
      runEffects false s (withProps (withTargetPage t (viewerProps s)) s)
  | PageInputChange v => handle (λ st, (setUserPageInput v st, [])) s
  | ClickGo => handle (handlePageJump (surface s)) s
  | ClickOffsetEdit => handle handleOffsetEdit s
  | OffsetInputChange v => handle (λ st, (setOffsetInput v st, [])) s
  | ClickOffsetSave => handle handleOffsetSave s
  | ClickPrevious =>
      handle (λ st, scrollToPage (surface s)
                      (Z.max 1 ((if Js.truthyNum (currentPage st)
                                 then Js.toNumber (currentPage st) else 1) - 1)) st) s
  | ClickNext =>
      handle (λ st, scrollToPage (surface s)
                      (Z.min (Js.toNumber (numPages st))
                             ((if Js.truthyNum (currentPage st)
                               then Js.toNumber (currentPage st) else 1) + 1)) st) s
  | SurfaceChange d => (withSurface d s, [])
  end.

Fixpoint run (es : list Event) (s : Session) : Session * list Request :=
  match es with
  | [] => (s, [])
  | e :: es' =>
      let '(s1, r1) := step e s in
      let '(s2, r2) := run es' s1 in
      (s2, r1 ++ r2)
  end.

(** ** The page that hosts the viewer *)

Module RunEvaluationPage.
Section Host.

(** The evaluation result, as the backend returns it. *)
Variable Result : Type.

Record HostState := {
  evaluationData : option Result;
  pdfBlobUrl : option string;
  pdfVisible : bool;
  error : option string;
  isLoading : bool;
  targetPage : option Z;
}.

(** The page: its own state and the state of the viewer, which exists
    while [pdfVisible && <AdvancedPDFViewer .../>] renders it. *)
Record Page := {
  host : HostState;
  viewer : option ViewerState;
}.

Definition initialHost : HostState :=
  {| evaluationData := None; pdfBlobUrl := None; pdfVisible := false;
     error := None; isLoading := false; targetPage := None |}.

Definition initialPage : Page := {| host := initialHost; viewer := None |}.

(** A render of the page with host state [h]: a viewer that stays rendered
    keeps its state, one that appears is mounted on the initial state,
    one that is no longer rendered is unmounted and its state is lost. *)
Definition render (h : HostState) (pg : Page) : Page :=
  {| host := h;
     viewer := if pdfVisible h
               then Some (default initialState (viewer pg))
               else None |}.

(** An uploaded file, with the URL [URL.createObjectURL] gives it. *)
Record UploadedFile := {
  fileName : string;
  objectURL : string;
}.

(** [handleEvaluate] up to its first [await]. *)
Definition handleEvaluate (f : option UploadedFile) (pg : Page) : Page :=
  match f with
  | None => pg
  | Some f =>
      let h := host pg in
      render {| evaluationData := evaluationData h;
                pdfBlobUrl := Some (objectURL f);
                pdfVisible := false;
                error := None;
                isLoading := true;
                targetPage := targetPage h |} pg
  end.

(** [handleEvaluate] after the evaluation settled: with its result, or
    with the message of the error it threw. *)
Definition handleEvaluate_settled (outcome : Result + string) (pg : Page) : Page :=
  let h := host pg in
  render {| evaluationData := match outcome with inl r => Some r | inr _ => None end;
            pdfBlobUrl := pdfBlobUrl h;
            pdfVisible := pdfVisible h;
            error := match outcome with
                     | inl _ => error h
                     | inr m => Some (if String.eqb m "" then "Analysis failed. Please try again." else m)
                     end;
            isLoading := false;
            targetPage := targetPage h |} pg.

Definition handleOpenPDF (pageNum : option Z) (pg : Page) : Page :=
  let h := host pg in
  render {| evaluationData := evaluationData h;
            pdfBlobUrl := pdfBlobUrl h;
            pdfVisible := if negb (pdfVisible h) then true else pdfVisible h;
            error := error h;
            isLoading := isLoading h;
            targetPage := pageNum |} pg.

(** The props the page gives the viewer; the evidence list is computed
    from the result by [flatten]. *)
Definition propsFor (flatten : option Result → list EvidenceEntry) (h : HostState) : Props :=
  Build_Props (pdfBlobUrl h) (flatten (evaluationData h)) (targetPage h).

End Host.

Arguments evaluationData {Result} _.
Arguments pdfBlobUrl {Result} _.
Arguments pdfVisible {Result} _.
Arguments error {Result} _.
Arguments isLoading {Result} _.
Arguments targetPage {Result} _.
Arguments host {Result} _.
Arguments viewer {Result} _.
Arguments render {Result} _ _.
Arguments handleEvaluate {Result} _ _.
Arguments handleEvaluate_settled {Result} _ _.
Arguments handleOpenPDF {Result} _ _.

(** The state a document session is made of, as the specification lists it
    (render state, offset-edit mode, pending navigation target), is gone:
    no viewer is mounted and no target page is pending. *)
Definition sessionDiscarded {Result : Type} (pg : Page Result) : Prop :=
  viewer pg = None ∧ targetPage (host pg) = None.

(** A first document is evaluated and the citation of its page 5 is opened. *)
Definition firstReport : UploadedFile :=
  {| fileName := "first.pdf"; objectURL := "blob:first" |}.

Definition secondReport : UploadedFile :=
  {| fileName := "second.pdf"; objectURL := "blob:second" |}.

Definition citationOpened : Page unit :=
  handleOpenPDF (Some 5)
    (handleEvaluate_settled (inl tt)
       (handleEvaluate (Some firstReport) (initialPage unit))).

End RunEvaluationPage.

(** ** Scenarios used below *)

(** A state of a loaded document of [n] pages, all rendered. *)
Definition loadedState (n : Z) : ViewerState :=
  foldr onPageRenderSuccess (onDocumentLoadSuccess n initialState) (seqZ 1 n).

(** A surface with the anchors of pages 1 to [n] and no text yet. *)
Definition blankSurface (n : Z) : Dom :=
  list_to_map ((λ k, (k, [])) <$> seqZ 1 n).

(** Two states that differ at most in [currentPage]. *)
Definition sameButCurrentPage (st st' : ViewerState) : Prop :=
  numPages st' = numPages st ∧ zoom st' = zoom st ∧
  renderedPages st' = renderedPages st ∧ userPageInput st' = userPageInput st ∧
  pageOffset st' = pageOffset st ∧ isEditingOffset st' = isEditingOffset st ∧
  offsetInput st' = offsetInput st.

(** Two states that differ at most in [pageOffset] and [isEditingOffset]. *)
Definition sameButOffsetControl (st st' : ViewerState) : Prop :=
  numPages st' = numPages st ∧ zoom st' = zoom st ∧
  renderedPages st' = renderedPages st ∧ userPageInput st' = userPageInput st ∧
  currentPage st' = currentPage st ∧ offsetInput st' = offsetInput st.

(** A sequence of page-render-complete signals, in the order they arrive. *)
Definition recordRendered (ps : list Z) (st : ViewerState) : ViewerState :=
  foldl (λ acc p, onPageRenderSuccess p acc) st ps.

(** Readiness as the specification words it: the page count is known and
    every page of [1, count] was recorded. *)
Definition readyAsSpecified (st : ViewerState) (ps : list Z) : Prop :=
  isLoaded (recordRendered ps st) = true ↔
  ∃ n, numPages st = Some n ∧ ∀ i, 1 ≤ i ≤ n → i ∈ ps.

(** Whether the loop over [evidenceText] reaches [classList.add] for a span. *)
Definition spanMatches (evidenceText : list (option string)) (span : Span) : bool :=
  match Js.toLowerCase <$> textContent span with
  | Some spanText =>
      negb (String.eqb spanText "") && existsb (searchMatches spanText) evidenceText
  | None => false
  end.

(** A span that carries the highlight. *)
Definition marked (span : Span) : Prop := "bg-yellow-500" ∈ classList span.

(** An evidence entry with both of its fields: a page number that is a
    number, and a text. *)
Definition wellFormed (ev : EvidenceEntry) : bool :=
  match pageNumber ev, evidence ev with
  | Js.Num _, Some _ => true
  | _, _ => false
  end.

(** An entry that has no [pageNumber] field at all, or no text. *)
Definition lacksField (ev : EvidenceEntry) : bool :=
  match pageNumber ev, evidence ev with
  | Js.Undefined, _ => true
  | _, None => true
  | _, _ => false
  end.

(** Malformed entries as the specification has them: highlighting is what it
    is on the list of the well-formed entries alone. *)
Definition malformedIgnoredAsSpecified : Prop :=
  ∀ (props : Props) (st : ViewerState) (dom : Dom) (pageNum : Z),
    tryHighlight props st dom pageNum =
    tryHighlight
      {| file := file props;
         evidences := filter (λ ev, wellFormed ev = true) (evidences props);
         targetPage := targetPage props |} st dom pageNum.

(** An entry whose page number is [null], in a viewer with offset 3 asked
    for page 3, whose text layer holds the text of the entry. *)
Definition nullPageProps : Props :=
  {| file := Some "blob:report";
     evidences := [ {| pageNumber := Js.Null; evidence := Some "alpha" |} ];
     targetPage := Some 3 |}.

Definition nullPageState : ViewerState := setPageOffset 3 initialState.

Definition nullPageSurface : Dom := {[ 3 := [ {| textContent := Some "alpha"; classList := [] |} ] ]}.

Definition withEvidences (evs : list EvidenceEntry) (props : Props) : Props :=
  {| file := file props; evidences := evs; targetPage := targetPage props |}.

Definition plainSpan (text : string) : Span :=
  {| textContent := Some text; classList := [] |}.

(** The example of the specification: one evidence text on printed page 5
    of a ten-page document, no offset, and two fragments on page 5. *)
Definition foxProps : Props :=
  {| file := Some "blob:report";
     evidences := [ {| pageNumber := Js.Num 5; evidence := Some "The quick brown fox" |} ];
     targetPage := Some 5 |}.

Definition foxSurface : Dom :=
  <[5 := [plainSpan "Quick brown"; plainSpan "xyz"]]> (blankSurface 10).

(** A session with an offset: the user set the offset to 2 and then opened
    the citation of printed page 5. Evidence of printed page 5 reads "beta"
    and sits on physical page 7; evidence of printed page 3 reads "alpha" and
    sits on physical page 5. *)
Definition offsetProps : Props :=
  {| file := Some "blob:report";
     evidences := [ {| pageNumber := Js.Num 5; evidence := Some "beta" |};
                    {| pageNumber := Js.Num 3; evidence := Some "alpha" |} ];
     targetPage := Some 5 |}.

Definition offsetState : ViewerState := setPageOffset 2 (loadedState 10).

Definition offsetSurface : Dom :=
  <[5 := [plainSpan "alpha"]]> (<[7 := [plainSpan "beta"]]> (blankSurface 10)).

(** The same session as a run of the viewer: the document loads, its pages
    render, the user saves the offset 2, the host asks for printed page 5,
    and the text layers of pages 7 and 5 complete. *)
Definition offsetTrace : list Event :=
  [DocumentLoadSuccess 10; SurfaceChange offsetSurface] ++
  (PageRenderSuccess <$> seqZ 1 10) ++
  [ClickOffsetEdit; OffsetInputChange "2"; ClickOffsetSave;
   TargetPageChange (Some 5);
   RenderTextLayerSuccess 7; RenderTextLayerSuccess 5].

(** Sessions the viewer can be in: those a run of events reaches from a mount. *)
Definition reachable (s : Session) : Prop :=
  ∃ props hash dom es, (run es (mount props hash dom)).1 = s.

(** The registered hash listener sees the readiness and the render map of
    the current state. *)
Definition listenerCurrent (s : Session) : Prop :=
  isLoadedValue (hashListener s) = isLoadedValue (viewerState s) ∧
  renderedPages (hashListener s) = renderedPages (viewerState s).

(** Two states with the same page count and render map. *)
Definition sameTracking (st st' : ViewerState) : Prop :=
  numPages st' = numPages st ∧ renderedPages st' = renderedPages st.

(** The render map holds [true] for pages of [1, n] only. *)
Definition wellTracked (n : Z) (st : ViewerState) : Prop :=
  map_Forall (λ k v, v = true ∧ 1 ≤ k ≤ n) (renderedPages st).

(** A deep link arriving early: a three-page document loads, the fragment
    is set to page 2 and then to page 3 while pages 1 and 2 render. *)
Definition earlyLinkProps : Props :=
  {| file := Some "blob:report"; evidences := []; targetPage := None |}.

Definition earlyLinkTrace : list Event :=
  [DocumentLoadSuccess 3; SurfaceChange (blankSurface 3);
   HashChange "#page-2"; PageRenderSuccess 1;
   HashChange "#page-3"; PageRenderSuccess 2].

Definition earlyLinkSession : Session :=
  (run earlyLinkTrace (mount earlyLinkProps "" ∅)).1.

(** A jump to printed page 12 of a ten-page document. *)
Definition outOfRangeJump : Session :=
  withState (setUserPageInput "12" (loadedState 10))
            (mount foxProps "" (blankSurface 10)).

(** An offset edit whose buffer is not a number, over a committed offset 2. *)
Definition badOffsetEdit : ViewerState :=
  setOffsetInput "x1" (setIsEditingOffset true (setPageOffset 2 initialState)).

(** The number a run of decimal digits stands for, read from the left with
    [acc] the value of the digits read so far. *)
Fixpoint digitsValue (d : Decimal.uint) (acc : Z) : Z :=
  match d with
  | Decimal.Nil => acc
  | Decimal.D0 l => digitsValue l (10 * acc + 0)
  | Decimal.D1 l => digitsValue l (10 * acc + 1)
  | Decimal.D2 l => digitsValue l (10 * acc + 2)
  | Decimal.D3 l => digitsValue l (10 * acc + 3)
  | Decimal.D4 l => digitsValue l (10 * acc + 4)
  | Decimal.D5 l => digitsValue l (10 * acc + 5)
  | Decimal.D6 l => digitsValue l (10 * acc + 6)
  | Decimal.D7 l => digitsValue l (10 * acc + 7)
  | Decimal.D8 l => digitsValue l (10 * acc + 8)
  | Decimal.D9 l => digitsValue l (10 * acc + 9)
  end.

(** A string of white space only. *)
Fixpoint allWhiteSpace (s : string) : bool :=
  match s with
  | String c s' => Js.isWhiteSpace c && allWhiteSpace s'
  | EmptyString => true
  end.

(** A string that does not go on with a digit. *)
Definition noLeadingDigit (s : string) : bool :=
  match s with
  | String c _ => match Js.digitValue c with Some _ => false | None => true end
  | EmptyString => true
  end.

(** An offset of -2 in a ten-page document, and printed page 7 typed into
    the page input. *)
Definition negativeOffsetJump : ViewerState :=
  setUserPageInput "7" (setPageOffset (-2) (loadedState 10)).

(** The page of the last request of a list. *)
Definition lastRequested (rs : list Request) : option Z :=
  (λ r, match r with ScrollIntoView a => a end) <$> last rs.

(** What a handler result shows of navigation, from state [st] on surface
    [dom]: every request is for a page whose anchor is there, and the
    current page is that of the last request, or the one before when
    nothing was requested. *)
Definition navigationSound (dom : Dom) (st : ViewerState) (res : Step) : Prop :=
  Forall (λ r, ∃ a, r = ScrollIntoView a ∧ is_Some (dom !! a)) res.2 ∧
  currentPage res.1 = match lastRequested res.2 with
                      | Some a => Some a
                      | None => currentPage st
                      end.

(** ** The evaluation result and its evidence *)

Module EvaluationResult.

(** An evidence item of the result, [{ pageNumber, pageText }]. *)
Record SourceEvidence := {
  pageNumber : Js.Field;
  pageText : option string;
}.

Module Transaction.
(** An item of [transactionDetails]; [evidence] is [None] when the field
    is missing. *)
Record t := {
  evidence : option (list SourceEvidence);
}.
End Transaction.

Record Rule := {
  ruleName : string;
  transactionDetails : option (list Transaction.t);
  evidence : option (list SourceEvidence);
}.

(** [ev => ({ pageNumber: ev.pageNumber, evidence: ev.pageText })] *)
Definition toEntry (ev : SourceEvidence) : EvidenceEntry :=
  Build_EvidenceEntry (pageNumber ev) (pageText ev).

(** [l.flatMap(f)] where [f] may raise a [TypeError], which is [None]. *)
Definition flatMap {A B : Type} (f : A → option (list B)) (l : list A) : option (list B) :=
  mjoin <$> mapM f l.

(** What one rule contributes. Reading [flatMap] or [map] off a missing
    [transactionDetails] or a missing [transaction.evidence] raises. *)
Definition ruleEvidences (rule : Rule) : option (list EvidenceEntry) :=
  if String.eqb (ruleName rule) "Contemplated Transactions" then
    match transactionDetails rule with
    | Some details =>
        flatMap (λ transaction,
                   match Transaction.evidence transaction with
                   | Some evs => Some (toEntry <$> evs)
                   | None => None
                   end) details
    | None => None
    end
  else
    Some (match evidence rule with
          | Some evs => toEntry <$> evs
          | None => []
          end).

Definition getAllEvidences (rules : option (list Rule)) : option (list EvidenceEntry) :=
  match rules with
  | None => Some []
  | Some rules => flatMap ruleEvidences rules
  end.

End EvaluationResult.

(** ** The page as an event loop *)

(** What the page can receive: a submission from the upload panel, whose
    button is disabled while an evaluation runs; the end of the running
    evaluation; a click on a citation, which the result panel shows only
    when there is a result. *)
Inductive HostEvent (Result : Type) :=
  | Submit (f : option RunEvaluationPage.UploadedFile)
  | Settle (outcome : Result + string)
  | OpenCitation (pageNum : option Z).

Arguments Submit {Result} f.
Arguments Settle {Result} outcome.
Arguments OpenCitation {Result} pageNum.

Definition hostStep {Result : Type} (e : HostEvent Result)
    (pg : RunEvaluationPage.Page Result) : RunEvaluationPage.Page Result :=
  match e with
  | Submit f =>
      if RunEvaluationPage.isLoading (RunEvaluationPage.host pg) then pg
      else RunEvaluationPage.handleEvaluate f pg
  | Settle outcome =>
      if RunEvaluationPage.isLoading (RunEvaluationPage.host pg)
      then RunEvaluationPage.handleEvaluate_settled outcome pg
      else pg
  | OpenCitation p =>
      match RunEvaluationPage.evaluationData (RunEvaluationPage.host pg) with
      | Some _ => RunEvaluationPage.handleOpenPDF p pg
      | None => pg
      end
  end.

Definition hostRun {Result : Type} (es : list (HostEvent Result))
    (pg : RunEvaluationPage.Page Result) : RunEvaluationPage.Page Result :=
  foldl (λ acc e, hostStep e acc) pg es.

(** ** The upload panel *)

Module UploadPanel.

Record File := {
  name : string;
  type : string;
}.

Record State := {
  selectedFile : option File;
  regulation : string;
}.

Definition initialState : State := {| selectedFile := None; regulation := "" |}.

Inductive Level := Info | Warn.

(** What a handler of the panel does besides setting state: a line of the
    log (its first argument), an alert, or the call of [onEvaluate]. *)
Inductive Output :=
  | Log (level : Level) (message : string)
  | Alert (message : string)
  | OnEvaluate (f : File) (regulation : string).

(** [files] is [e.target.files]; the file read is [files?.[0]]. *)
Definition handleFileChange (files : option (list File)) (st : State) : State * list Output :=
  match files ≫= head with
  | Some f =>
      if negb (String.eqb (type f) "application/pdf")
      then (st, [Log Info "File selected:"; Alert "Please upload a valid PDF file."])
      else ({| selectedFile := Some f; regulation := regulation st |},
            [Log Info "File selected:"])
  | None => (st, [Log Warn "No file selected"])
  end.

Definition handleSubmit (st : State) : State * list Output :=
  match selectedFile st with
  | Some f =>
      if String.eqb (regulation st) ""
      then (st, [Log Warn "Submission attempted with missing file or regulation";
                 Alert "Please upload a prospectus PDF and select a regulatory framework before proceeding."])
      else (st, [Log Info "Submitting evaluation"; OnEvaluate f (regulation st)])
  | None =>
      (st, [Log Warn "Submission attempted with missing file or regulation";
            Alert "Please upload a prospectus PDF and select a regulatory framework before proceeding."])
  end.

Inductive Event :=
  | FileChange (files : option (list File))
  | RegulationChange (value : string)
  | ClickEvaluate.

Definition step (e : Event) (st : State) : State * list Output :=
  match e with
  | FileChange files => handleFileChange files st
  | RegulationChange value => ({| selectedFile := selectedFile st; regulation := value |}, [])
  | ClickEvaluate => handleSubmit st
  end.

Fixpoint run (es : list Event) (st : State) : State * list Output :=
  match es with
  | [] => (st, [])
  | e :: es' =>
      let '(st1, o1) := step e st in
      let '(st2, o2) := run es' st1 in
      (st2, o1 ++ o2)
  end.

End UploadPanel.

(** A result with one ordinary rule and one rule of transactions. *)
Definition sampleRules : list EvaluationResult.Rule :=
  [ {| EvaluationResult.ruleName := "Plan Asset Rule";
       EvaluationResult.transactionDetails := None;
       EvaluationResult.evidence :=
         Some [ {| EvaluationResult.pageNumber := Js.Num 342;
                   EvaluationResult.pageText := Some "Each original purchaser" |} ] |};
    {| EvaluationResult.ruleName := "Contemplated Transactions";
       EvaluationResult.transactionDetails :=
         Some [ {| EvaluationResult.Transaction.evidence :=
                     Some [ {| EvaluationResult.pageNumber := Js.Num 12;
                               EvaluationResult.pageText := Some "sale of notes" |} ] |} ];
       EvaluationResult.evidence := None |} ].

(** A panel with a PDF selected and a regulation chosen. *)
Definition readyPanel : UploadPanel.State :=
  {| UploadPanel.selectedFile :=
       Some {| UploadPanel.name := "prospectus.pdf"; UploadPanel.type := "application/pdf" |};
     UploadPanel.regulation := "ERISA" |}.

(** ** The result panel *)

Module EvaluationPanel.

Definition isUpper (c : ascii) : bool :=
  let n := N_of_ascii c in ((65 <=? n) && (n <=? 90))%N.

(** [c.toUpperCase()] on a character, ASCII range. *)
Definition upperChar (c : ascii) : ascii :=
  let n := N_of_ascii c in
  if ((97 <=? n) && (n <=? 122))%N then ascii_of_N (n - 32) else c.

(** [key.replace(/([A-Z])/g, ' $1')] *)
Fixpoint spaceBeforeCapitals (s : string) : string :=
  match s with
  | String c s' =>
      if isUpper c then String " " (String c (spaceBeforeCapitals s'))
      else String c (spaceBeforeCapitals s')
  | EmptyString => EmptyString
  end.

(** [s.split(sep)] for a separator of one character; the result is never
    empty. *)
Fixpoint split (sep : ascii) (s : string) : list string :=
  match s with
  | String c s' =>
      if Ascii.eqb c sep then EmptyString :: split sep s'
      else match split sep s' with
           | w :: ws => String c w :: ws
           | [] => [String c EmptyString]
           end
  | EmptyString => [EmptyString]
  end.

(** [l.join(sep)] *)
Fixpoint join (sep : ascii) (l : list string) : string :=
  match l with
  | [] => EmptyString
  | [w] => w
  | w :: ws => w +:+ String sep (join sep ws)
  end.

(** [word.charAt(0).toUpperCase() + word.slice(1)] *)
Definition capitalize (word : string) : string :=
  match word with
  | String c w => String (upperChar c) w
  | EmptyString => EmptyString
  end.

(** The callback of [map]: the word of index 0 is capitalized. *)
Definition capitalizeFirst (words : list string) : list string :=
  match words with
  | w :: ws => capitalize w :: ws
  | [] => []
  end.

Fixpoint trimEnd (s : string) : string :=
  match s with
  | String c s' =>
      match trimEnd s' with
      | EmptyString => if Js.isWhiteSpace c then EmptyString else String c EmptyString
      | rest => String c rest
      end
  | EmptyString => EmptyString
  end.

Definition trim (s : string) : string := trimEnd (Js.trimStart s).

Definition formatLabel (key : string) : string :=
  trim (join " " (capitalizeFirst (split " " (spaceBeforeCapitals key)))).

(** A key without white space, as the field names of a result are. *)
Fixpoint noWhiteSpace (s : string) : bool :=
  match s with
  | String c s' => negb (Js.isWhiteSpace c) && noWhiteSpace s'
  | EmptyString => true
  end.

Fixpoint removeSpaces (s : string) : string :=
  match s with
  | String c s' => if Ascii.eqb c " " then removeSpaces s' else String c (removeSpaces s')
  | EmptyString => EmptyString
  end.

End EvaluationPanel.

(** A loaded three-page viewer whose URL carries the fragment of page 2. *)
Definition linkedSession : Session :=
  (run [DocumentLoadSuccess 3; SurfaceChange (blankSurface 3);
        PageRenderSuccess 1; PageRenderSuccess 2; PageRenderSuccess 3]
       (mount earlyLinkProps "#page-2" ∅)).1.

(** A first evaluation that succeeds, its citation of page 5 opened, and a
    second submission while the viewer is shown. *)
Definition twoSubmissions : list (HostEvent unit) :=
  [Submit (Some RunEvaluationPage.firstReport); Settle (inl tt);
   OpenCitation (Some 5); Submit (Some RunEvaluationPage.secondReport);
   OpenCitation (Some 7)].

(** A text file is chosen, then a PDF and a regulation, and the button is
    clicked before and after. *)
Definition panelSession : list UploadPanel.Event :=
  [UploadPanel.FileChange
     (Some [ {| UploadPanel.name := "notes.txt"; UploadPanel.type := "text/plain" |} ]);
   UploadPanel.ClickEvaluate;
   UploadPanel.FileChange
     (Some [ {| UploadPanel.name := "prospectus.pdf"; UploadPanel.type := "application/pdf" |} ]);
   UploadPanel.RegulationChange "ERISA";
   UploadPanel.ClickEvaluate].

(** A ten-page document is loaded and rendered with the offset 0, and the
    offset 2 is saved afterwards: the registered hash listener is the one of
    the last render that registered it, with the offset 0. *)
Definition staleListenerTrace : list Event :=
  [DocumentLoadSuccess 10; SurfaceChange (blankSurface 10)] ++
  (PageRenderSuccess <$> seqZ 1 10) ++
  [ClickOffsetEdit; OffsetInputChange "2"; ClickOffsetSave].

Definition staleListenerSession : Session :=
  (run staleListenerTrace (mount foxProps "" (blankSurface 10))).1.

(** ** Inputs that are integers *)

Fixpoint allDigits (s : string) : bool :=
  match s with
  | String c s' => match Js.digitValue c with Some _ => allDigits s' | None => false end
  | EmptyString => true
  end.

(** A string that is an integer numeral as a whole: an optional sign and one
    or more digits. This is the reading of "parses as an integer" under
    which "3.7" and "1e2" do not. *)
Definition integerNumeral (s : string) : bool :=
  match s with
  | String "-"%char r => negb (String.eqb r "") && allDigits r
  | String "+"%char r => negb (String.eqb r "") && allDigits r
  | r => negb (String.eqb r "") && allDigits r
  end.

(** A string that begins, after white space and at most one sign, with a
    digit. *)
Definition leadingInteger (s : string) : Prop :=
  ∃ (ws sign : string) (c : ascii) (rest : string),
    allWhiteSpace ws = true ∧
    (sign = EmptyString ∨ sign = "+"%string ∨ sign = "-"%string) ∧
    is_Some (Js.digitValue c) ∧
    s = ws +:+ sign +:+ String c rest.

(** The page jump as the specification has it: an input that is not an
    integer numeral is discarded. *)
Definition pageJumpAsSpecified : Prop :=
  ∀ (dom : Dom) (st : ViewerState),
    integerNumeral (userPageInput st) = false → handlePageJump dom st = (st, []).

(** The offset save as the specification has it: a buffer that is not an
    integer numeral leaves the offset. *)
Definition offsetSaveAsSpecified : Prop :=
  ∀ st : ViewerState,
    isEditingOffset st = true → integerNumeral (offsetInput st) = false →
    pageOffset (handleOffsetSave st).1 = pageOffset st.

(** The page input "3.7" in a loaded ten-page document. *)
Definition decimalJump : Session :=
  withState (setUserPageInput "3.7" (loadedState 10))
            (mount foxProps "" (blankSurface 10)).

(** The offset buffer "2.5" over the initial offset 0. *)
Definition decimalOffsetEdit : ViewerState :=
  setOffsetInput "2.5" (setIsEditingOffset true initialState).

(** ** Navigation *)

Lemma session_eta (s : Session) :
  withListener (hashListener s) (withState (viewerState s) s) = s.
Proof. by destruct s. Qed.

Lemma withState_same (s : Session) : withState (viewerState s) s = s.
Proof. by destruct s. Qed.

(** Effects whose dependencies did not change do not run. *)
Lemma runEffects_same (s : Session) : runEffects false s s = (s, []).
Proof.
  unfold runEffects.
  rewrite !bool_decide_eq_true_2 by done. simpl.
  by rewrite session_eta.
Qed.

Lemma handle_noop (h : ViewerState → Step) (s : Session) :
  h (viewerState s) = (viewerState s, []) → handle h s = (s, []).
Proof.
  intros Hh. unfold handle. rewrite Hh, withState_same, runEffects_same. done.
Qed.

(** C10: a navigation request to physical page [a] sets the current page to
    [a] and scrolls exactly when the surface has the anchor of page [a];
    with the anchor absent the state is returned as it was and nothing is
    requested of the surface. *)
Theorem scrollToPage_atomic (dom : Dom) (a : Z) (st : ViewerState) :
  (is_Some (dom !! a) ↔
     (scrollToPage dom a st).2 = [ScrollIntoView a] ∧
     currentPage (scrollToPage dom a st).1 = Some a ∧
     sameButCurrentPage st (scrollToPage dom a st).1)
  ∧ (dom !! a = None ↔ scrollToPage dom a st = (st, [])).
Proof.
  unfold scrollToPage. destruct (dom !! a) as [spans|] eqn:Ha; simpl.
  - split; split.
    + intros _. by repeat split.
    + intros _. by eexists.
    + discriminate.
    + intros H. by injection H.
  - split; split.
    + intros [? ?]. discriminate.
    + intros [H _]. discriminate.
    + done.
    + done.
Qed.

(** ** Readiness *)

Lemma recordRendered_fields (ps : list Z) (st : ViewerState) :
  numPages (recordRendered ps st) = numPages st ∧
  dom (renderedPages (recordRendered ps st)) = list_to_set ps ∪ dom (renderedPages st).
Proof.
  revert st. induction ps as [|p ps IH]; intros st; simpl.
  - split; [done|]. by rewrite (left_id_L ∅ (∪)).
  - destruct (IH (onPageRenderSuccess p st)) as [-> ->]. simpl.
    split; [done|].
    rewrite dom_insert_L, !(assoc_L (∪)). f_equal. apply (comm_L (∪)).
Qed.

Lemma size_pages (n : Z) :
  0 ≤ n → size (list_to_set (seqZ 1 n) : gset Z) = Z.to_nat n.
Proof.
  intros Hn. rewrite size_list_to_set by apply NoDup_seqZ.
  by rewrite length_seqZ.
Qed.

(** Counting the distinct recorded pages decides whether all were recorded. *)
Lemma recorded_all_iff (n : Z) (ps : list Z) :
  0 ≤ n → Forall (λ p, 1 ≤ p ≤ n) ps →
  (n ≤ Z.of_nat (size (list_to_set ps : gset Z)) ↔ ∀ i, 1 ≤ i ≤ n → i ∈ ps).
Proof.
  intros Hn Hps.
  assert (Hsub : (list_to_set ps : gset Z) ⊆ list_to_set (seqZ 1 n)).
  { intros i Hi. apply elem_of_list_to_set in Hi. apply elem_of_list_to_set.
    apply elem_of_seqZ. rewrite Forall_forall in Hps. specialize (Hps i Hi). lia. }
  split.
  - intros Hsize i Hi.
    assert (Heq : (list_to_set ps : gset Z) = list_to_set (seqZ 1 n)).
    { apply set_subseteq_size_eq; [done|]. rewrite size_pages by done. lia. }
    apply (elem_of_list_to_set (C := gset Z)). rewrite Heq.
    apply elem_of_list_to_set, elem_of_seqZ. lia.
  - intros Hall.
    assert (Hsup : (list_to_set (seqZ 1 n) : gset Z) ⊆ list_to_set ps).
    { intros i Hi. apply elem_of_list_to_set in Hi. apply elem_of_seqZ in Hi.
      apply elem_of_list_to_set, Hall. lia. }
    apply subseteq_size in Hsup. rewrite size_pages in Hsup by done. lia.
Qed.

Lemma size_recordRendered (ps : list Z) (st : ViewerState) :
  renderedPages st = ∅ →
  size (renderedPages (recordRendered ps st)) = size (list_to_set ps : gset Z).
Proof.
  intros Hempty. rewrite <- size_dom.
  destruct (recordRendered_fields ps st) as [_ ->].
  by rewrite Hempty, dom_empty_L, (right_id_L ∅ (∪)).
Qed.

(** C2, as the code has it: over recordings of pages of [1, n], in any order
    and with duplicates, the viewer is loaded exactly when the page count
    [n] is known, is at least 1, and every page of [1, n] was recorded. *)
Theorem isLoaded_iff_all_recorded (st : ViewerState) (ps : list Z) :
  renderedPages st = ∅ →
  (∀ n, numPages st = Some n → 0 ≤ n ∧ Forall (λ p, 1 ≤ p ≤ n) ps) →
  (isLoaded (recordRendered ps st) = true ↔
   ∃ n, numPages st = Some n ∧ 1 ≤ n ∧ ∀ i, 1 ≤ i ≤ n → i ∈ ps).
Proof.
  intros Hempty Hrange. unfold isLoaded, isLoadedValue.
  destruct (recordRendered_fields ps st) as [-> _].
  rewrite size_recordRendered by done.
  destruct (numPages st) as [n|] eqn:Hn; simpl.
  - destruct (Hrange n eq_refl) as [Hn0 Hps].
    destruct (Z.eqb_spec n 0) as [->|Hne]; simpl.
    + split; [discriminate|]. intros (m & [= <-] & Hm & _). lia.
    + rewrite Z.leb_le, recorded_all_iff by done.
      split.
      * intros Hall. exists n. repeat split; [lia|done].
      * intros (m & [= <-] & _ & Hall). done.
  - split; [discriminate|]. intros (m & Hm & _). discriminate.
Qed.

(** C2, as stated, fails on a document of zero pages: its page count is known
    and no page of [1, 0] is missing, yet [numPages && ...] is [0]. *)
Lemma readyAsSpecified_fails_on_zero_pages :
  ¬ readyAsSpecified (onDocumentLoadSuccess 0 initialState) [].
Proof.
  unfold readyAsSpecified. intros [_ H].
  assert (Hready : isLoaded (recordRendered [] (onDocumentLoadSuccess 0 initialState)) = true).
  { apply H. exists 0. split; [reflexivity|]. intros i Hi. lia. }
  vm_compute in Hready. discriminate.
Qed.

Lemma isLoaded_iff_all_recorded_witness :
  isLoaded (recordRendered [2; 1; 2] (onDocumentLoadSuccess 2 initialState)) = true ↔
  ∃ n, numPages (onDocumentLoadSuccess 2 initialState) = Some n ∧ 1 ≤ n ∧
       ∀ i, 1 ≤ i ≤ n → i ∈ [2; 1; 2].
Proof.
  apply isLoaded_iff_all_recorded.
  - reflexivity.
  - intros n [= <-]. split; [lia|]. repeat constructor; lia.
Defined.

(** ** Strings *)

Lemma append_cons (c : ascii) (p post : string) :
  String c p +:+ post = String c (p +:+ post).
Proof. reflexivity. Qed.

Lemma prefix_iff (p s : string) :
  String.prefix p s = true ↔ ∃ post, s = p +:+ post.
Proof.
  revert s. induction p as [|c p IH]; intros s.
  - split; [intros _; by exists s | by destruct s].
  - destruct s as [|c' s]; simpl.
    + split; [discriminate | intros [post H]; discriminate].
    + destruct (Ascii.ascii_dec c c') as [->|Hne].
      * rewrite IH. split; intros [post H]; exists post;
          rewrite append_cons in *; congruence.
      * split; [discriminate | intros [post H]; rewrite append_cons in H; congruence].
Qed.

(** [includes] decides occurrence as a substring. *)
Lemma includes_iff (hay needle : string) :
  Js.includes hay needle = true ↔ Js.substring_of needle hay.
Proof.
  unfold Js.substring_of.
  induction hay as [|c hay IH].
  - change (Js.includes "" needle) with (String.prefix needle "" || false).
    rewrite orb_false_r, prefix_iff. split.
    + intros [post H]. by exists EmptyString, post.
    + intros (pre & post & H). destruct pre; [by exists post | discriminate].
  - change (Js.includes (String c hay) needle)
      with (String.prefix needle (String c hay) || Js.includes hay needle).
    rewrite orb_true_iff, prefix_iff, IH. split.
    + intros [[post H] | (pre & post & H)].
      * by exists EmptyString, post.
      * exists (String c pre), post. by rewrite append_cons, H.
    + intros (pre & post & H). destruct pre as [|c' pre].
      * left. by exists post.
      * right. exists pre, post. rewrite append_cons in H. congruence.
Qed.

Lemma eqb_empty_false (s : string) : String.eqb s "" = false ↔ s ≠ EmptyString.
Proof. destruct (String.eqb_spec s ""); split; congruence. Qed.

(** ** Highlight marks *)

Lemma classListAdd_elem (t : string) (tokens cl : list string) :
  t ∈ classListAdd tokens cl ↔ t ∈ cl ∨ t ∈ tokens.
Proof.
  unfold classListAdd. revert cl.
  induction tokens as [|a tokens IH]; intros cl; simpl.
  - rewrite elem_of_nil. tauto.
  - rewrite IH, elem_of_cons. case_decide as Ha.
    + split; [tauto|]. intros [?|[->|?]]; tauto.
    + rewrite elem_of_app, list_elem_of_singleton. tauto.
Qed.

Lemma classListAdd_absorb (tokens cl : list string) :
  (∀ t, t ∈ tokens → t ∈ cl) → classListAdd tokens cl = cl.
Proof.
  unfold classListAdd.
  induction tokens as [|a tokens IH]; intros Hall; simpl; [done|].
  rewrite decide_True by (apply Hall; left).
  apply IH. intros t Ht. apply Hall. by right.
Qed.

Lemma classListAdd_idem (tokens cl : list string) :
  classListAdd tokens (classListAdd tokens cl) = classListAdd tokens cl.
Proof.
  apply classListAdd_absorb. intros t Ht. apply classListAdd_elem. by right.
Qed.

Lemma classListAdd_NoDup (tokens cl : list string) :
  NoDup cl → NoDup (classListAdd tokens cl).
Proof.
  unfold classListAdd. revert cl.
  induction tokens as [|a tokens IH]; intros cl Hcl; simpl; [done|].
  apply IH. case_decide as Ha; [done|].
  apply NoDup_app. split; [done|]. split.
  - intros x Hx Hx'. apply list_elem_of_singleton in Hx'. by subst.
  - apply NoDup_singleton.
Qed.

Lemma addHighlight_idem (span : Span) :
  addHighlight (addHighlight span) = addHighlight span.
Proof.
  unfold addHighlight. f_equal.
  exact (classListAdd_idem highlightTokens (classList span)).
Qed.

Lemma markLoop_fst (spanText : string) (evidenceText : list (option string))
    (span : Span) (k : nat) :
  (foldl (λ acc search,
            if searchMatches spanText search
            then (addHighlight acc.1, S acc.2) else acc)
         (span, k) evidenceText).1
  = if existsb (searchMatches spanText) evidenceText then addHighlight span else span.
Proof.
  revert span k. induction evidenceText as [|search rest IH]; intros span k; simpl; [done|].
  destruct (searchMatches spanText search); simpl.
  - rewrite IH, addHighlight_idem. by destruct (existsb _ rest).
  - by rewrite IH.
Qed.

Lemma markSpan_fst (evidenceText : list (option string)) (span : Span) :
  (markSpan evidenceText span).1
  = if spanMatches evidenceText span then addHighlight span else span.
Proof.
  unfold markSpan, spanMatches.
  destruct (textContent span) as [text|]; simpl; [|done].
  destruct (String.eqb (Js.toLowerCase text) ""); simpl; [done|].
  apply markLoop_fst.
Qed.

Lemma spanMatches_addHighlight (evidenceText : list (option string)) (span : Span) :
  spanMatches evidenceText (addHighlight span) = spanMatches evidenceText span.
Proof. done. Qed.

Lemma markSpan_fst_idem (evidenceText : list (option string)) (span : Span) :
  (markSpan evidenceText (markSpan evidenceText span).1).1 = (markSpan evidenceText span).1.
Proof.
  rewrite !markSpan_fst.
  destruct (spanMatches evidenceText span) eqn:Hm.
  - by rewrite spanMatches_addHighlight, Hm, addHighlight_idem.
  - by rewrite Hm.
Qed.

(** A list with no search text marks nothing and calls nothing. *)
Lemma markSpan_nil (span : Span) : markSpan [] span = (span, 0%nat).
Proof.
  unfold markSpan. destruct (textContent span) as [text|]; simpl; [|done].
  by destruct (String.eqb _ _).
Qed.

Lemma no_ops_from (pageNum : Z) (spans : list Span) (g : nat → nat) :
  mjoin (imap (λ i (m : Span * nat),
                 replicate m.2 {| opPage := pageNum; opSpan := g i |})
              ((λ sp, (sp, 0%nat)) <$> spans)) = [].
Proof.
  revert g. induction spans as [|sp spans IH]; intros g; simpl; [done|].
  apply (IH (g ∘ S)).
Qed.

Lemma no_ops (pageNum : Z) (spans : list Span) :
  mjoin (imap (λ i (m : Span * nat),
                 replicate m.2 {| opPage := pageNum; opSpan := i |})
              ((λ sp, (sp, 0%nat)) <$> spans)) = [].
Proof. apply (no_ops_from pageNum spans id). Qed.

(** On the page named by [targetPage], and with its container on the surface,
    [tryHighlight] maps the loop body over the spans of the page; the early
    return on an empty [evidenceText] gives the same result. *)
Lemma tryHighlight_unfold (props : Props) (st : ViewerState) (dom : Dom)
    (pageNum : Z) (spans : list Span) :
  targetPage props = Some pageNum → dom !! pageNum = Some spans →
  tryHighlight props st dom pageNum =
  let marked := markSpan (evidenceTextFor props st pageNum) <$> spans in
  (<[pageNum := fst <$> marked]> dom,
   mjoin (imap (λ i m, replicate m.2 {| opPage := pageNum; opSpan := i |}) marked)).
Proof.
  intros Ht Hd. unfold tryHighlight. rewrite decide_True by done. rewrite Hd.
  destruct (evidenceTextFor props st pageNum) as [|e rest] eqn:He; simpl; [|done].
  replace (markSpan [] <$> spans) with ((λ sp, (sp, 0%nat)) <$> spans)
    by (apply list_fmap_ext; intros; by rewrite markSpan_nil).
  rewrite no_ops. f_equal.
  rewrite <- list_fmap_compose.
  replace (fst ∘ (λ sp : Span, (sp, 0%nat)) <$> spans) with spans
    by (symmetry; apply list_fmap_id).
  symmetry. by apply insert_id.
Qed.

Lemma markSpan_NoDup (evidenceText : list (option string)) (span : Span) :
  NoDup (classList span) → NoDup (classList (markSpan evidenceText span).1).
Proof.
  intros Hnd. rewrite markSpan_fst.
  destruct (spanMatches evidenceText span); [|done].
  by apply classListAdd_NoDup.
Qed.

(** Off the target page, or without the container, nothing happens. *)
Lemma tryHighlight_noop (props : Props) (st : ViewerState) (dom : Dom) (pageNum : Z) :
  targetPage props ≠ Some pageNum ∨ dom !! pageNum = None →
  tryHighlight props st dom pageNum = (dom, []).
Proof.
  intros H. unfold tryHighlight. case_decide as Ht; [|done].
  destruct H as [H|H]; [done|]. by rewrite H.
Qed.

(** What [tryHighlight] leaves on the surface, page by page. *)
Lemma tryHighlight_lookup (props : Props) (st : ViewerState) (dom : Dom)
    (pageNum q : Z) (spans : list Span) :
  dom !! q = Some spans →
  (tryHighlight props st dom pageNum).1 !! q =
  Some (if decide (targetPage props = Some pageNum ∧ q = pageNum)
        then (λ sp, (markSpan (evidenceTextFor props st pageNum) sp).1) <$> spans
        else spans).
Proof.
  intros Hq.
  destruct (decide (targetPage props = Some pageNum)) as [Ht|Ht].
  - destruct (dom !! pageNum) as [spansP|] eqn:Hp.
    + rewrite (tryHighlight_unfold _ _ _ _ _ Ht Hp). simpl.
      destruct (decide (q = pageNum)) as [->|Hne].
      * rewrite lookup_insert_eq, decide_True by done.
        rewrite Hq in Hp. injection Hp as <-.
        by rewrite <- list_fmap_compose.
      * rewrite lookup_insert_ne by done. rewrite decide_False by tauto. done.
    + rewrite tryHighlight_noop by tauto. simpl.
      rewrite decide_False; [done|]. intros [_ ->]. congruence.
  - rewrite tryHighlight_noop by tauto. simpl.
    rewrite decide_False by tauto. done.
Qed.

(** C7: highlighting is idempotent. Running [tryHighlight] again on the
    surface it produced gives that surface again; applying the marker twice
    to a span equals applying it once; and a page whose spans have class
    lists without duplicates keeps that after highlighting. *)
Theorem tryHighlight_idempotent (props : Props) (st : ViewerState) (dom : Dom)
    (pageNum : Z) :
  let once := (tryHighlight props st dom pageNum).1 in
  (tryHighlight props st once pageNum).1 = once
  ∧ (∀ span, addHighlight (addHighlight span) = addHighlight span)
  ∧ (∀ q spans, dom !! q = Some spans →
       Forall (λ sp, NoDup (classList sp)) spans →
       ∃ spans', (tryHighlight props st once pageNum).1 !! q = Some spans' ∧
                 List.length spans' = List.length spans ∧
                 Forall (λ sp, NoDup (classList sp)) spans').
Proof.
  intros once.
  assert (Hidem : (tryHighlight props st once pageNum).1 = once).
  { subst once.
    destruct (decide (targetPage props = Some pageNum)) as [Ht|Ht].
    - destruct (dom !! pageNum) as [spans|] eqn:Hp.
      + rewrite (tryHighlight_unfold _ _ dom _ _ Ht Hp). simpl.
        erewrite tryHighlight_unfold; [|done|apply lookup_insert_eq]. simpl.
        rewrite insert_insert_eq. f_equal.
        rewrite <- !list_fmap_compose. apply list_fmap_ext.
        intros i sp _. simpl. apply markSpan_fst_idem.
      + rewrite (tryHighlight_noop props st dom) by tauto. simpl.
        by rewrite tryHighlight_noop by tauto.
    - rewrite (tryHighlight_noop props st dom) by tauto. simpl.
      by rewrite tryHighlight_noop by tauto. }
  split; [done|]. split; [apply addHighlight_idem|].
  intros q spans Hq Hnd. rewrite Hidem. subst once.
  rewrite (tryHighlight_lookup _ _ _ _ _ _ Hq).
  eexists. split; [done|].
  case_decide.
  - split; [by rewrite length_fmap|].
    apply Forall_fmap. eapply Forall_impl; [exact Hnd|].
    intros sp Hsp. simpl. by apply markSpan_NoDup.
  - done.
Qed.

Lemma tryHighlight_idempotent_witness :
  ∃ spans',
    (tryHighlight foxProps (loadedState 10)
       (tryHighlight foxProps (loadedState 10) foxSurface 5).1 5).1 !! 5 = Some spans' ∧
    List.length spans' = 2%nat ∧
    Forall (λ sp, NoDup (classList sp)) spans'.
Proof.
  destruct (tryHighlight_idempotent foxProps (loadedState 10) foxSurface 5)
    as (_ & _ & H).
  apply (H 5 [plainSpan "Quick brown"; plainSpan "xyz"]).
  - reflexivity.
  - repeat constructor.
Defined.

(** ** Which fragments are marked *)

Lemma substring_of_nonempty (needle hay : string) :
  Js.substring_of needle hay → needle ≠ EmptyString → hay ≠ EmptyString.
Proof.
  intros (pre & post & ->) Hne Hempty.
  destruct pre; [|discriminate]. destruct needle; [done|discriminate].
Qed.

Lemma searchMatches_iff (spanText : string) (search : option string) :
  spanText ≠ EmptyString →
  (searchMatches spanText search = true ↔
   ∃ s, search = Some s ∧ Js.substring_of spanText s).
Proof.
  intros Hne. unfold searchMatches. destruct search as [s|].
  - rewrite andb_true_iff, negb_true_iff, eqb_empty_false, includes_iff. split.
    + intros [_ H]. by exists s.
    + intros (s' & [= <-] & H). split; [|done]. by eapply substring_of_nonempty.
  - split; [discriminate|]. intros (s & H & _). discriminate.
Qed.

Lemma elem_of_evidenceTextFor (props : Props) (st : ViewerState) (pageNum : Z)
    (search : option string) :
  search ∈ evidenceTextFor props st pageNum ↔
  ∃ ev n, ev ∈ evidences props ∧ Js.fieldNumber (pageNumber ev) = Some n ∧
          n + pageOffset st = pageNum ∧ search = Js.toLowerCase <$> evidence ev.
Proof.
  unfold evidenceTextFor. rewrite list_elem_of_fmap. split.
  - intros (ev & -> & Hin). apply list_elem_of_filter in Hin as [Hp Hin].
    destruct (Js.fieldNumber (pageNumber ev)) as [n|] eqn:Hn; simpl in Hp; [|discriminate].
    exists ev, n. repeat split; [done|done|congruence].
  - intros (ev & n & Hin & Hn & Hp & ->). exists ev. split; [done|].
    apply list_elem_of_filter. split; [|done]. rewrite Hn. simpl. congruence.
Qed.

Lemma spanMatches_iff (props : Props) (st : ViewerState) (pageNum : Z) (span : Span) :
  spanMatches (evidenceTextFor props st pageNum) span = true ↔
  ∃ text ev n evText,
    textContent span = Some text ∧ Js.toLowerCase text ≠ EmptyString ∧
    ev ∈ evidences props ∧ Js.fieldNumber (pageNumber ev) = Some n ∧ n + pageOffset st = pageNum ∧
    evidence ev = Some evText ∧
    Js.substring_of (Js.toLowerCase text) (Js.toLowerCase evText).
Proof.
  unfold spanMatches. destruct (textContent span) as [text|]; simpl.
  - rewrite andb_true_iff, negb_true_iff, eqb_empty_false, existsb_exists. split.
    + intros (Hne & search & Hin & Hm).
      apply list_elem_of_In, elem_of_evidenceTextFor in Hin
        as (ev & n & Hev & Hn & Hp & ->).
      apply searchMatches_iff in Hm as (s & Hs & Hsub); [|done].
      destruct (evidence ev) as [evText|] eqn:He; simpl in Hs; [|discriminate].
      injection Hs as <-. by exists text, ev, n, evText.
    + intros (text' & ev & n & evText & [= <-] & Hne & Hev & Hn & Hp & He & Hsub).
      split; [done|]. exists (Some (Js.toLowerCase evText)). split.
      * apply list_elem_of_In, elem_of_evidenceTextFor. exists ev, n.
        by rewrite He.
      * apply searchMatches_iff; [done|]. by eexists.
  - split; [discriminate|]. intros (text & ? & ? & ? & H & _). discriminate.
Qed.

Lemma marked_addHighlight (span : Span) : marked (addHighlight span).
Proof.
  unfold marked.
  change (classList (addHighlight span))
    with (classListAdd highlightTokens (classList span)).
  apply classListAdd_elem. right. unfold highlightTokens. by left.
Qed.

(** The matching rule, on the page the guard lets through (the page whose
    number equals the [targetPage] prop): a fragment that was not marked is
    marked by [tryHighlight] exactly when its lower-cased text is not empty
    and occurs inside the lower-cased text of an evidence entry whose page,
    after the offset, is this page. The text of the fragment is left as it
    was. *)
Lemma fragment_marked_iff (props : Props) (st : ViewerState) (dom : Dom)
    (pageNum : Z) (spans : list Span) (i : nat) (span : Span) :
  targetPage props = Some pageNum →
  dom !! pageNum = Some spans →
  spans !! i = Some span →
  ¬ marked span →
  ∃ span',
    ((tryHighlight props st dom pageNum).1 !! pageNum) ≫= (λ l, l !! i) = Some span' ∧
    textContent span' = textContent span ∧
    (marked span' ↔
     ∃ text ev n evText,
       textContent span = Some text ∧ Js.toLowerCase text ≠ EmptyString ∧
       ev ∈ evidences props ∧ Js.fieldNumber (pageNumber ev) = Some n ∧ n + pageOffset st = pageNum ∧
       evidence ev = Some evText ∧
       Js.substring_of (Js.toLowerCase text) (Js.toLowerCase evText)).
Proof.
  intros Ht Hd Hi Hun.
  exists (markSpan (evidenceTextFor props st pageNum) span).1.
  rewrite (tryHighlight_lookup _ _ _ _ _ _ Hd), decide_True by done. simpl.
  rewrite list_lookup_fmap, Hi. simpl. split; [done|].
  rewrite markSpan_fst, <- spanMatches_iff.
  destruct (spanMatches _ span); simpl.
  - split; [done|]. split; [done|]. intros _. apply marked_addHighlight.
  - split; [done|]. split; [done|discriminate].
Qed.

(** The example of the specification, run: of the fragments "Quick brown" and
    "xyz" on the target page, the first gets the highlight classes and the
    second does not. *)
Example fox_fragments :
  (tryHighlight foxProps (loadedState 10) foxSurface 5).1 !! 5 =
  Some [ {| textContent := Some "Quick brown";
            classList := ["bg-yellow-500"; "rounded-sm"; "px-[1px]"; "opacity-50"] |};
         plainSpan "xyz" ].
Proof. vm_compute. reflexivity. Qed.

(** ** Malformed evidence *)

Lemma markLoop_lacksField (st : ViewerState) (pageNum : Z) (spanText : string)
    (evs : list EvidenceEntry) (acc : Span * nat) :
  let body := λ (acc : Span * nat) search,
                if searchMatches spanText search
                then (addHighlight acc.1, S acc.2) else acc in
  let texts := λ l : list EvidenceEntry,
                 (λ ev, Js.toLowerCase <$> evidence ev) <$>
                 filter (λ ev, ((λ n, n + pageOffset st) <$> Js.fieldNumber (pageNumber ev))
                               = Some pageNum) l in
  foldl body acc (texts evs) =
  foldl body acc (texts (filter (λ ev, lacksField ev = false) evs)).
Proof.
  intros body texts. revert acc.
  induction evs as [|ev evs IH]; intros acc; [done|].
  destruct (lacksField ev) eqn:Hw.
  - rewrite (filter_cons_False (λ ev, lacksField ev = false)) by congruence.
    rewrite <- IH. subst texts. simpl.
    destruct (decide (((λ n, n + pageOffset st) <$> Js.fieldNumber (pageNumber ev))
                      = Some pageNum)) as [Hp|Hp].
    + rewrite filter_cons_True by done. simpl.
      unfold lacksField in Hw.
      destruct (pageNumber ev); [discriminate|..];
        destruct (evidence ev); try discriminate; done.
    + by rewrite filter_cons_False by done.
  - rewrite (filter_cons_True (λ ev, lacksField ev = false)) by done.
    subst texts. simpl.
    destruct (decide (((λ n, n + pageOffset st) <$> Js.fieldNumber (pageNumber ev))
                      = Some pageNum)) as [Hp|Hp].
    + rewrite !filter_cons_True by done. simpl. apply IH.
    + rewrite !filter_cons_False by done. apply IH.
Qed.

Lemma markSpan_lacksField (props : Props) (st : ViewerState) (pageNum : Z) (span : Span) :
  markSpan (evidenceTextFor props st pageNum) span =
  markSpan (evidenceTextFor
              (withEvidences (filter (λ ev, lacksField ev = false) (evidences props)) props)
              st pageNum) span.
Proof.
  unfold markSpan. destruct (Js.toLowerCase <$> textContent span) as [spanText|]; [|done].
  destruct (String.eqb spanText ""); [done|].
  apply markLoop_lacksField.
Qed.

(** [tryHighlight] reads its props through the target page and the texts of
    the filtered evidence only. *)
Lemma tryHighlight_ext (props props' : Props) (st : ViewerState) (dom : Dom) (pageNum : Z) :
  targetPage props = targetPage props' →
  evidenceTextFor props st pageNum = evidenceTextFor props' st pageNum →
  tryHighlight props st dom pageNum = tryHighlight props' st dom pageNum.
Proof. intros Ht He. unfold tryHighlight. by rewrite Ht, He. Qed.

(** C9, as the code has it: an evidence entry that has no [pageNumber]
    field, or has no text, leaves no trace. [tryHighlight] gives the same
    surface and the same calls of [classList.add] as on the evidence list
    with every such entry removed, and as on the list with one such entry
    taken out; it has no raising path. An entry whose page number is [null]
    is not passed over: it is read as an entry of printed page 0. *)
Theorem malformed_evidence_ignored (props : Props) (st : ViewerState) (dom : Dom)
    (pageNum : Z) :
  tryHighlight props st dom pageNum =
  tryHighlight (withEvidences (filter (λ ev, lacksField ev = false) (evidences props)) props)
               st dom pageNum
  ∧ (∀ before ev after,
       evidences props = before ++ ev :: after →
       pageNumber ev = Js.Undefined ∨ evidence ev = None →
       tryHighlight props st dom pageNum =
       tryHighlight (withEvidences (before ++ after) props) st dom pageNum)
  ∧ (∀ before text after,
       evidences props = before ++ {| pageNumber := Js.Null; evidence := text |} :: after →
       tryHighlight props st dom pageNum =
       tryHighlight
         (withEvidences (before ++ {| pageNumber := Js.Num 0; evidence := text |} :: after) props)
         st dom pageNum).
Proof.
  assert (Hfilter : ∀ pr : Props,
    tryHighlight pr st dom pageNum =
    tryHighlight (withEvidences (filter (λ ev, lacksField ev = false) (evidences pr)) pr)
                 st dom pageNum).
  { intros pr.
    destruct (decide (targetPage pr = Some pageNum)) as [Ht|Ht].
    - destruct (dom !! pageNum) as [spans|] eqn:Hd.
      + rewrite (tryHighlight_unfold pr st dom pageNum spans Ht Hd).
        rewrite (tryHighlight_unfold (withEvidences _ pr) st dom pageNum spans Ht Hd).
        simpl.
        replace (markSpan (evidenceTextFor pr st pageNum) <$> spans)
          with (markSpan (evidenceTextFor
                  (withEvidences (filter (λ ev, lacksField ev = false) (evidences pr)) pr)
                  st pageNum) <$> spans); [done|].
        apply list_fmap_ext. intros i sp _. symmetry. apply markSpan_lacksField.
      + by rewrite !tryHighlight_noop by (right; done).
    - by rewrite !tryHighlight_noop by (left; done). }
  split; [apply Hfilter|]. split.
  - intros before ev after Hevs Hbad.
    rewrite Hfilter, (Hfilter (withEvidences (before ++ after) props)).
    simpl. rewrite Hevs, !filter_app.
    rewrite filter_cons_False; [done|].
    unfold lacksField. destruct Hbad as [-> | ->]; [done|].
    destruct (pageNumber ev); done.
  - intros before text after Hevs. apply tryHighlight_ext; [done|].
    unfold evidenceTextFor. simpl. rewrite Hevs, !filter_app, !fmap_app. f_equal.
    destruct (decide (0 + pageOffset st = pageNum)) as [Hp|Hp].
    + rewrite !filter_cons_True by (simpl; congruence). done.
    + rewrite !filter_cons_False by (simpl; congruence). done.
Qed.

Lemma malformed_evidence_ignored_witness :
  tryHighlight
    (withEvidences [ {| pageNumber := Js.Undefined; evidence := Some "quick" |};
                     {| pageNumber := Js.Num 5; evidence := Some "The quick brown fox" |} ]
                   foxProps)
    (loadedState 10) foxSurface 5 =
  tryHighlight
    (withEvidences ([] ++ [ {| pageNumber := Js.Num 5; evidence := Some "The quick brown fox" |} ])
       (withEvidences [ {| pageNumber := Js.Undefined; evidence := Some "quick" |};
                        {| pageNumber := Js.Num 5; evidence := Some "The quick brown fox" |} ]
                      foxProps))
    (loadedState 10) foxSurface 5.
Proof.
  apply (proj1 (proj2 (malformed_evidence_ignored _ (loadedState 10) foxSurface 5))
           [] {| pageNumber := Js.Undefined; evidence := Some "quick" |}
           [ {| pageNumber := Js.Num 5; evidence := Some "The quick brown fox" |} ]).
  - reflexivity.
  - left. reflexivity.
Defined.

(** C9, as stated, fails: an entry whose page number is [null] is malformed,
    yet with offset 3 on target page 3 the sum [null + 3] is 3, the entry
    passes the filter, and the fragment that reads its text is marked. *)
Lemma null_page_number_is_matched :
  wellFormed {| pageNumber := Js.Null; evidence := Some "alpha" |} = false
  ∧ (tryHighlight nullPageProps nullPageState nullPageSurface 3).2
    = [ {| opPage := 3; opSpan := 0 |} ]
  ∧ ¬ malformedIgnoredAsSpecified.
Proof.
  split; [reflexivity|]. split; [by vm_compute|].
  intros H. specialize (H nullPageProps nullPageState nullPageSurface 3).
  apply (f_equal snd) in H. vm_compute in H. discriminate.
Qed.

(** ** The highlight guard and the offset *)

(** Highlighting happens on the page whose physical number equals the
    [targetPage] prop as given, and nowhere else. *)
Lemma tryHighlight_ops_page (props : Props) (st : ViewerState) (dom : Dom) (pageNum : Z) :
  (tryHighlight props st dom pageNum).2 ≠ [] → targetPage props = Some pageNum.
Proof.
  intros Hops. destruct (decide (targetPage props = Some pageNum)) as [|Hne]; [done|].
  rewrite tryHighlight_noop in Hops by (left; done). done.
Qed.

(** C1 at a non-zero offset. With offset 2 and [targetPage] 5 the navigation
    effect brings physical page 7 into view. [tryHighlight] on page 7 does
    nothing, though the evidence of printed page 5 resolves to page 7 and its
    text is there; [tryHighlight] on page 5, which is not the page navigated
    to, marks a span for the evidence of printed page 3. The same is seen in
    a run of the viewer from its mount. *)
Theorem highlight_guard_ignores_offset :
  (targetPageEffect offsetProps offsetSurface offsetState offsetState).2 = [ScrollIntoView 7]
  ∧ tryHighlight offsetProps offsetState offsetSurface 7 = (offsetSurface, [])
  ∧ (tryHighlight offsetProps offsetState offsetSurface 5).2 = [ {| opPage := 5; opSpan := 0 |} ]
  ∧ (let r := run offsetTrace (mount (withTargetPage (Some 1) offsetProps) "" ∅) in
     r.2 = [ScrollIntoView 1; ScrollIntoView 7]
     ∧ pageOffset (viewerState r.1) = 2
     ∧ surface r.1 !! 7 = Some [plainSpan "beta"]
     ∧ surface r.1 !! 5 =
         Some [ {| textContent := Some "alpha";
                   classList := ["bg-yellow-500"; "rounded-sm"; "px-[1px]"; "opacity-50"] |} ]).
Proof.
  split; [by vm_compute|].
  split; [by apply tryHighlight_noop; left|].
  split; [by vm_compute|].
  repeat split; by vm_compute.
Qed.

(** ** Deep links *)

Lemma sameTracking_refl (st : ViewerState) : sameTracking st st.
Proof. by split. Qed.

Lemma sameTracking_trans (a b c : ViewerState) :
  sameTracking a b → sameTracking b c → sameTracking a c.
Proof. intros [? ?] [? ?]. split; congruence. Qed.

Lemma sameTracking_loaded (st st' : ViewerState) :
  sameTracking st st' → isLoadedValue st' = isLoadedValue st.
Proof. intros [Hn Hr]. unfold isLoadedValue. by rewrite Hn, Hr. Qed.

Lemma scrollToPage_tracking (dom : Dom) (a : Z) (st : ViewerState) :
  sameTracking st (scrollToPage dom a st).1.
Proof. unfold scrollToPage. by destruct (dom !! a). Qed.

Lemma tryScrollToAnchor_tracking (dom : Dom) (hash : string) (closure st : ViewerState) :
  sameTracking st (tryScrollToAnchor dom hash closure st).1.
Proof.
  unfold tryScrollToAnchor.
  destruct (negb (isLoaded closure) || negb (Js.startsWith hash "#page-"));
    [apply sameTracking_refl|].
  destruct (Js.parseInt _) as [n|]; simpl; [|apply sameTracking_refl].
  destruct (renderedPages closure !! _) as [[]|];
    try apply sameTracking_refl. apply scrollToPage_tracking.
Qed.

Lemma targetPageEffect_tracking (props : Props) (dom : Dom) (closure st : ViewerState) :
  sameTracking st (targetPageEffect props dom closure st).1.
Proof.
  unfold targetPageEffect.
  destruct (Js.truthyNum (targetPage props) && isLoaded closure);
    [|apply sameTracking_refl].
  destruct ((1 <=? _) && _); [apply scrollToPage_tracking | apply sameTracking_refl].
Qed.

Lemma handlePageJump_tracking (dom : Dom) (st : ViewerState) :
  sameTracking st (handlePageJump dom st).1.
Proof.
  unfold handlePageJump. destruct (Js.parseInt _); [|apply sameTracking_refl].
  destruct ((1 <=? _) && _); [apply scrollToPage_tracking | apply sameTracking_refl].
Qed.

Lemma handleOffsetSave_tracking (st : ViewerState) :
  sameTracking st (handleOffsetSave st).1.
Proof. unfold handleOffsetSave. by destruct (Js.parseInt _). Qed.

(** What [runEffects] returns, with its two effects named. *)
Lemma runEffects_result (b : bool) (old new : Session) :
  ∃ st2 listener r,
    runEffects b old new = (withListener listener (withState st2 new), r) ∧
    sameTracking (viewerState new) st2 ∧
    (listener = viewerState new ∨
     (b = false ∧ listener = hashListener new ∧
      isLoadedValue (viewerState old) = isLoadedValue (viewerState new))).
Proof.
  unfold runEffects.
  set (render := viewerState new).
  set (loadedChanged := negb (bool_decide (isLoadedValue (viewerState old) = isLoadedValue render))).
  destruct (b || loadedChanged) eqn:Hdeps.
  - destruct (tryScrollToAnchor _ _ render render) as [st1 r1] eqn:H1.
    destruct (if _ : bool then targetPageEffect _ _ render st1 else (st1, []))
      as [st2 r2] eqn:H2.
    exists st2, render, (r1 ++ r2). split; [done|]. split; [|by left].
    apply sameTracking_trans with st1.
    + pose proof (tryScrollToAnchor_tracking (surface new) (locationHash new) render render) as Ht.
      by rewrite H1 in Ht.
    + destruct (_ || _ || _) in H2.
      * pose proof (targetPageEffect_tracking (viewerProps new) (surface new) render st1) as Ht.
        by rewrite H2 in Ht.
      * injection H2 as <- _. apply sameTracking_refl.
  - destruct (if _ : bool then targetPageEffect _ _ render render else (render, []))
      as [st2 r2] eqn:H2.
    exists st2, (hashListener new), ([] ++ r2). split; [done|]. split.
    + destruct (_ || _ || _) in H2.
      * pose proof (targetPageEffect_tracking (viewerProps new) (surface new) render render) as Ht.
        by rewrite H2 in Ht.
      * injection H2 as <- _. apply sameTracking_refl.
    + right. apply orb_false_iff in Hdeps as [-> Hl]. split; [done|]. split; [done|].
      subst loadedChanged. apply negb_false_iff, bool_decide_eq_true in Hl. done.
Qed.

Lemma runEffects_listenerCurrent (b : bool) (old new : Session) :
  (b = false → renderedPages (viewerState new) = renderedPages (viewerState old)) →
  hashListener new = hashListener old →
  listenerCurrent old →
  listenerCurrent (runEffects b old new).1.
Proof.
  intros Hr Hl [Hold1 Hold2].
  destruct (runEffects_result b old new) as (st2 & listener & r & -> & Htr & Hcase).
  unfold listenerCurrent. simpl.
  rewrite (sameTracking_loaded _ _ Htr). destruct Htr as [_ ->].
  destruct Hcase as [-> | (Hb & -> & Hsame)]; [done|].
  rewrite Hl. split; [congruence|]. rewrite Hr by done. done.
Qed.

Lemma handle_listenerCurrent (h : ViewerState → Step) (s : Session) :
  sameTracking (viewerState s) (h (viewerState s)).1 →
  listenerCurrent s → listenerCurrent (handle h s).1.
Proof.
  intros Htr Hinv. unfold handle.
  destruct (h (viewerState s)) as [st' r] eqn:Hh. simpl in Htr.
  pose proof (runEffects_listenerCurrent false s (withState st' s)) as H.
  destruct (runEffects false s (withState st' s)) as [s' r'].
  apply H; [|done|done]. intros _. apply Htr.
Qed.

Lemma step_listenerCurrent (e : Event) (s : Session) :
  listenerCurrent s → listenerCurrent (step e s).1.
Proof.
  intros Hinv. destruct e; simpl.
  - by apply runEffects_listenerCurrent.
  - apply runEffects_listenerCurrent; [discriminate|done|done].
  - done.
  - pose proof (tryScrollToAnchor_tracking (surface s) h (hashListener s) (viewerState s)) as Htr.
    destruct (tryScrollToAnchor _ _ _ _) as [st' r]. simpl in *.
    destruct Hinv as [H1 H2]. unfold listenerCurrent. simpl.
    rewrite (sameTracking_loaded _ _ Htr). destruct Htr as [_ ->]. done.
  - by apply runEffects_listenerCurrent.
  - by apply handle_listenerCurrent.
  - apply handle_listenerCurrent; [apply handlePageJump_tracking|done].
  - by apply handle_listenerCurrent.
  - by apply handle_listenerCurrent.
  - apply handle_listenerCurrent; [apply handleOffsetSave_tracking|done].
  - apply handle_listenerCurrent; [apply scrollToPage_tracking|done].
  - apply handle_listenerCurrent; [apply scrollToPage_tracking|done].
  - done.
Qed.

Lemma run_listenerCurrent (es : list Event) (s : Session) :
  listenerCurrent s → listenerCurrent (run es s).1.
Proof.
  revert s. induction es as [|e es IH]; intros s Hinv; [done|]. simpl.
  pose proof (step_listenerCurrent e s Hinv) as He.
  destruct (step e s) as [s1 r1]. specialize (IH s1 He).
  by destruct (run es s1).
Qed.

Lemma reachable_listenerCurrent (s : Session) : reachable s → listenerCurrent s.
Proof.
  intros (props & hash & dom & es & <-). apply run_listenerCurrent. by split.
Qed.

Lemma isLoaded_of_value (st st' : ViewerState) :
  isLoadedValue st' = isLoadedValue st → isLoaded st' = isLoaded st.
Proof. unfold isLoaded. by intros ->. Qed.

(** While the viewer is not loaded, a change of the fragment is recorded in
    the location and nothing else happens. *)
Lemma hashChange_dropped (s : Session) (h : string) :
  listenerCurrent s → isLoaded (viewerState s) = false →
  step (HashChange h) s = (withHash h s, []).
Proof.
  intros [Hl _] Hnot. simpl. unfold tryScrollToAnchor.
  rewrite (isLoaded_of_value _ _ Hl), Hnot. simpl. by destruct s.
Qed.

Lemma run_cons (e : Event) (es : list Event) (s : Session) :
  run (e :: es) s = (let '(s1, r1) := step e s in
                     let '(s2, r2) := run es s1 in (s2, r1 ++ r2)).
Proof. reflexivity. Qed.

Lemma hashChanges_superseded (s : Session) (hs : list string) (h : string) :
  listenerCurrent s → isLoaded (viewerState s) = false →
  run (HashChange <$> (hs ++ [h])) s = (withHash h s, []).
Proof.
  revert s. induction hs as [|h1 hs IH]; intros s Hinv Hnot.
  - change (HashChange <$> [] ++ [h]) with [HashChange h].
    by rewrite run_cons, hashChange_dropped.
  - change (HashChange <$> (h1 :: hs) ++ [h])
      with (HashChange h1 :: (HashChange <$> hs ++ [h])).
    rewrite run_cons, hashChange_dropped by done.
    rewrite IH by done. by destruct s.
Qed.

Lemma pageHash_parts (d : string) :
  Js.startsWith ("#page-" +:+ d) "#page-" = true ∧
  Js.replaceEmpty "#page-" ("#page-" +:+ d) = d.
Proof. by destruct d. Qed.

(** In a loaded viewer whose render map is well tracked, every page of the
    document is in the render map. *)
Lemma loaded_all_rendered (st : ViewerState) (n a : Z) :
  isLoaded st = true → numPages st = Some n → wellTracked n st →
  1 ≤ a ≤ n → renderedPages st !! a = Some true.
Proof.
  intros Hl Hn Hw Ha. unfold isLoaded, isLoadedValue in Hl. rewrite Hn in Hl.
  unfold Js.truthyNum in Hl.
  destruct (Z.eqb_spec n 0) as [->|Hne]; [lia|].
  simpl in Hl. apply Z.leb_le in Hl.
  assert (Hsub : dom (renderedPages st) ⊆ (list_to_set (seqZ 1 n) : gset Z)).
  { intros k Hk. apply elem_of_dom in Hk as [v Hv].
    destruct (Hw k v Hv) as [_ Hrange].
    apply elem_of_list_to_set, elem_of_seqZ. lia. }
  assert (Heq : dom (renderedPages st) = (list_to_set (seqZ 1 n) : gset Z)).
  { apply set_subseteq_size_eq; [done|].
    rewrite size_pages by lia. rewrite size_dom. lia. }
  assert (Hin : a ∈ dom (renderedPages st)).
  { rewrite Heq. apply elem_of_list_to_set, elem_of_seqZ. lia. }
  apply elem_of_dom in Hin as [v Hv].
  destruct (Hw a v Hv) as [-> _]. done.
Qed.

(** The effects at the moment the viewer becomes loaded: the hash effect
    runs on the fragment of that moment and scrolls to its page. *)
Lemma runEffects_at_readiness (b : bool) (old new : Session) (d : string) (n : Z) :
  isLoaded (viewerState old) = false →
  isLoaded (viewerState new) = true →
  locationHash new = "#page-" +:+ d →
  Js.parseInt d = Some n →
  renderedPages (viewerState new) !! (n + pageOffset (viewerState new)) = Some true →
  is_Some (surface new !! (n + pageOffset (viewerState new))) →
  ∃ rest, (runEffects b old new).2 = ScrollIntoView (n + pageOffset (viewerState new)) :: rest.
Proof.
  intros Hold Hnew Hhash Hparse Hrendered [spans Hanchor].
  unfold runEffects.
  assert (Hchanged : bool_decide (isLoadedValue (viewerState old) = isLoadedValue (viewerState new)) = false).
  { apply bool_decide_eq_false. intros Heq.
    apply eq_sym, isLoaded_of_value in Heq. congruence. }
  rewrite Hchanged. simpl negb. rewrite orb_true_r.
  unfold tryScrollToAnchor at 1. rewrite Hnew, Hhash.
  destruct (pageHash_parts d) as [-> ->]. simpl negb. simpl orb. cbv iota.
  rewrite Hparse. simpl fmap. cbv beta iota. rewrite Hrendered.
  unfold scrollToPage at 1. rewrite Hanchor.
  destruct (if _ : bool then targetPageEffect _ _ _ _ else _) as [st2 r2].
  simpl. by eexists.
Qed.

Lemma step_tracking (e : Event) (s : Session) :
  match e with
  | DocumentLoadSuccess _ | PageRenderSuccess _ => True
  | _ => sameTracking (viewerState s) (viewerState (step e s).1)
  end.
Proof.
  assert (Hhandle : ∀ h : ViewerState → Step,
    sameTracking (viewerState s) (h (viewerState s)).1 →
    sameTracking (viewerState s) (viewerState (handle h s).1)).
  { intros h Htr. unfold handle. destruct (h (viewerState s)) as [st' r]. simpl in Htr.
    destruct (runEffects_result false s (withState st' s)) as (st2 & l & r' & -> & Htr' & _).
    simpl in *. by apply sameTracking_trans with st'. }
  destruct e as [n|p|p|h|t|v| | |v| | | |d]; simpl.
  - done.
  - done.
  - apply sameTracking_refl.
  - pose proof (tryScrollToAnchor_tracking (surface s) h (hashListener s) (viewerState s)) as Htr.
    by destruct (tryScrollToAnchor _ _ _ _).
  - destruct (runEffects_result false s (withProps (withTargetPage t (viewerProps s)) s))
      as (st2 & l & r' & -> & Htr' & _). done.
  - by apply Hhandle.
  - apply Hhandle, handlePageJump_tracking.
  - by apply Hhandle.
  - by apply Hhandle.
  - apply Hhandle, handleOffsetSave_tracking.
  - apply Hhandle, scrollToPage_tracking.
  - apply Hhandle, scrollToPage_tracking.
  - apply sameTracking_refl.
Qed.

(** C6: in a session that is not loaded, a fragment signal leads to no
    navigation and leaves no trace but the location itself, and of several
    signals only the last is kept there. An event after which the viewer is
    loaded runs the hash effect on the fragment of that moment: for
    "#page-<n>", with [n] plus the offset a page of the document whose
    anchor is on the surface, its first request scrolls to that page. *)
Theorem deep_link_dropped_then_honoured (s : Session) :
  reachable s →
  isLoaded (viewerState s) = false →
  (∀ h, step (HashChange h) s = (withHash h s, []))
  ∧ (∀ hs h, run (HashChange <$> (hs ++ [h])) s = (withHash h s, []))
  ∧ (∀ e d n total,
       let a := n + pageOffset (viewerState s) in
       isLoaded (viewerState (step e s).1) = true →
       locationHash s = "#page-" +:+ d →
       Js.parseInt d = Some n →
       numPages (viewerState (step e s).1) = Some total →
       wellTracked total (viewerState (step e s).1) →
       1 ≤ a ≤ total →
       is_Some (surface s !! a) →
       ∃ rest, (step e s).2 = ScrollIntoView a :: rest).
Proof.
  intros Hreach Hnot. apply reachable_listenerCurrent in Hreach.
  split; [intros h; by apply hashChange_dropped|].
  split; [intros hs h; by apply hashChanges_superseded|].
  intros e d n total a Hready Hhash Hparse Htotal Hwell Ha Hanchor.
  pose proof (loaded_all_rendered _ _ a Hready Htotal Hwell Ha) as Hrendered.
  pose proof (step_tracking e s) as Htr.
  destruct e;
    try (apply sameTracking_loaded, isLoaded_of_value in Htr; congruence).
  - simpl in *.
    destruct (runEffects_result false s (withState (onDocumentLoadSuccess n0 (viewerState s)) s))
      as (st2 & l & r & Heq & Htr2 & _).
    rewrite Heq in Hready, Hrendered. simpl in Hready, Hrendered.
    subst a.
    apply (runEffects_at_readiness false s
             (withState (onDocumentLoadSuccess n0 (viewerState s)) s) d n).
    + done.
    + by rewrite <- (isLoaded_of_value _ _ (sameTracking_loaded _ _ Htr2)).
    + exact Hhash.
    + done.
    + destruct Htr2 as [_ Hr]. rewrite <- Hr. exact Hrendered.
    + exact Hanchor.
  - simpl in *.
    destruct (runEffects_result true s (withState (onPageRenderSuccess p (viewerState s)) s))
      as (st2 & l & r & Heq & Htr2 & _).
    rewrite Heq in Hready, Hrendered. simpl in Hready, Hrendered.
    subst a.
    apply (runEffects_at_readiness true s
             (withState (onPageRenderSuccess p (viewerState s)) s) d n).
    + done.
    + by rewrite <- (isLoaded_of_value _ _ (sameTracking_loaded _ _ Htr2)).
    + exact Hhash.
    + done.
    + destruct Htr2 as [_ Hr]. rewrite <- Hr. exact Hrendered.
    + exact Hanchor.
Qed.

Lemma deep_link_dropped_then_honoured_witness :
  (run earlyLinkTrace (mount earlyLinkProps "" ∅)).2 = []
  ∧ step (HashChange "#page-1") earlyLinkSession = (withHash "#page-1" earlyLinkSession, [])
  ∧ ∃ rest, (step (PageRenderSuccess 3) earlyLinkSession).2 = ScrollIntoView 3 :: rest.
Proof.
  assert (Hreach : reachable earlyLinkSession).
  { exists earlyLinkProps, EmptyString, ∅, earlyLinkTrace. reflexivity. }
  assert (Hnot : isLoaded (viewerState earlyLinkSession) = false)
    by (vm_compute; reflexivity).
  destruct (deep_link_dropped_then_honoured earlyLinkSession Hreach Hnot)
    as (Hdrop & _ & Hhonour).
  split; [vm_compute; reflexivity|].
  split; [apply Hdrop|].
  apply (Hhonour (PageRenderSuccess 3) "3"%string 3 3).
  - vm_compute. reflexivity.
  - vm_compute. reflexivity.
  - reflexivity.
  - vm_compute. reflexivity.
  - apply (bool_decide_unpack _). vm_compute. exact I.
  - vm_compute. split; discriminate.
  - vm_compute. by eexists.
Defined.

(** C4 at a non-zero offset. With offset 2 and [targetPage] 5 the page that
    navigation brings into view is physical page 7. Its fragment "beta" is
    not empty and occurs in the text of the evidence entry of printed page
    5, which the offset resolves to page 7; yet [tryHighlight] on page 7
    leaves the fragment without the mark and calls [classList.add] nowhere.
    With offset 0, target page 7 and the evidence on printed page 7, the
    same fragment on the same page is marked. *)
Theorem matching_fragment_on_target_page_unmarked :
  (targetPageEffect offsetProps offsetSurface offsetState offsetState).2 = [ScrollIntoView 7]
  ∧ offsetSurface !! 7 = Some [plainSpan "beta"]
  ∧ (∃ ev, ev ∈ evidences offsetProps
           ∧ (λ n, n + pageOffset offsetState) <$> Js.fieldNumber (pageNumber ev) = Some 7
           ∧ evidence ev = Some "beta"%string
           ∧ Js.toLowerCase "beta" ≠ EmptyString
           ∧ Js.includes (Js.toLowerCase "beta") (Js.toLowerCase "beta") = true)
  ∧ (tryHighlight offsetProps offsetState offsetSurface 7).1 !! 7 = Some [plainSpan "beta"]
  ∧ (tryHighlight offsetProps offsetState offsetSurface 7).2 = []
  ∧ ¬ marked (plainSpan "beta")
  ∧ (tryHighlight
       (withEvidences [ {| pageNumber := Js.Num 7; evidence := Some "beta" |} ]
          (withTargetPage (Some 7) offsetProps))
       (setPageOffset 0 offsetState) offsetSurface 7).1 !! 7
    = Some [ addHighlight (plainSpan "beta") ].
Proof.
  split; [by vm_compute|].
  split; [by vm_compute|].
  split.
  { exists {| pageNumber := Js.Num 5; evidence := Some "beta" |}.
    split; [by left|]. repeat split; by vm_compute. }
  split; [by vm_compute|].
  split; [by vm_compute|].
  split; [unfold marked; simpl; apply not_elem_of_nil|].
  by vm_compute.
Qed.

(** ** Swapping the document *)

(** C8, as the code has it. Submitting a new document hides the viewer, so
    the viewer is unmounted and all of its state (page count, render map,
    offset, offset-edit mode, inputs, current page) is gone, and the new
    source is in place. The target page of the host is not reset: it keeps
    its value until the next request to open a page, which overwrites it and
    is the only way the viewer comes back, then on its initial state. *)
Theorem handleEvaluate_unmounts_viewer_keeps_target
    (Result : Type) (pg : RunEvaluationPage.Page Result)
    (f : RunEvaluationPage.UploadedFile) :
  let pg' := RunEvaluationPage.handleEvaluate (Some f) pg in
  RunEvaluationPage.viewer pg' = None
  ∧ RunEvaluationPage.pdfBlobUrl (RunEvaluationPage.host pg')
    = Some (RunEvaluationPage.objectURL f)
  ∧ RunEvaluationPage.targetPage (RunEvaluationPage.host pg')
    = RunEvaluationPage.targetPage (RunEvaluationPage.host pg)
  ∧ (∀ outcome,
       RunEvaluationPage.viewer (RunEvaluationPage.handleEvaluate_settled outcome pg') = None
       ∧ RunEvaluationPage.targetPage
           (RunEvaluationPage.host (RunEvaluationPage.handleEvaluate_settled outcome pg'))
         = RunEvaluationPage.targetPage (RunEvaluationPage.host pg))
  ∧ (∀ p,
       RunEvaluationPage.viewer (RunEvaluationPage.handleOpenPDF p pg') = Some initialState
       ∧ RunEvaluationPage.targetPage
           (RunEvaluationPage.host (RunEvaluationPage.handleOpenPDF p pg')) = p).
Proof. simpl. repeat split. Qed.

(** C8, as stated, fails: after the citation of page 5 of a first document
    was opened, submitting a second document leaves the target page 5 in
    the host state. *)
Lemma target_page_survives_swap :
  RunEvaluationPage.targetPage
    (RunEvaluationPage.host
       (RunEvaluationPage.handleEvaluate (Some RunEvaluationPage.secondReport)
          RunEvaluationPage.citationOpened)) = Some 5
  ∧ ¬ RunEvaluationPage.sessionDiscarded
        (RunEvaluationPage.handleEvaluate (Some RunEvaluationPage.secondReport)
           RunEvaluationPage.citationOpened).
Proof.
  split; [reflexivity|]. intros [_ H]. discriminate H.
Qed.

(** ** Reading back a printed integer *)

Lemma digits_cons_digit (c : ascii) (k : Z) (s : string) (acc : option Z) :
  Js.digitValue c = Some k →
  Js.digits (String c s) acc = Js.digits s (Some (10 * default 0 acc + k)).
Proof. intros H. cbn [Js.digits]. by rewrite H. Qed.

Lemma digits_cons_other (c : ascii) (s : string) (acc : option Z) :
  Js.digitValue c = None → Js.digits (String c s) acc = acc.
Proof. intros H. cbn [Js.digits]. by rewrite H. Qed.

Lemma digits_string_of_uint (d : Decimal.uint) (acc : Z) (rest : string) :
  Js.digits (NilEmpty.string_of_uint d +:+ rest) (Some acc) =
  Js.digits rest (Some (digitsValue d acc)).
Proof.
  revert acc. induction d; intros acc; cbn [NilEmpty.string_of_uint digitsValue];
    [reflexivity|..];
    rewrite append_cons; erewrite digits_cons_digit by reflexivity;
    apply IHd.
Qed.

Lemma digitsValue_acc (d : Decimal.uint) (acc : positive) :
  digitsValue d (Z.pos acc) = Z.pos (Pos.of_uint_acc d acc).
Proof.
  revert acc. induction d; intros acc; cbn [digitsValue Pos.of_uint_acc];
    [reflexivity|..];
    rewrite <- IHd; f_equal; lia.
Qed.

Lemma digitsValue_of_uint (d : Decimal.uint) :
  digitsValue d 0 = Z.of_N (Pos.of_uint d).
Proof.
  induction d; cbn [digitsValue Pos.of_uint]; [reflexivity|exact IHd|..];
    cbn [Z.of_N]; rewrite <- digitsValue_acc; reflexivity.
Qed.

Lemma digitsValue_to_uint (p : positive) :
  digitsValue (Pos.to_uint p) 0 = Z.pos p.
Proof.
  rewrite digitsValue_of_uint, DecimalPos.Unsigned.of_to. reflexivity.
Qed.

Lemma digits_stop (rest : string) (acc : option Z) :
  noLeadingDigit rest = true → Js.digits rest acc = acc.
Proof.
  destruct rest as [|c r]; [done|]. cbn [noLeadingDigit Js.digits].
  by destruct (Js.digitValue c).
Qed.

Lemma trimStart_whiteSpace (ws s : string) :
  allWhiteSpace ws = true → Js.trimStart (ws +:+ s) = Js.trimStart s.
Proof.
  induction ws as [|c ws IH]; [done|]. cbn [allWhiteSpace].
  intros [Hc Hws]%andb_true_iff. rewrite append_cons. cbn [Js.trimStart].
  rewrite Hc. by apply IH.
Qed.

Lemma parseInt_digits (d : Decimal.uint) (rest : string) :
  d ≠ Decimal.Nil → noLeadingDigit rest = true →
  Js.trimStart (NilEmpty.string_of_uint d +:+ rest) = NilEmpty.string_of_uint d +:+ rest
  ∧ Js.parseInt (NilEmpty.string_of_uint d +:+ rest) = Some (digitsValue d 0)
  ∧ Js.digits (NilEmpty.string_of_uint d +:+ rest) None = Some (digitsValue d 0).
Proof.
  intros Hd Hrest.
  destruct d; [done|..]; cbn [NilEmpty.string_of_uint digitsValue];
    rewrite append_cons; unfold Js.parseInt; cbn [Js.trimStart];
    (split; [reflexivity|]);
    change (Js.isWhiteSpace _) with false; cbv iota;
    erewrite digits_cons_digit by reflexivity;
    rewrite digits_string_of_uint, digits_stop by done; done.
Qed.

(** Reading back what [toString] prints gives the integer again, also after
    leading white space and before any text that does not go on with a
    digit. *)
Lemma parseInt_toString (ws : string) (n : Z) (rest : string) :
  allWhiteSpace ws = true → noLeadingDigit rest = true →
  Js.parseInt (ws +:+ Js.toString n +:+ rest) = Some n.
Proof.
  intros Hws Hrest.
  assert (Htrim : ∀ s, Js.parseInt (ws +:+ s) = Js.parseInt s).
  { intros s. unfold Js.parseInt. by rewrite trimStart_whiteSpace. }
  rewrite Htrim. unfold Js.toString. destruct n as [|p|p]; cbn [Z.to_int NilZero.string_of_int].
  - change (NilZero.string_of_uint Decimal.zero) with (NilEmpty.string_of_uint (Decimal.D0 Decimal.Nil)).
    by destruct (parseInt_digits (Decimal.D0 Decimal.Nil) rest) as (_ & -> & _).
  - pose proof (DecimalPos.Unsigned.to_uint_nonnil p) as Hnil.
    replace (NilZero.string_of_uint (Pos.to_uint p))
      with (NilEmpty.string_of_uint (Pos.to_uint p))
      by (by destruct (Pos.to_uint p)).
    destruct (parseInt_digits (Pos.to_uint p) rest) as (_ & -> & _); [done..|].
    by rewrite digitsValue_to_uint.
  - pose proof (DecimalPos.Unsigned.to_uint_nonnil p) as Hnil.
    replace (NilZero.string_of_uint (Pos.to_uint p))
      with (NilEmpty.string_of_uint (Pos.to_uint p))
      by (by destruct (Pos.to_uint p)).
    rewrite append_cons. unfold Js.parseInt. cbn [Js.trimStart].
    change (Js.isWhiteSpace "-") with false. cbv iota.
    destruct (parseInt_digits (Pos.to_uint p) rest) as (_ & _ & ->); [done..|].
    by rewrite digitsValue_to_uint.
Qed.

Lemma append_empty_r (s : string) : s +:+ "" = s.
Proof. induction s as [|c s IH]; [done|]. by rewrite append_cons, IH. Qed.

Lemma parseInt_toString_plain (n : Z) : Js.parseInt (Js.toString n) = Some n.
Proof.
  pose proof (parseInt_toString "" n "" eq_refl eq_refl) as H.
  change ("" +:+ Js.toString n +:+ "") with (Js.toString n +:+ "") in H.
  by rewrite append_empty_r in H.
Qed.

(** X1: opening the offset editor seeds the buffer with the offset as
    printed, and saving the untouched buffer commits that same offset: the
    state after edit and save differs from the one before in the buffer
    only. *)
Theorem offset_edit_save_round_trip (st : ViewerState) :
  let editing := (handleOffsetEdit st).1 in
  let saved := (handleOffsetSave editing).1 in
  isEditingOffset editing = true
  ∧ offsetInput editing = Js.toString (pageOffset st)
  ∧ pageOffset saved = pageOffset st
  ∧ saved = setOffsetInput (Js.toString (pageOffset st)) (setIsEditingOffset false st)
  ∧ (handleOffsetEdit st).2 = [] ∧ (handleOffsetSave editing).2 = [].
Proof.
  unfold handleOffsetEdit, handleOffsetSave. cbn [fst snd offsetInput setOffsetInput].
  rewrite parseInt_toString_plain. by destruct st.
Qed.

(** X2: the page input and the offset buffer are read as their leading
    integer. White space before the number and any text after it that does
    not go on with a digit are ignored, so that "12px" or " 12.5" is page 12. *)
Theorem parseInt_reads_leading_integer (ws : string) (n : Z) (rest : string)
    (st : ViewerState) (dom : Dom) :
  allWhiteSpace ws = true → noLeadingDigit rest = true →
  Js.parseInt (ws +:+ Js.toString n +:+ rest) = Some n
  ∧ handlePageJump dom (setUserPageInput (ws +:+ Js.toString n +:+ rest) st)
    = (let r := handlePageJump dom (setUserPageInput (Js.toString n) st) in
       (setUserPageInput (ws +:+ Js.toString n +:+ rest) r.1, r.2)).
Proof.
  intros Hws Hrest.
  pose proof (parseInt_toString ws n rest Hws Hrest) as Hparse.
  pose proof (parseInt_toString_plain n) as Hplain.
  split; [done|].
  unfold handlePageJump. cbn [userPageInput setUserPageInput pageOffset numPages].
  rewrite Hparse, Hplain.
  destruct ((1 <=? n + pageOffset st) && (n + pageOffset st <=? Js.toNumber (numPages st)));
    [|by destruct st].
  unfold scrollToPage. destruct (dom !! (n + pageOffset st)); by destruct st.
Qed.

Lemma parseInt_reads_leading_integer_witness :
  Js.parseInt (" " +:+ Js.toString 12 +:+ "px") = Some 12
  ∧ handlePageJump (blankSurface 20)
      (setUserPageInput (" " +:+ Js.toString 12 +:+ "px") (loadedState 20))
    = (let r := handlePageJump (blankSurface 20)
                  (setUserPageInput (Js.toString 12) (loadedState 20)) in
       (setUserPageInput (" " +:+ Js.toString 12 +:+ "px") r.1, r.2)).
Proof.
  apply (parseInt_reads_leading_integer " " 12 "px" (loadedState 20) (blankSurface 20));
    reflexivity.
Defined.

(** X3: a page jump whose input parses to [t], with [t + pageOffset] a page
    of the document whose anchor is on the surface, requests exactly that
    page and makes it the current page; nothing else changes. *)
Theorem handlePageJump_accepted (dom : Dom) (st : ViewerState) (t total : Z) :
  Js.parseInt (userPageInput st) = Some t →
  numPages st = Some total →
  1 ≤ t + pageOffset st ≤ total →
  is_Some (dom !! (t + pageOffset st)) →
  handlePageJump dom st
  = (setCurrentPage (Some (t + pageOffset st)) st, [ScrollIntoView (t + pageOffset st)]).
Proof.
  intros Hparse Htotal Hrange [spans Hanchor].
  unfold handlePageJump. rewrite Hparse, Htotal. simpl Js.toNumber.
  replace (1 <=? t + pageOffset st) with true by (symmetry; apply Z.leb_le; lia).
  replace (t + pageOffset st <=? total) with true by (symmetry; apply Z.leb_le; lia).
  unfold scrollToPage. by rewrite Hanchor.
Qed.

Lemma handlePageJump_accepted_witness :
  handlePageJump (blankSurface 10) negativeOffsetJump
  = (setCurrentPage (Some (7 + pageOffset negativeOffsetJump)) negativeOffsetJump,
     [ScrollIntoView (7 + pageOffset negativeOffsetJump)])
  ∧ 7 + pageOffset negativeOffsetJump = 5.
Proof.
  split; [|reflexivity].
  apply (handlePageJump_accepted (blankSurface 10) negativeOffsetJump 7 10).
  - reflexivity.
  - reflexivity.
  - vm_compute. split; discriminate.
  - vm_compute. by eexists.
Defined.

(** ** The navigation paths *)

Lemma scrollToPage_requests (dom : Dom) (a : Z) (st st' : ViewerState) :
  (scrollToPage dom a st).2 = (scrollToPage dom a st').2 ∧
  (currentPage st = currentPage st' →
   currentPage (scrollToPage dom a st).1 = currentPage (scrollToPage dom a st').1).
Proof. unfold scrollToPage. by destruct (dom !! a). Qed.

Lemma untracked_out_of_range (st : ViewerState) (total a : Z) :
  wellTracked total st → ¬ (1 ≤ a ≤ total) →
  renderedPages st !! a = None.
Proof.
  intros Hw Ha. destruct (renderedPages st !! a) as [v|] eqn:Hl; [|done].
  destruct (Hw a v Hl) as [_ Hr]. lia.
Qed.

(** Within one render of a loaded viewer whose render map holds the pages of
    the document, [tryScrollToAnchor] on "#page-<d>", [handlePageJump] on
    the input [d] and the target effect on the same non-zero number send the
    same requests and leave the same current page. *)
Lemma requests_agree_in_one_render (props : Props) (dom : Dom) (st : ViewerState)
    (d : string) (t total : Z) :
  isLoaded st = true → numPages st = Some total → wellTracked total st →
  Js.parseInt d = Some t →
  let jump := handlePageJump dom (setUserPageInput d st) in
  let link := tryScrollToAnchor dom ("#page-" +:+ d) st st in
  let target := targetPageEffect props dom st st in
  link.2 = jump.2 ∧ currentPage link.1 = currentPage jump.1
  ∧ (targetPage props = Some t → t ≠ 0 →
     target.2 = jump.2 ∧ currentPage target.1 = currentPage jump.1).
Proof.
  intros Hloaded Htotal Hwell Hparse jump link target.
  subst jump link target.
  unfold handlePageJump, tryScrollToAnchor, targetPageEffect.
  cbn [userPageInput setUserPageInput pageOffset numPages].
  rewrite Hloaded, Hparse, Htotal.
  destruct (pageHash_parts d) as [-> ->]. rewrite Hparse.
  simpl negb. simpl orb. cbv iota. simpl fmap. simpl Js.toNumber.
  destruct (decide (1 ≤ t + pageOffset st ≤ total)) as [Hin|Hout].
  - rewrite (loaded_all_rendered st total _ Hloaded Htotal Hwell Hin).
    replace (1 <=? t + pageOffset st) with true by (symmetry; apply Z.leb_le; lia).
    replace (t + pageOffset st <=? total) with true by (symmetry; apply Z.leb_le; lia).
    simpl andb. cbv iota.
    destruct (scrollToPage_requests dom (t + pageOffset st) st (setUserPageInput d st))
      as [Hr Hc].
    split; [done|]. split; [by apply Hc|].
    intros -> Hne. simpl Js.truthyNum. simpl Js.toNumber.
    replace (t =? 0) with false by (symmetry; by apply Z.eqb_neq).
    simpl negb. simpl andb. cbv iota.
    replace (1 <=? t + pageOffset st) with true by (symmetry; apply Z.leb_le; lia).
    replace (t + pageOffset st <=? total) with true by (symmetry; apply Z.leb_le; lia).
    simpl andb. cbv iota. split; [done|by apply Hc].
  - rewrite (untracked_out_of_range st total _ Hwell Hout).
    replace ((1 <=? t + pageOffset st) && (t + pageOffset st <=? total)) with false
      by (symmetry; apply andb_false_iff; rewrite !Z.leb_gt; lia).
    split; [done|]. split; [done|].
    intros -> Hne. simpl Js.toNumber.
    replace ((1 <=? t + pageOffset st) && (t + pageOffset st <=? total)) with false
      by (symmetry; apply andb_false_iff; rewrite !Z.leb_gt; lia).
    by destruct (Js.truthyNum (Some t) && true).
Qed.

(** ** Requests and the current page *)

Lemma lastRequested_app (r1 r2 : list Request) :
  lastRequested (r1 ++ r2) =
  match lastRequested r2 with Some a => Some a | None => lastRequested r1 end.
Proof.
  unfold lastRequested. destruct r2 as [|x r2 _] using rev_ind.
  - by rewrite app_nil_r.
  - rewrite app_assoc, !last_snoc. done.
Qed.

Lemma navigationSound_idle (dom : Dom) (st st' : ViewerState) :
  currentPage st' = currentPage st → navigationSound dom st (st', []).
Proof. intros H. split; [constructor|done]. Qed.

Lemma navigationSound_scroll (dom : Dom) (a : Z) (st : ViewerState) :
  navigationSound dom st (scrollToPage dom a st).
Proof.
  unfold scrollToPage. destruct (dom !! a) as [spans|] eqn:Ha.
  - split; [|done]. repeat constructor. exists a. split; [done|by eexists].
  - by apply navigationSound_idle.
Qed.

Lemma navigationSound_then (dom : Dom) (st st1 st2 : ViewerState) (r1 r2 : list Request) :
  navigationSound dom st (st1, r1) → navigationSound dom st1 (st2, r2) →
  navigationSound dom st (st2, r1 ++ r2).
Proof.
  intros [Hf1 Hc1] [Hf2 Hc2]. simpl in *. split; simpl.
  - by apply Forall_app.
  - rewrite lastRequested_app, Hc2. destruct (lastRequested r2); [done|]. exact Hc1.
Qed.

Lemma navigationSound_tryScrollToAnchor (dom : Dom) (hash : string)
    (closure st : ViewerState) :
  navigationSound dom st (tryScrollToAnchor dom hash closure st).
Proof.
  unfold tryScrollToAnchor.
  destruct (negb (isLoaded closure) || negb (Js.startsWith hash "#page-"));
    [by apply navigationSound_idle|].
  destruct (Js.parseInt _) as [n|]; simpl; [|by apply navigationSound_idle].
  destruct (renderedPages closure !! _) as [[]|];
    try (by apply navigationSound_idle). apply navigationSound_scroll.
Qed.

Lemma navigationSound_targetPageEffect (props : Props) (dom : Dom)
    (closure st : ViewerState) :
  navigationSound dom st (targetPageEffect props dom closure st).
Proof.
  unfold targetPageEffect.
  destruct (Js.truthyNum (targetPage props) && isLoaded closure);
    [|by apply navigationSound_idle].
  destruct ((1 <=? _) && _); [apply navigationSound_scroll | by apply navigationSound_idle].
Qed.

Lemma navigationSound_handlePageJump (dom : Dom) (st : ViewerState) :
  navigationSound dom st (handlePageJump dom st).
Proof.
  unfold handlePageJump. destruct (Js.parseInt _); [|by apply navigationSound_idle].
  destruct ((1 <=? _) && _); [apply navigationSound_scroll | by apply navigationSound_idle].
Qed.

Lemma navigationSound_runEffects (b : bool) (old new : Session) :
  navigationSound (surface new) (viewerState new)
    (viewerState (runEffects b old new).1, (runEffects b old new).2).
Proof.
  unfold runEffects.
  set (render := viewerState new).
  destruct (if _ : bool then tryScrollToAnchor _ _ render render else (render, []))
    as [st1 r1] eqn:H1.
  destruct (if _ : bool then targetPageEffect _ _ render st1 else (st1, []))
    as [st2 r2] eqn:H2.
  simpl. apply navigationSound_then with st1.
  - destruct (_ || _) in H1.
    + rewrite <- H1. apply navigationSound_tryScrollToAnchor.
    + injection H1 as <- <-. by apply navigationSound_idle.
  - destruct (_ || _ || _) in H2.
    + rewrite <- H2. apply navigationSound_targetPageEffect.
    + injection H2 as <- <-. by apply navigationSound_idle.
Qed.

Lemma navigationSound_handle (h : ViewerState → Step) (s : Session) :
  navigationSound (surface s) (viewerState s) (h (viewerState s)) →
  navigationSound (surface s) (viewerState s)
    (viewerState (handle h s).1, (handle h s).2).
Proof.
  intros Hh. unfold handle. destruct (h (viewerState s)) as [st' r] eqn:Eh.
  pose proof (navigationSound_runEffects false s (withState st' s)) as He.
  destruct (runEffects false s (withState st' s)) as [s' r']. simpl in *.
  by apply navigationSound_then with st'.
Qed.

Lemma navigationSound_step (e : Event) (s : Session) :
  navigationSound (surface s) (viewerState s)
    (viewerState (step e s).1, (step e s).2).
Proof.
  destruct e as [n|p|p|h|t|v| | |v| | | |d]; simpl.
  - pose proof (navigationSound_runEffects false s
                  (withState (onDocumentLoadSuccess n (viewerState s)) s)) as [Hf Hc].
    split; [exact Hf|exact Hc].
  - pose proof (navigationSound_runEffects true s
                  (withState (onPageRenderSuccess p (viewerState s)) s)) as [Hf Hc].
    split; [exact Hf|exact Hc].
  - by apply navigationSound_idle.
  - pose proof (navigationSound_tryScrollToAnchor (surface s) h (hashListener s) (viewerState s)) as H.
    by destruct (tryScrollToAnchor _ _ _ _).
  - pose proof (navigationSound_runEffects false s
                  (withProps (withTargetPage t (viewerProps s)) s)) as [Hf Hc].
    split; [exact Hf|exact Hc].
  - apply navigationSound_handle. by apply navigationSound_idle.
  - apply navigationSound_handle, navigationSound_handlePageJump.
  - apply navigationSound_handle. by apply navigationSound_idle.
  - apply navigationSound_handle. by apply navigationSound_idle.
  - apply navigationSound_handle. unfold handleOffsetSave.
    apply navigationSound_idle. by destruct (Js.parseInt _).
  - apply navigationSound_handle, navigationSound_scroll.
  - apply navigationSound_handle, navigationSound_scroll.
  - by apply navigationSound_idle.
Qed.

Lemma run_currentPage (es : list Event) (s : Session) :
  currentPage (viewerState (run es s).1) =
  match lastRequested (run es s).2 with
  | Some a => Some a
  | None => currentPage (viewerState s)
  end.
Proof.
  revert s. induction es as [|e es IH]; intros s; [done|].
  rewrite run_cons. pose proof (navigationSound_step e s) as [_ Hc].
  destruct (step e s) as [s1 r1]. specialize (IH s1).
  destruct (run es s1) as [s2 r2]. simpl in *.
  rewrite lastRequested_app, IH. destruct (lastRequested r2); [done|]. exact Hc.
Qed.

(** X5: the viewer never asks the surface for a page that is not there, and
    its current page is the page it last asked for. Every request of an
    event is for a page whose anchor is on the surface at that moment; and
    after any run of events from a mount the current page is the page of
    the last request of the run, and is empty when the run requested
    nothing. *)
Theorem current_page_is_last_request (props : Props) (hash : string) (dom : Dom)
    (es : list Event) :
  currentPage (viewerState (run es (mount props hash dom)).1)
    = lastRequested (run es (mount props hash dom)).2
  ∧ (∀ e s a, ScrollIntoView a ∈ (step e s).2 → is_Some (surface s !! a)).
Proof.
  split.
  - rewrite run_currentPage. by destruct (lastRequested _).
  - intros e s a Hin. destruct (navigationSound_step e s) as [Hf _]. simpl in Hf.
    rewrite Forall_forall in Hf. destruct (Hf _ Hin) as (a' & [= <-] & Ha). done.
Qed.

Lemma current_page_is_last_request_witness :
  is_Some (surface earlyLinkSession !! 3).
Proof.
  apply (proj2 (current_page_is_last_request earlyLinkProps "" ∅ [])
           (PageRenderSuccess 3) earlyLinkSession 3).
  vm_compute. by left.
Defined.

(** ** Handlers that do not navigate *)

(** A render that changes none of the dependencies runs no effect. *)
Lemma runEffects_quiet (old new : Session) :
  isLoadedValue (viewerState new) = isLoadedValue (viewerState old) →
  targetPage (viewerProps new) = targetPage (viewerProps old) →
  numPages (viewerState new) = numPages (viewerState old) →
  runEffects false old new = (withListener (hashListener new) new, []).
Proof.
  intros Hl Ht Hn. unfold runEffects.
  rewrite !bool_decide_eq_true_2 by done. simpl. by rewrite withState_same.
Qed.

Lemma handle_quiet (h : ViewerState → Step) (s : Session) :
  sameTracking (viewerState s) (h (viewerState s)).1 →
  handle h s = (withState (h (viewerState s)).1 s, (h (viewerState s)).2).
Proof.
  intros Htr. unfold handle. destruct (h (viewerState s)) as [st' r]. simpl in *.
  rewrite runEffects_quiet; simpl.
  - rewrite app_nil_r. by destruct s.
  - by apply sameTracking_loaded.
  - done.
  - by destruct Htr.
Qed.

Lemma tryScrollToAnchor_requests (dom : Dom) (hash : string) (closure st st' : ViewerState) :
  (tryScrollToAnchor dom hash closure st).2 = (tryScrollToAnchor dom hash closure st').2.
Proof.
  unfold tryScrollToAnchor.
  destruct (negb (isLoaded closure) || negb (Js.startsWith hash "#page-")); [done|].
  destruct (Js.parseInt _) as [n|]; simpl; [|done].
  destruct (renderedPages closure !! _) as [[]|]; try done.
  apply scrollToPage_requests.
Qed.

(** [tryScrollToAnchor] reads the readiness, the offset and the render map
    of its closure, and nothing else of it. *)
Lemma tryScrollToAnchor_closure (dom : Dom) (hash : string) (c c' st : ViewerState) :
  isLoaded c' = isLoaded c → pageOffset c' = pageOffset c →
  renderedPages c' = renderedPages c →
  tryScrollToAnchor dom hash c' st = tryScrollToAnchor dom hash c st.
Proof. unfold tryScrollToAnchor. by intros -> -> ->. Qed.

Lemma tryScrollToAnchor_currentPage (dom : Dom) (hash : string) (c st st' : ViewerState) :
  currentPage st = currentPage st' →
  currentPage (tryScrollToAnchor dom hash c st).1
  = currentPage (tryScrollToAnchor dom hash c st').1.
Proof.
  intros Hc. unfold tryScrollToAnchor.
  destruct (negb (isLoaded c) || negb (Js.startsWith hash "#page-")); [done|].
  destruct (Js.parseInt _) as [n|]; simpl; [|done].
  destruct (renderedPages c !! _) as [[]|]; try done.
  by apply scrollToPage_requests.
Qed.

(** X4: in a loaded viewer whose render map holds the pages of the document,
    the ways to ask for a printed page agree up to the offset they read. The
    hash effect of the current render on "#page-<d>", the page input [d]
    with the Go button, and a [targetPage] prop of the same non-zero number
    send the same requests and leave the same current page. A change of the
    fragment to "#page-<d>" is answered by the registered listener, which
    keeps the offset of the render it was registered in: it sends the
    requests, and leaves the current page, of the Go button at that offset,
    and so agrees with the Go button when that offset is the current one. *)
Theorem navigation_paths_agree (s : Session) (d : string) (t total : Z) :
  reachable s →
  isLoaded (viewerState s) = true → numPages (viewerState s) = Some total →
  wellTracked total (viewerState s) →
  Js.parseInt d = Some t →
  let st := viewerState s in
  let jumpAt (offset : Z) :=
    handlePageJump (surface s) (setUserPageInput d (setPageOffset offset st)) in
  let jump := handlePageJump (surface s) (setUserPageInput d st) in
  let link := tryScrollToAnchor (surface s) ("#page-" +:+ d) st st in
  let target := targetPageEffect (viewerProps s) (surface s) st st in
  let change := step (HashChange ("#page-" +:+ d)) s in
  (link.2 = jump.2 ∧ currentPage link.1 = currentPage jump.1)
  ∧ (targetPage (viewerProps s) = Some t → t ≠ 0 →
     target.2 = jump.2 ∧ currentPage target.1 = currentPage jump.1)
  ∧ (change.2 = (jumpAt (pageOffset (hashListener s))).2
     ∧ currentPage (viewerState change.1)
       = currentPage (jumpAt (pageOffset (hashListener s))).1)
  ∧ (pageOffset (hashListener s) = pageOffset st →
     change.2 = jump.2 ∧ currentPage (viewerState change.1) = currentPage jump.1).
Proof.
  intros Hreach Hloaded Htotal Hwell Hparse st jumpAt jump link target change.
  destruct (requests_agree_in_one_render (viewerProps s) (surface s) st d t total
              Hloaded Htotal Hwell Hparse) as (Hlr & Hlc & Htarget).
  split; [done|]. split; [exact Htarget|].
  destruct (reachable_listenerCurrent s Hreach) as [Hlv Hlm].
  assert (Hat : ∀ o, pageOffset (hashListener s) = o →
            change.2 = (jumpAt o).2
            ∧ currentPage (viewerState change.1) = currentPage (jumpAt o).1).
  { intros o Ho. set (c := setPageOffset o st).
    assert (Hsame : tryScrollToAnchor (surface s) ("#page-" +:+ d) (hashListener s) st
                    = tryScrollToAnchor (surface s) ("#page-" +:+ d) c st).
    { symmetry. apply tryScrollToAnchor_closure.
      - symmetry. by apply isLoaded_of_value.
      - by rewrite Ho.
      - by rewrite Hlm. }
    destruct (requests_agree_in_one_render (viewerProps s) (surface s) c d t total
                Hloaded Htotal Hwell Hparse) as (Hcr & Hcc & _).
    subst change jumpAt. cbn [step]. fold st. rewrite Hsame.
    pose proof (tryScrollToAnchor_requests (surface s) ("#page-" +:+ d) c st c) as Hreq.
    pose proof (tryScrollToAnchor_currentPage (surface s) ("#page-" +:+ d) c st c eq_refl)
      as Hcur.
    destruct (tryScrollToAnchor (surface s) ("#page-" +:+ d) c st) as [st1 r1].
    cbn [fst snd viewerState withState] in *. fold c.
    split; [by rewrite Hreq, Hcr | by rewrite Hcur, Hcc]. }
  split; [by apply Hat|].
  intros Hoff. destruct (Hat (pageOffset st) Hoff) as [Hr Hc].
  replace (jumpAt (pageOffset st)) with jump in Hr, Hc; [done|].
  assert (Heta : setPageOffset (pageOffset (viewerState s)) (viewerState s) = viewerState s)
    by (by destruct (viewerState s)).
  subst jump jumpAt st. cbn beta. by rewrite Heta.
Qed.

Lemma navigation_paths_agree_witness :
  (step (HashChange ("#page-" +:+ "3")) staleListenerSession).2
  = (handlePageJump (surface staleListenerSession)
       (setUserPageInput "3"
          (setPageOffset (pageOffset (hashListener staleListenerSession))
             (viewerState staleListenerSession)))).2.
Proof.
  assert (Hreach : reachable staleListenerSession)
    by (exists foxProps, EmptyString, (blankSurface 10), staleListenerTrace; reflexivity).
  assert (Hloaded : isLoaded (viewerState staleListenerSession) = true)
    by (vm_compute; reflexivity).
  assert (Htotal : numPages (viewerState staleListenerSession) = Some 10)
    by (vm_compute; reflexivity).
  assert (Hwell : wellTracked 10 (viewerState staleListenerSession))
    by (apply (bool_decide_unpack _); vm_compute; exact I).
  assert (Hparse : Js.parseInt "3" = Some 3) by reflexivity.
  exact (proj1 (proj1 (proj2 (proj2
           (navigation_paths_agree staleListenerSession "3" 3 10
              Hreach Hloaded Htotal Hwell Hparse))))).
Defined.

(** After the offset 2 is saved, the fragment "#page-3" still scrolls to
    page 3, while the page input "3" scrolls to page 5. *)
Example stale_listener_requests :
  pageOffset (viewerState staleListenerSession) = 2
  ∧ pageOffset (hashListener staleListenerSession) = 0
  ∧ (step (HashChange "#page-3") staleListenerSession).2 = [ScrollIntoView 3]
  ∧ (step ClickGo (step (PageInputChange "3") staleListenerSession).1).2
    = [ScrollIntoView 5].
Proof. by vm_compute. Qed.

(** X6: saving an offset never navigates, whatever target page is pending:
    it sends no request and leaves the current page. It does not register
    the hash listener again either, so a later change of the fragment is
    answered exactly as before the save, with the offset the listener was
    created with. *)
Theorem offset_save_never_navigates (s : Session) :
  let s' := (step ClickOffsetSave s).1 in
  (step ClickOffsetSave s).2 = []
  ∧ currentPage (viewerState s') = currentPage (viewerState s)
  ∧ pageOffset (viewerState s')
    = default (pageOffset (viewerState s)) (Js.parseInt (offsetInput (viewerState s)))
  ∧ hashListener s' = hashListener s
  ∧ (∀ h, (step (HashChange h) s').2 = (step (HashChange h) s).2).
Proof.
  simpl. rewrite handle_quiet by apply handleOffsetSave_tracking.
  cbn [fst snd]. split; [done|].
  split; [unfold handleOffsetSave; simpl; by destruct (Js.parseInt _)|].
  split; [unfold handleOffsetSave; simpl; by destruct (Js.parseInt _)|].
  split; [done|].
  intros h. cbn [surface hashListener viewerState withState].
  pose proof (tryScrollToAnchor_requests (surface s) h (hashListener s)
                (handleOffsetSave (viewerState s)).1 (viewerState s)) as Hreq.
  destruct (tryScrollToAnchor (surface s) h (hashListener s) (handleOffsetSave (viewerState s)).1).
  destruct (tryScrollToAnchor (surface s) h (hashListener s) (viewerState s)).
  exact Hreq.
Qed.

(** ** The render map *)

Lemma step_renderedPages (e : Event) (s : Session) :
  renderedPages (viewerState (step e s).1) = renderedPages (viewerState s)
  ∨ ∃ p, renderedPages (viewerState (step e s).1) = <[p := true]> (renderedPages (viewerState s)).
Proof.
  pose proof (step_tracking e s) as Htr.
  destruct e as [n|p|p|h|t|v| | |v| | | |d]; try (left; by destruct Htr).
  - left. simpl.
    destruct (runEffects_result false s (withState (onDocumentLoadSuccess n (viewerState s)) s))
      as (st2 & l & r & -> & [_ Hr] & _). exact Hr.
  - right. exists p. simpl.
    destruct (runEffects_result true s (withState (onPageRenderSuccess p (viewerState s)) s))
      as (st2 & l & r & -> & [_ Hr] & _). exact Hr.
Qed.

Lemma run_renderedPages (es : list Event) (s : Session) (P : gmap Z bool → Prop) :
  (∀ m p, P m → P (<[p := true]> m)) →
  P (renderedPages (viewerState s)) →
  P (renderedPages (viewerState (run es s).1)).
Proof.
  intros Hins. revert s. induction es as [|e es IH]; intros s HP; [done|].
  rewrite run_cons. pose proof (step_renderedPages e s) as Hstep.
  destruct (step e s) as [s1 r1]. specialize (IH s1).
  destruct (run es s1) as [s2 r2]. simpl in *. apply IH.
  destruct Hstep as [-> | [p ->]]; [done|by apply Hins].
Qed.

Lemma isLoaded_more_pages (st : ViewerState) (q : Z) :
  isLoaded st = true → isLoaded (onPageRenderSuccess q st) = true.
Proof.
  unfold isLoaded, isLoadedValue. simpl.
  destruct (numPages st) as [n|]; [|done]. simpl.
  destruct (n =? 0); simpl; [done|].
  rewrite !Z.leb_le. intros Hle.
  assert (size (renderedPages st) ≤ size (<[q := true]> (renderedPages st)))%nat; [|lia].
  destruct (renderedPages st !! q) as [v|] eqn:Hq.
  - rewrite <- !size_dom, dom_insert_L.
    replace ({[q]} ∪ dom (renderedPages st)) with (dom (renderedPages st)); [done|].
    apply elem_of_dom_2 in Hq. apply set_eq. intros x.
    rewrite elem_of_union, elem_of_singleton. split; [tauto|].
    intros [->|?]; done.
  - rewrite map_size_insert_None by done. lia.
Qed.

(** X7: the render map only grows. A page recorded as rendered stays
    recorded through every later event; every value the map of a mounted
    viewer holds is [true]; and once the viewer is loaded, the completion of
    further pages keeps it loaded. *)
Theorem rendered_pages_never_revert (es : list Event) (s : Session) (p : Z) :
  renderedPages (viewerState s) !! p = Some true →
  renderedPages (viewerState (run es s).1) !! p = Some true
  ∧ (∀ props hash dom,
       map_Forall (λ _ v, v = true)
         (renderedPages (viewerState (run es (mount props hash dom)).1)))
  ∧ (∀ st q, isLoaded st = true → isLoaded (onPageRenderSuccess q st) = true).
Proof.
  intros Hp. split; [|split].
  - apply (run_renderedPages es s (λ m, m !! p = Some true)); [|done].
    intros m q Hm. destruct (decide (q = p)) as [->|Hne].
    + apply lookup_insert_eq.
    + by rewrite lookup_insert_ne.
  - intros props hash dom.
    apply (run_renderedPages es _ (map_Forall (λ _ v, v = true))).
    + intros m q Hm. by apply map_Forall_insert_2.
    + apply map_Forall_empty.
  - intros st q. apply isLoaded_more_pages.
Qed.

Lemma rendered_pages_never_revert_witness :
  renderedPages (viewerState (run [DocumentLoadSuccess 5; ClickOffsetSave] earlyLinkSession).1) !! 2
  = Some true.
Proof.
  apply (rendered_pages_never_revert [DocumentLoadSuccess 5; ClickOffsetSave] earlyLinkSession 2).
  vm_compute. reflexivity.
Defined.

Lemma recordRendered_lookup (ps : list Z) (st : ViewerState) (k : Z) :
  renderedPages (recordRendered ps st) !! k =
  if decide (k ∈ ps) then Some true else renderedPages st !! k.
Proof.
  revert st. induction ps as [|p ps IH]; intros st.
  - change (recordRendered [] st) with st.
    destruct (decide (k ∈ [])) as [Hin|]; [|done]. by apply not_elem_of_nil in Hin.
  - change (recordRendered (p :: ps) st) with (recordRendered ps (onPageRenderSuccess p st)).
    rewrite IH. destruct (decide (k ∈ ps)) as [Hin|Hnin].
    + rewrite decide_True; [done|]. by right.
    + simpl. destruct (decide (k = p)) as [->|Hne].
      * rewrite lookup_insert_eq, decide_True; [done|]. by left.
      * rewrite lookup_insert_ne by done. rewrite decide_False; [done|].
        rewrite elem_of_cons. tauto.
Qed.

Lemma recordRendered_others (ps : list Z) (st : ViewerState) :
  recordRendered ps st = setRenderedPages (λ _, renderedPages (recordRendered ps st)) st.
Proof.
  revert st. induction ps as [|p ps IH]; intros st; [by destruct st|].
  change (recordRendered (p :: ps) st) with (recordRendered ps (onPageRenderSuccess p st)).
  rewrite IH at 1. done.
Qed.

(** X8: what the render tracker holds depends on which pages completed, not
    on their order or on how often each was reported: two sequences of
    completions with the same pages give the same state. *)
Theorem recordRendered_order_independent (ps ps' : list Z) (st : ViewerState) :
  (∀ p, p ∈ ps ↔ p ∈ ps') → recordRendered ps st = recordRendered ps' st.
Proof.
  intros Hsame. rewrite (recordRendered_others ps), (recordRendered_others ps').
  unfold setRenderedPages. f_equal. apply map_eq. intros k.
  rewrite !recordRendered_lookup.
  destruct (decide (k ∈ ps)) as [Hin|Hnin].
  - rewrite decide_True; [done|]. by apply Hsame.
  - rewrite decide_False; [done|]. by rewrite <- Hsame.
Qed.

Lemma recordRendered_order_independent_witness :
  recordRendered [3; 1; 2; 3; 1] initialState = recordRendered [1; 2; 3] initialState.
Proof.
  apply recordRendered_order_independent. intros p.
  rewrite !elem_of_cons, !elem_of_nil. tauto.
Defined.

(** ** The step buttons *)

(** X9: the step buttons move by one page and stay inside the document.
    With the current page [c] in [1, total] and the anchors of the document
    on the surface, Previous requests page [max 1 (c - 1)] and Next requests
    page [min total (c + 1)], so at the first page Previous asks for page 1
    again and at the last page Next asks for the last page again. Before any
    navigation the current page is empty and counts as page 1: Next then
    asks for page 2. *)
Theorem step_buttons_clamped (s : Session) (c total : Z) :
  numPages (viewerState s) = Some total →
  (currentPage (viewerState s) = Some c ∧ 1 ≤ c ≤ total)
  ∨ (currentPage (viewerState s) = None ∧ c = 1 ∧ 1 ≤ total) →
  (∀ k, 1 ≤ k ≤ total → is_Some (surface s !! k)) →
  let previous := Z.max 1 (c - 1) in
  let next := Z.min total (c + 1) in
  (step ClickPrevious s).2 = [ScrollIntoView previous]
  ∧ currentPage (viewerState (step ClickPrevious s).1) = Some previous
  ∧ (step ClickNext s).2 = [ScrollIntoView next]
  ∧ currentPage (viewerState (step ClickNext s).1) = Some next
  ∧ 1 ≤ previous ≤ total ∧ 1 ≤ next ≤ total
  ∧ c - 1 ≤ previous ≤ c ∧ c ≤ next ≤ c + 1.
Proof.
  intros Htotal Hcur Hanchors previous next.
  assert (Heff : (if Js.truthyNum (currentPage (viewerState s))
                  then Js.toNumber (currentPage (viewerState s)) else 1) = c).
  { destruct Hcur as [[-> Hc] | (-> & -> & _)]; [|done]. simpl.
    destruct (Z.eqb_spec c 0); [lia|done]. }
  assert (Hrange : 1 ≤ c ≤ total) by (destruct Hcur as [[_ ?] | (_ & -> & ?)]; lia).
  destruct (Hanchors previous ltac:(lia)) as [spansP HP].
  destruct (Hanchors next ltac:(lia)) as [spansN HN].
  simpl step. rewrite !handle_quiet by apply scrollToPage_tracking.
  cbn [fst snd viewerState withState].
  rewrite Htotal, Heff. simpl Js.toNumber.
  fold previous. fold next. unfold scrollToPage. rewrite HP, HN. simpl.
  repeat split; lia.
Qed.

Lemma blankSurface_anchor (n k : Z) :
  1 ≤ k ≤ n → blankSurface n !! k = Some [].
Proof.
  intros Hk. unfold blankSurface. apply elem_of_list_to_map_1.
  - rewrite <- list_fmap_compose.
    replace (fst ∘ (λ k0 : Z, (k0, @nil Span)) <$> seqZ 1 n) with (seqZ 1 n)
      by (symmetry; apply list_fmap_id).
    apply NoDup_seqZ.
  - apply list_elem_of_fmap. exists k. split; [done|]. apply elem_of_seqZ. lia.
Qed.

Lemma step_buttons_clamped_witness :
  (step ClickNext (withState (loadedState 10) (mount foxProps "" (blankSurface 10)))).2
  = [ScrollIntoView 2].
Proof.
  apply (step_buttons_clamped
           (withState (loadedState 10) (mount foxProps "" (blankSurface 10))) 1 10).
  - reflexivity.
  - right. repeat split; lia.
  - intros k Hk. exists []. apply (blankSurface_anchor 10 k Hk).
Defined.

(** ** What highlighting leaves alone *)

Lemma classListAdd_keeps (tokens cl : list string) (c : string) :
  c ∈ cl → c ∈ classListAdd tokens cl.
Proof. intros H. apply classListAdd_elem. by left. Qed.

(** X10: highlighting only ever adds classes to spans of its own page. It
    creates and removes no page and no span, changes no text, removes no
    class (a mark once set stays, whatever the later target or evidence),
    and leaves every other page as it was. *)
Theorem tryHighlight_frame (props : Props) (st : ViewerState) (dom : Dom)
    (pageNum q : Z) :
  let after := (tryHighlight props st dom pageNum).1 in
  (dom !! q = None → after !! q = None)
  ∧ (∀ spans, dom !! q = Some spans →
       ∃ spans', after !! q = Some spans'
         ∧ List.length spans' = List.length spans
         ∧ (q ≠ pageNum → spans' = spans)
         ∧ (∀ i span, spans !! i = Some span →
              ∃ span', spans' !! i = Some span'
                ∧ textContent span' = textContent span
                ∧ (∀ c, c ∈ classList span → c ∈ classList span')
                ∧ (marked span → marked span'))).
Proof.
  intros after. subst after. split.
  - intros Hq.
    destruct (decide (targetPage props = Some pageNum)) as [Ht|Ht];
      [|by rewrite tryHighlight_noop by tauto].
    destruct (dom !! pageNum) as [spansP|] eqn:Hp;
      [|by rewrite tryHighlight_noop by tauto].
    rewrite (tryHighlight_unfold _ _ _ _ _ Ht Hp). simpl.
    rewrite lookup_insert_ne; [done|]. intros ->. congruence.
  - intros spans Hq. rewrite (tryHighlight_lookup _ _ _ _ _ _ Hq).
    eexists. split; [done|]. case_decide as Hcase.
    + split; [by rewrite length_fmap|]. split; [intros Hne; by destruct Hcase|].
      intros i span Hi. rewrite list_lookup_fmap, Hi. simpl.
      eexists. split; [done|]. rewrite markSpan_fst.
      destruct (spanMatches _ span); [|done].
      split; [done|]. split.
      * intros c Hc. by apply classListAdd_keeps.
      * intros _. apply marked_addHighlight.
    + split; [done|]. split; [done|]. intros i span Hi. by exists span.
Qed.

Lemma tryHighlight_frame_witness :
  ∃ spans', (tryHighlight foxProps (loadedState 10) foxSurface 5).1 !! 5 = Some spans'
    ∧ List.length spans' = 2%nat.
Proof.
  destruct (tryHighlight_frame foxProps (loadedState 10) foxSurface 5 5) as [_ H].
  destruct (H [plainSpan "Quick brown"; plainSpan "xyz"] eq_refl)
    as (spans' & Hl & Hlen & _).
  by exists spans'.
Defined.

(** ** Where [classList.add] is called *)

Lemma markLoop_snd (spanText : string) (evidenceText : list (option string))
    (span : Span) (k : nat) :
  (foldl (λ acc search,
            if searchMatches spanText search
            then (addHighlight acc.1, S acc.2) else acc)
         (span, k) evidenceText).2
  = (k + List.length (List.filter (searchMatches spanText) evidenceText))%nat.
Proof.
  revert span k. induction evidenceText as [|search rest IH]; intros span k; simpl; [lia|].
  destruct (searchMatches spanText search); rewrite IH; simpl; lia.
Qed.

Lemma markSpan_snd_pos (evidenceText : list (option string)) (span : Span) :
  (markSpan evidenceText span).2 ≠ 0%nat ↔ spanMatches evidenceText span = true.
Proof.
  unfold markSpan, spanMatches.
  destruct (textContent span) as [text|]; simpl; [|done].
  destruct (String.eqb (Js.toLowerCase text) ""); simpl; [done|].
  rewrite markLoop_snd, existsb_exists. simpl. split.
  - intros Hlen. destruct (List.filter _ evidenceText) as [|x l] eqn:Hf; [done|].
    assert (Hx : In x (List.filter (searchMatches (Js.toLowerCase text)) evidenceText))
      by (rewrite Hf; by left).
    apply filter_In in Hx. by exists x.
  - intros (x & Hx & Hm).
    assert (Hin : In x (List.filter (searchMatches (Js.toLowerCase text)) evidenceText))
      by (by apply filter_In).
    destruct (List.filter _ evidenceText); [done|]. simpl. lia.
Qed.

(** X11: where the marker is applied. [classList.add] is called on span [i]
    of page [q] exactly when [q] is the page [tryHighlight] runs on, that
    page equals the [targetPage] prop, and the span there has a non-empty
    lower-cased text that occurs in the lower-cased text of an evidence
    entry whose page number plus the offset is that page. *)
Theorem highlight_ops_iff (props : Props) (st : ViewerState) (dom : Dom)
    (pageNum q : Z) (i : nat) :
  {| opPage := q; opSpan := i |} ∈ (tryHighlight props st dom pageNum).2 ↔
  q = pageNum ∧ targetPage props = Some pageNum ∧
  ∃ spans span text ev n evText,
    dom !! pageNum = Some spans ∧ spans !! i = Some span ∧
    textContent span = Some text ∧ Js.toLowerCase text ≠ EmptyString ∧
    ev ∈ evidences props ∧ Js.fieldNumber (pageNumber ev) = Some n ∧ n + pageOffset st = pageNum ∧
    evidence ev = Some evText ∧
    Js.substring_of (Js.toLowerCase text) (Js.toLowerCase evText).
Proof.
  destruct (decide (targetPage props = Some pageNum)) as [Ht|Ht].
  2:{ rewrite tryHighlight_noop by tauto. simpl. rewrite elem_of_nil. tauto. }
  destruct (dom !! pageNum) as [spans|] eqn:Hp.
  2:{ rewrite tryHighlight_noop by tauto. simpl. rewrite elem_of_nil.
      split; [done|]. intros (_ & _ & ? & ? & ? & ? & ? & ? & H & _). discriminate. }
  rewrite (tryHighlight_unfold _ _ _ _ _ Ht Hp). simpl.
  rewrite list_elem_of_join. split.
  - intros (ops & Hin & Hops).
    apply list_elem_of_lookup in Hops as [j Hj].
    rewrite list_lookup_imap in Hj.
    rewrite list_lookup_fmap in Hj.
    destruct (spans !! j) as [span|] eqn:Hs; [|discriminate]. simpl in Hj.
    injection Hj as <-. apply elem_of_replicate in Hin as [[= -> ->] Hpos].
    apply markSpan_snd_pos, spanMatches_iff in Hpos
      as (text & ev & n & evText & H).
    split; [done|]. split; [done|]. by exists spans, span, text, ev, n, evText.
  - intros (-> & _ & spans' & span & text & ev & n & evText & [= <-] & Hs & H).
    exists (replicate (markSpan (evidenceTextFor props st pageNum) span).2
              {| opPage := pageNum; opSpan := i |}).
    split.
    + apply elem_of_replicate. split; [done|].
      apply markSpan_snd_pos, spanMatches_iff. by exists text, ev, n, evText.
    + apply list_elem_of_lookup. exists i.
      by rewrite list_lookup_imap, list_lookup_fmap, Hs.
Qed.

(** ** Flattening the evidence of a result *)

Lemma flatMap_None {A B : Type} (f : A → option (list B)) (l : list A) :
  EvaluationResult.flatMap f l = None ↔ ∃ x, x ∈ l ∧ f x = None.
Proof.
  unfold EvaluationResult.flatMap. rewrite fmap_None, mapM_None, Exists_exists. done.
Qed.

Lemma flatMap_elem {A B : Type} (f : A → option (list B)) (l : list A)
    (out : list B) (y : B) :
  EvaluationResult.flatMap f l = Some out →
  (y ∈ out ↔ ∃ x ys, x ∈ l ∧ f x = Some ys ∧ y ∈ ys).
Proof.
  unfold EvaluationResult.flatMap. intros (k & Hk & ->)%fmap_Some.
  apply mapM_Some in Hk. rewrite list_elem_of_join. split.
  - intros (ys & Hy & Hys). apply list_elem_of_lookup in Hys as [i Hi].
    destruct (Forall2_lookup_r _ _ _ _ _ Hk Hi) as (x & Hx & Hf).
    exists x, ys. split; [|done]. apply list_elem_of_lookup. by exists i.
  - intros (x & ys & Hx & Hf & Hy). apply list_elem_of_lookup in Hx as [i Hi].
    destruct (Forall2_lookup_l _ _ _ _ _ Hk Hi) as (ys' & Hys' & Hf').
    exists ys. split; [done|]. apply list_elem_of_lookup. exists i. congruence.
Qed.

(** X12: when flattening the evidence raises. [getAllEvidences] returns the
    empty list when there are no rules at all, and it raises exactly when
    some rule named "Contemplated Transactions" has no [transactionDetails]
    or has a transaction without [evidence]; a missing [evidence] of any
    other rule is read as no evidence. *)
Theorem getAllEvidences_raises_iff (rules : list EvaluationResult.Rule) :
  EvaluationResult.getAllEvidences None = Some []
  ∧ (EvaluationResult.getAllEvidences (Some rules) = None ↔
     ∃ rule, rule ∈ rules ∧
       EvaluationResult.ruleName rule = "Contemplated Transactions"%string ∧
       (EvaluationResult.transactionDetails rule = None ∨
        ∃ details transaction,
          EvaluationResult.transactionDetails rule = Some details ∧
          transaction ∈ details ∧
          EvaluationResult.Transaction.evidence transaction = None)).
Proof.
  split; [done|]. simpl. rewrite flatMap_None. split.
  - intros (rule & Hin & Hnone). exists rule. split; [done|].
    unfold EvaluationResult.ruleEvidences in Hnone.
    destruct (String.eqb_spec (EvaluationResult.ruleName rule) "Contemplated Transactions")
      as [Hname|Hname]; [|discriminate].
    split; [done|].
    destruct (EvaluationResult.transactionDetails rule) as [details|]; [|by left].
    right. apply flatMap_None in Hnone as (transaction & Ht & He).
    exists details, transaction. split; [done|]. split; [done|].
    by destruct (EvaluationResult.Transaction.evidence transaction).
  - intros (rule & Hin & Hname & Hbad). exists rule. split; [done|].
    unfold EvaluationResult.ruleEvidences. rewrite Hname. simpl.
    destruct Hbad as [-> | (details & transaction & -> & Ht & He)]; [done|].
    apply flatMap_None. exists transaction. by rewrite He.
Qed.

(** X13: what the flattened list holds. When [getAllEvidences] returns, an
    entry is in the list exactly when it is the copy (page number, and page
    text as [evidence]) of an evidence item of some rule: an item of the
    rule's own [evidence] for an ordinary rule, an item of the [evidence] of
    one of its transactions for a rule named "Contemplated Transactions",
    whose own [evidence] is not read. *)
Theorem getAllEvidences_entries (rules : list EvaluationResult.Rule)
    (out : list EvidenceEntry) (entry : EvidenceEntry) :
  EvaluationResult.getAllEvidences (Some rules) = Some out →
  (entry ∈ out ↔
   ∃ rule src, rule ∈ rules ∧ entry = EvaluationResult.toEntry src ∧
     ((EvaluationResult.ruleName rule ≠ "Contemplated Transactions"%string ∧
       ∃ evs, EvaluationResult.evidence rule = Some evs ∧ src ∈ evs)
      ∨ (EvaluationResult.ruleName rule = "Contemplated Transactions"%string ∧
         ∃ details transaction evs,
           EvaluationResult.transactionDetails rule = Some details ∧
           transaction ∈ details ∧
           EvaluationResult.Transaction.evidence transaction = Some evs ∧
           src ∈ evs))).
Proof.
  intros Hout. simpl in Hout. rewrite (flatMap_elem _ _ _ _ Hout). split.
  - intros (rule & ys & Hin & Hrule & Hy). exists rule.
    unfold EvaluationResult.ruleEvidences in Hrule.
    destruct (String.eqb_spec (EvaluationResult.ruleName rule) "Contemplated Transactions")
      as [Hname|Hname].
    + destruct (EvaluationResult.transactionDetails rule) as [details|] eqn:Hd;
        [|discriminate].
      apply (flatMap_elem _ _ _ entry) in Hrule. apply Hrule in Hy
        as (transaction & es & Ht & He & Hentry).
      destruct (EvaluationResult.Transaction.evidence transaction) as [evs|] eqn:Hev;
        [|discriminate].
      injection He as <-. apply list_elem_of_fmap in Hentry as (src & -> & Hsrc).
      exists src. split; [done|]. split; [done|]. right. split; [done|].
      by exists details, transaction, evs.
    + injection Hrule as <-.
      destruct (EvaluationResult.evidence rule) as [evs|] eqn:Hev;
        [|by apply elem_of_nil in Hy].
      apply list_elem_of_fmap in Hy as (src & -> & Hsrc).
      exists src. split; [done|]. split; [done|]. left. split; [done|]. by exists evs.
  - intros (rule & src & Hin & -> & Hcase). exists rule.
    unfold EvaluationResult.ruleEvidences.
    destruct Hcase as [[Hname (evs & Hev & Hsrc)]
                      | [Hname (details & transaction & evs & Hd & Ht & Hev & Hsrc)]].
    + destruct (String.eqb_spec (EvaluationResult.ruleName rule) "Contemplated Transactions");
        [done|].
      rewrite Hev. eexists. split; [done|]. split; [done|].
      apply list_elem_of_fmap. by exists src.
    + rewrite Hname, Hd. simpl.
      assert (Hrule : EvaluationResult.ruleEvidences rule ≠ None).
      { intros Hnone.
        assert (Hall : EvaluationResult.flatMap EvaluationResult.ruleEvidences rules = None)
          by (apply flatMap_None; by exists rule).
        congruence. }
      unfold EvaluationResult.ruleEvidences in Hrule. rewrite Hname, Hd in Hrule.
      simpl in Hrule.
      destruct (EvaluationResult.flatMap _ details) as [ys|] eqn:Hys; [|done].
      exists ys. split; [done|]. split; [done|].
      apply (flatMap_elem _ _ _ _ Hys). exists transaction, (EvaluationResult.toEntry <$> evs).
      rewrite Hev. split; [done|]. split; [done|].
      apply list_elem_of_fmap. by exists src.
Qed.

Lemma getAllEvidences_entries_witness :
  {| pageNumber := Js.Num 12; evidence := Some "sale of notes" |}
  ∈ [ {| pageNumber := Js.Num 342; evidence := Some "Each original purchaser" |};
      {| pageNumber := Js.Num 12; evidence := Some "sale of notes" |} ]
  ↔ ∃ rule src, rule ∈ sampleRules ∧
      {| pageNumber := Js.Num 12; evidence := Some "sale of notes" |}
        = EvaluationResult.toEntry src ∧
      ((EvaluationResult.ruleName rule ≠ "Contemplated Transactions"%string ∧
        ∃ evs, EvaluationResult.evidence rule = Some evs ∧ src ∈ evs)
       ∨ (EvaluationResult.ruleName rule = "Contemplated Transactions"%string ∧
          ∃ details transaction evs,
            EvaluationResult.transactionDetails rule = Some details ∧
            transaction ∈ details ∧
            EvaluationResult.Transaction.evidence transaction = Some evs ∧
            src ∈ evs)).
Proof.
  apply (getAllEvidences_entries sampleRules). reflexivity.
Defined.

(** ** The page and its viewer *)

Lemma hostRun_snoc {Result : Type} (es : list (HostEvent Result)) (e : HostEvent Result)
    (pg : RunEvaluationPage.Page Result) :
  hostRun (es ++ [e]) pg = hostStep e (hostRun es pg).
Proof. unfold hostRun. by rewrite foldl_app. Qed.

(** X14: the viewer is shown only with a document. After any run of events
    of the page from its start, the viewer is mounted exactly when
    [pdfVisible] holds, and whenever it is visible, a result is shown or an
    evaluation runs, the document source is set: the viewer's branch for a
    missing file is never reached. *)
Theorem viewer_shown_only_with_document (Result : Type) (es : list (HostEvent Result)) :
  let pg := hostRun es (RunEvaluationPage.initialPage Result) in
  let h := RunEvaluationPage.host pg in
  (RunEvaluationPage.pdfVisible h = true ↔ is_Some (RunEvaluationPage.viewer pg))
  ∧ (RunEvaluationPage.pdfVisible h = true → is_Some (RunEvaluationPage.pdfBlobUrl h))
  ∧ (is_Some (RunEvaluationPage.evaluationData h) → is_Some (RunEvaluationPage.pdfBlobUrl h))
  ∧ (RunEvaluationPage.isLoading h = true → is_Some (RunEvaluationPage.pdfBlobUrl h)).
Proof.
  induction es as [|e es IH] using rev_ind.
  - simpl. repeat split; try discriminate; intros [? ?]; discriminate.
  - rewrite hostRun_snoc. simpl in IH. simpl.
    destruct (hostRun es (RunEvaluationPage.initialPage Result)) as [h v].
    destruct h as [data url visible err loading target]. simpl in IH.
    destruct IH as (Hv & Hvis & Hdata & Hload).
    destruct e as [f|outcome|p]; simpl.
    + destruct loading; simpl; [done|].
      destruct f as [f|]; simpl; [|done].
      repeat split; try discriminate; try (intros [? ?]; discriminate); by eexists.
    + destruct loading; simpl; [|done].
      specialize (Hload eq_refl).
      destruct visible; simpl; repeat split; try done; try discriminate;
        try (intros [? ?]; discriminate); try (by eexists); by apply Hv.
    + destruct data as [d|]; simpl; [|done].
      pose proof (Hdata ltac:(by eexists)) as Hurl.
      destruct visible; simpl; repeat split; try done; by eexists.
Qed.

(** X15: only a submission discards the viewer. While the viewer is shown,
    a click on another citation changes the target page and keeps the
    viewer with all of its state (offset, render map, current page), and so
    does the end of an evaluation; a submission with a file unmounts it. *)
Theorem viewer_state_survives_citations (Result : Type)
    (pg : RunEvaluationPage.Page Result) (v : ViewerState) :
  RunEvaluationPage.viewer pg = Some v →
  RunEvaluationPage.pdfVisible (RunEvaluationPage.host pg) = true →
  (∀ p, RunEvaluationPage.viewer (RunEvaluationPage.handleOpenPDF p pg) = Some v
        ∧ RunEvaluationPage.targetPage
            (RunEvaluationPage.host (RunEvaluationPage.handleOpenPDF p pg)) = p)
  ∧ (∀ outcome,
       RunEvaluationPage.viewer (RunEvaluationPage.handleEvaluate_settled outcome pg) = Some v)
  ∧ (∀ f, RunEvaluationPage.viewer (RunEvaluationPage.handleEvaluate (Some f) pg) = None)
  ∧ RunEvaluationPage.handleEvaluate None pg = pg.
Proof.
  intros Hv Hvis. destruct pg as [h v']. simpl in *. subst v'.
  repeat split; simpl; by rewrite ?Hvis.
Qed.

Lemma viewer_state_survives_citations_witness :
  RunEvaluationPage.viewer
    (RunEvaluationPage.handleOpenPDF (Some 9) RunEvaluationPage.citationOpened)
  = Some initialState.
Proof.
  apply (viewer_state_survives_citations unit RunEvaluationPage.citationOpened initialState);
    reflexivity.
Defined.

(** X16: one evaluation, from submission to its end. A submission with a
    file sets the new source, clears the error, raises the loading flag and
    leaves the previous result in place, so its citations stay on screen
    until the evaluation ends. The end lowers the loading flag in both
    cases: on success the result is stored and no error is shown; on
    failure the result is cleared and an error message is shown, which is
    never empty. *)
Theorem evaluation_cycle (Result : Type) (pg : RunEvaluationPage.Page Result)
    (f : RunEvaluationPage.UploadedFile) (outcome : Result + string) :
  let started := RunEvaluationPage.host (RunEvaluationPage.handleEvaluate (Some f) pg) in
  let ended := RunEvaluationPage.host
                 (RunEvaluationPage.handleEvaluate_settled outcome
                    (RunEvaluationPage.handleEvaluate (Some f) pg)) in
  RunEvaluationPage.isLoading started = true
  ∧ RunEvaluationPage.error started = None
  ∧ RunEvaluationPage.evaluationData started
    = RunEvaluationPage.evaluationData (RunEvaluationPage.host pg)
  ∧ RunEvaluationPage.isLoading ended = false
  ∧ RunEvaluationPage.pdfBlobUrl ended = Some (RunEvaluationPage.objectURL f)
  ∧ match outcome with
    | inl result =>
        RunEvaluationPage.evaluationData ended = Some result
        ∧ RunEvaluationPage.error ended = None
    | inr message =>
        RunEvaluationPage.evaluationData ended = None
        ∧ ∃ shown, RunEvaluationPage.error ended = Some shown
                   ∧ shown ≠ EmptyString
                   ∧ (message ≠ EmptyString → shown = message)
    end.
Proof.
  simpl. repeat split; try done.
  destruct outcome as [result|message]; simpl; [done|].
  split; [done|]. eexists. split; [done|].
  destruct (String.eqb_spec message ""); split; done.
Qed.

(** ** The upload panel *)

Lemma uploadPanel_run_snoc (es : list UploadPanel.Event) (e : UploadPanel.Event)
    (st : UploadPanel.State) :
  UploadPanel.run (es ++ [e]) st =
  (let '(st1, o1) := UploadPanel.run es st in
   let '(st2, o2) := UploadPanel.step e st1 in (st2, o1 ++ o2)).
Proof.
  revert st. induction es as [|e' es IH]; intros st; simpl.
  - destruct (UploadPanel.step e st) as [st2 o2]. by rewrite app_nil_r.
  - destruct (UploadPanel.step e' st) as [st1 o1]. rewrite IH.
    destruct (UploadPanel.run es st1) as [st2 o2].
    destruct (UploadPanel.step e st2) as [st3 o3]. by rewrite app_assoc.
Qed.

(** X17: only PDF files reach the evaluation. After any run of events of
    the upload panel from its start, the selected file, if any, has the type
    "application/pdf", and every call of [onEvaluate] was made with a file
    of that type and a regulation that is not empty. *)
Theorem only_pdf_is_evaluated (es : list UploadPanel.Event) :
  let result := UploadPanel.run es UploadPanel.initialState in
  (∀ f, UploadPanel.selectedFile result.1 = Some f →
        UploadPanel.type f = "application/pdf"%string)
  ∧ (∀ f regulation, UploadPanel.OnEvaluate f regulation ∈ result.2 →
        UploadPanel.type f = "application/pdf"%string ∧ regulation ≠ EmptyString).
Proof.
  induction es as [|e es IH] using rev_ind.
  - simpl. split; [discriminate|]. intros f r H. by apply elem_of_nil in H.
  - rewrite uploadPanel_run_snoc. simpl in IH.
    destruct (UploadPanel.run es UploadPanel.initialState) as [st outs].
    simpl in IH. destruct IH as [Hsel Hout].
    destruct e as [files|value|]; cbn [UploadPanel.step].
    + unfold UploadPanel.handleFileChange.
      destruct (files ≫= head) as [f|]; simpl.
      * destruct (String.eqb_spec (UploadPanel.type f) "application/pdf"); simpl.
        -- split; [by intros f' [= <-]|].
           intros f' r [H|H]%elem_of_app; [by apply Hout|].
           apply list_elem_of_singleton in H. discriminate.
        -- split; [done|].
           intros f' r [H|H]%elem_of_app; [by apply Hout|].
           apply elem_of_cons in H as [H|H]; [discriminate|].
           apply list_elem_of_singleton in H. discriminate.
      * split; [done|].
        intros f' r [H|H]%elem_of_app; [by apply Hout|].
        apply list_elem_of_singleton in H. discriminate.
    + split; [done|]. intros f r. rewrite app_nil_r. apply Hout.
    + unfold UploadPanel.handleSubmit.
      destruct (UploadPanel.selectedFile st) as [f|] eqn:Hf.
      * destruct (String.eqb (UploadPanel.regulation st) "") eqn:Hreg; simpl.
        -- split; [by rewrite Hf|].
           intros f' r [H|H]%elem_of_app; [by apply Hout|].
           apply elem_of_cons in H as [H|H]; [discriminate|].
           apply list_elem_of_singleton in H. discriminate.
        -- split; [by rewrite Hf|].
           intros f' r [H|H]%elem_of_app; [by apply Hout|].
           apply elem_of_cons in H as [H|H]; [discriminate|].
           apply list_elem_of_singleton in H. injection H as -> ->.
           split; [by apply Hsel|]. by apply eqb_empty_false.
      * simpl. split; [by rewrite Hf|].
        intros f' r [H|H]%elem_of_app; [by apply Hout|].
        apply elem_of_cons in H as [H|H]; [discriminate|].
        apply list_elem_of_singleton in H. discriminate.
Qed.

(** X18: a rejected choice of file keeps the earlier selection. Choosing a
    file that is not a PDF raises an alert and leaves the state as it was,
    choosing no file leaves it too, and a click on the button never changes
    the state; so after a PDF was selected, a later choice of another kind
    of file does not stop the PDF from being the one evaluated. *)
Theorem rejected_file_keeps_selection (st : UploadPanel.State) (pdf other : UploadPanel.File) :
  UploadPanel.selectedFile st = Some pdf →
  UploadPanel.regulation st ≠ EmptyString →
  UploadPanel.type other ≠ "application/pdf"%string →
  UploadPanel.handleFileChange (Some [other]) st
    = (st, [UploadPanel.Log UploadPanel.Info "File selected:";
            UploadPanel.Alert "Please upload a valid PDF file."])
  ∧ (UploadPanel.handleFileChange (Some []) st).1 = st
  ∧ (UploadPanel.handleFileChange None st).1 = st
  ∧ (UploadPanel.handleSubmit st).1 = st
  ∧ UploadPanel.OnEvaluate pdf (UploadPanel.regulation st)
    ∈ (UploadPanel.run [UploadPanel.FileChange (Some [other]); UploadPanel.ClickEvaluate] st).2.
Proof.
  intros Hsel Hreg Hother.
  assert (Hreject : UploadPanel.handleFileChange (Some [other]) st
    = (st, [UploadPanel.Log UploadPanel.Info "File selected:";
            UploadPanel.Alert "Please upload a valid PDF file."])).
  { unfold UploadPanel.handleFileChange. simpl.
    by destruct (String.eqb_spec (UploadPanel.type other) "application/pdf"). }
  split; [done|]. split; [done|]. split; [done|].
  assert (Hsubmit : UploadPanel.handleSubmit st
    = (st, [UploadPanel.Log UploadPanel.Info "Submitting evaluation";
            UploadPanel.OnEvaluate pdf (UploadPanel.regulation st)])).
  { unfold UploadPanel.handleSubmit. rewrite Hsel.
    by destruct (String.eqb_spec (UploadPanel.regulation st) ""). }
  split; [by rewrite Hsubmit|].
  simpl. rewrite Hreject, Hsubmit. simpl.
  do 3 right. left.
Qed.

Lemma rejected_file_keeps_selection_witness :
  (UploadPanel.handleFileChange
     (Some [ {| UploadPanel.name := "notes.txt"; UploadPanel.type := "text/plain" |} ])
     readyPanel).1 = readyPanel.
Proof.
  pose proof (rejected_file_keeps_selection readyPanel
           {| UploadPanel.name := "prospectus.pdf"; UploadPanel.type := "application/pdf" |}
           {| UploadPanel.name := "notes.txt"; UploadPanel.type := "text/plain" |}
           eq_refl ltac:(discriminate) ltac:(discriminate)) as [H _].
  exact (f_equal fst H).
Defined.

(** ** Labels of the result panel *)

Lemma split_nonempty (sep : ascii) (s : string) : EvaluationPanel.split sep s ≠ [].
Proof.
  destruct s as [|c s]; simpl; [done|].
  destruct (Ascii.eqb c sep); [done|]. by destruct (EvaluationPanel.split sep s).
Qed.

Lemma join_cons_char (sep c : ascii) (w : string) (ws : list string) :
  EvaluationPanel.join sep (String c w :: ws) = String c (EvaluationPanel.join sep (w :: ws)).
Proof. destruct ws; [done|]. simpl. by rewrite append_cons. Qed.

(** Joining what was split gives the string again. *)
Lemma join_split (sep : ascii) (s : string) :
  EvaluationPanel.join sep (EvaluationPanel.split sep s) = s.
Proof.
  induction s as [|c s IH]; [done|]. simpl.
  destruct (Ascii.eqb_spec c sep) as [->|Hne].
  - pose proof (split_nonempty sep s) as Hne.
    destruct (EvaluationPanel.split sep s) as [|w ws] eqn:Hs; [done|].
    change (EvaluationPanel.join sep (EmptyString :: w :: ws))
      with (String sep (EvaluationPanel.join sep (w :: ws))).
    by rewrite IH.
  - pose proof (split_nonempty sep s) as Hnn.
    destruct (EvaluationPanel.split sep s) as [|w ws] eqn:Hs; [done|].
    by rewrite join_cons_char, IH.
Qed.

Lemma isWhiteSpace_not_upper (c : ascii) :
  EvaluationPanel.isUpper c = true → Js.isWhiteSpace c = false.
Proof.
  unfold EvaluationPanel.isUpper, Js.isWhiteSpace.
  intros [H1 H2]%andb_true_iff. apply N.leb_le in H1, H2.
  apply orb_false_iff. split.
  - apply andb_false_iff. right. apply N.leb_gt. lia.
  - apply N.eqb_neq. lia.
Qed.

Lemma upperChar_upper (c : ascii) :
  EvaluationPanel.isUpper c = true → EvaluationPanel.upperChar c = c.
Proof.
  unfold EvaluationPanel.isUpper, EvaluationPanel.upperChar.
  intros [H1 H2]%andb_true_iff. apply N.leb_le in H1, H2.
  replace (97 <=? N_of_ascii c)%N with false by (symmetry; apply N.leb_gt; lia). done.
Qed.

Lemma isWhiteSpace_upperChar (c : ascii) :
  Js.isWhiteSpace c = false → Js.isWhiteSpace (EvaluationPanel.upperChar c) = false.
Proof.
  intros Hc. unfold EvaluationPanel.upperChar.
  destruct ((97 <=? N_of_ascii c)%N && (N_of_ascii c <=? 122)%N) eqn:Hlow; [|done].
  apply andb_true_iff in Hlow as [H1 H2]. apply N.leb_le in H1, H2.
  unfold Js.isWhiteSpace. rewrite N_ascii_embedding by lia.
  apply orb_false_iff. split.
  - apply andb_false_iff. right. apply N.leb_gt. lia.
  - apply N.eqb_neq. lia.
Qed.

Lemma trimEnd_cons (c : ascii) (s : string) :
  Js.isWhiteSpace c = false →
  EvaluationPanel.trimEnd (String c s) = String c (EvaluationPanel.trimEnd s).
Proof. intros Hc. simpl. rewrite Hc. by destruct (EvaluationPanel.trimEnd s). Qed.

Lemma trimEnd_spaced (s : string) :
  EvaluationPanel.noWhiteSpace s = true →
  EvaluationPanel.trimEnd (EvaluationPanel.spaceBeforeCapitals s)
  = EvaluationPanel.spaceBeforeCapitals s.
Proof.
  induction s as [|c s IH]; [done|]. cbn [EvaluationPanel.noWhiteSpace].
  intros [Hc Hs]%andb_true_iff. apply negb_true_iff in Hc.
  cbn [EvaluationPanel.spaceBeforeCapitals].
  destruct (EvaluationPanel.isUpper c).
  - change (EvaluationPanel.trimEnd (String " " (String c (EvaluationPanel.spaceBeforeCapitals s))))
      with (match EvaluationPanel.trimEnd (String c (EvaluationPanel.spaceBeforeCapitals s)) with
            | EmptyString => EmptyString
            | rest => String " " rest
            end).
    rewrite trimEnd_cons by done. by rewrite IH.
  - rewrite trimEnd_cons by done. by rewrite IH.
Qed.

Lemma removeSpaces_spaced (s : string) :
  EvaluationPanel.noWhiteSpace s = true →
  EvaluationPanel.removeSpaces (EvaluationPanel.spaceBeforeCapitals s) = s.
Proof.
  induction s as [|c s IH]; [done|]. cbn [EvaluationPanel.noWhiteSpace].
  intros [Hc Hs]%andb_true_iff. apply negb_true_iff in Hc.
  assert (Hsp : Ascii.eqb c " " = false).
  { apply Ascii.eqb_neq. intros ->. discriminate. }
  cbn [EvaluationPanel.spaceBeforeCapitals].
  destruct (EvaluationPanel.isUpper c); cbn [EvaluationPanel.removeSpaces];
    rewrite ?Hsp; simpl Ascii.eqb; cbv iota; by rewrite IH.
Qed.

(** X19: the label of a field name. For a key without white space,
    [formatLabel] gives the key with a space put before every capital
    letter after the first character and with its first character in upper
    case; no space is left at either end, and taking the spaces out of the
    label gives the key back, capitalized. *)
Theorem formatLabel_closed_form (c : ascii) (rest : string) :
  EvaluationPanel.noWhiteSpace (String c rest) = true →
  EvaluationPanel.formatLabel (String c rest)
  = String (EvaluationPanel.upperChar c) (EvaluationPanel.spaceBeforeCapitals rest)
  ∧ EvaluationPanel.removeSpaces (EvaluationPanel.formatLabel (String c rest))
    = String (EvaluationPanel.upperChar c) rest.
Proof.
  cbn [EvaluationPanel.noWhiteSpace].
  intros [Hc Hrest]%andb_true_iff. apply negb_true_iff in Hc.
  assert (Hform : EvaluationPanel.formatLabel (String c rest)
    = String (EvaluationPanel.upperChar c) (EvaluationPanel.spaceBeforeCapitals rest)).
  { unfold EvaluationPanel.formatLabel, EvaluationPanel.trim.
    cbn [EvaluationPanel.spaceBeforeCapitals].
    destruct (EvaluationPanel.isUpper c) eqn:Hup.
    - rewrite (upperChar_upper c Hup).
      change (EvaluationPanel.split " " (String " " (String c (EvaluationPanel.spaceBeforeCapitals rest))))
        with (EmptyString :: EvaluationPanel.split " " (String c (EvaluationPanel.spaceBeforeCapitals rest))).
      cbn [EvaluationPanel.capitalizeFirst EvaluationPanel.capitalize].
      pose proof (split_nonempty " " (String c (EvaluationPanel.spaceBeforeCapitals rest))) as Hne.
      pose proof (join_split " " (String c (EvaluationPanel.spaceBeforeCapitals rest))) as Hjoin.
      destruct (EvaluationPanel.split " " (String c (EvaluationPanel.spaceBeforeCapitals rest)))
        as [|w ws]; [done|].
      change (EvaluationPanel.join " " (EmptyString :: w :: ws))
        with (String " " (EvaluationPanel.join " " (w :: ws))).
      rewrite Hjoin. cbn [Js.trimStart]. change (Js.isWhiteSpace " ") with true. cbv iota.
      rewrite Hc. rewrite trimEnd_cons by done. by rewrite trimEnd_spaced.
    - assert (Hsp : Ascii.eqb c " " = false).
      { apply Ascii.eqb_neq. intros ->. discriminate. }
      cbn [EvaluationPanel.split]. rewrite Hsp.
      pose proof (split_nonempty " " (EvaluationPanel.spaceBeforeCapitals rest)) as Hne.
      pose proof (join_split " " (EvaluationPanel.spaceBeforeCapitals rest)) as Hjoin.
      destruct (EvaluationPanel.split " " (EvaluationPanel.spaceBeforeCapitals rest))
        as [|w ws]; [done|].
      cbn [EvaluationPanel.capitalizeFirst EvaluationPanel.capitalize].
      rewrite join_cons_char, Hjoin. cbn [Js.trimStart].
      rewrite (isWhiteSpace_upperChar c Hc).
      rewrite trimEnd_cons by (by apply isWhiteSpace_upperChar).
      by rewrite trimEnd_spaced. }
  split; [done|]. rewrite Hform. cbn [EvaluationPanel.removeSpaces].
  assert (Hsp : Ascii.eqb (EvaluationPanel.upperChar c) " " = false).
  { apply Ascii.eqb_neq. intros Heq.
    pose proof (isWhiteSpace_upperChar c Hc) as Hw. rewrite Heq in Hw. discriminate. }
  rewrite Hsp. by rewrite removeSpaces_spaced.
Qed.

Lemma formatLabel_closed_form_witness :
  EvaluationPanel.formatLabel "isERISAEligible" = "Is E R I S A Eligible"%string
  ∧ EvaluationPanel.removeSpaces (EvaluationPanel.formatLabel "isERISAEligible")
    = "IsERISAEligible"%string.
Proof.
  apply (formatLabel_closed_form "i" "sERISAEligible"). reflexivity.
Defined.

(** ** When the effects run again *)

Lemma withTargetPage_same (s : Session) :
  withProps (withTargetPage (targetPage (viewerProps s)) (viewerProps s)) s = s.
Proof. destruct s as [[f evs t] st h l d]. done. Qed.

(** X20: a request for the page already targeted does nothing. When the
    host passes the [targetPage] it passed before, no effect runs: nothing
    is requested and the session is as it was, so a second click on the same
    citation does not bring its page back into view. A different non-zero
    target whose page, after the offset, is in the loaded document and on
    the surface is scrolled to. *)
Theorem same_target_does_not_scroll_again (s : Session) (t : option Z) :
  (t = targetPage (viewerProps s) → step (TargetPageChange t) s = (s, []))
  ∧ (∀ n total,
       t = Some n → n ≠ 0 → t ≠ targetPage (viewerProps s) →
       isLoaded (viewerState s) = true →
       numPages (viewerState s) = Some total →
       1 ≤ n + pageOffset (viewerState s) ≤ total →
       is_Some (surface s !! (n + pageOffset (viewerState s))) →
       (step (TargetPageChange t) s).2 = [ScrollIntoView (n + pageOffset (viewerState s))]
       ∧ currentPage (viewerState (step (TargetPageChange t) s).1)
         = Some (n + pageOffset (viewerState s))).
Proof.
  split.
  - intros ->. simpl. rewrite withTargetPage_same. apply runEffects_same.
  - intros n total -> Hn Hdiff Hloaded Htotal Hrange [spans Hanchor].
    simpl. unfold runEffects. cbn [viewerState withProps viewerProps withTargetPage targetPage
                                    surface locationHash hashListener].
    rewrite (bool_decide_eq_true_2 (isLoadedValue _ = _)) by done.
    rewrite (bool_decide_eq_false_2 (targetPage _ = _)) by (intros H; by rewrite H in Hdiff).
    simpl negb. simpl orb. cbv iota.
    unfold targetPageEffect. cbn [targetPage]. rewrite Hloaded, Htotal.
    simpl Js.truthyNum. simpl Js.toNumber.
    replace (n =? 0) with false by (symmetry; by apply Z.eqb_neq).
    replace (1 <=? n + pageOffset (viewerState s)) with true by (symmetry; apply Z.leb_le; lia).
    replace (n + pageOffset (viewerState s) <=? total) with true
      by (symmetry; apply Z.leb_le; lia).
    simpl. unfold scrollToPage. rewrite Hanchor. done.
Qed.

Lemma same_target_does_not_scroll_again_witness :
  step (TargetPageChange (Some 5)) (withState (loadedState 10) (mount foxProps "" foxSurface))
  = (withState (loadedState 10) (mount foxProps "" foxSurface), []).
Proof.
  apply (proj1 (same_target_does_not_scroll_again
                  (withState (loadedState 10) (mount foxProps "" foxSurface)) (Some 5))).
  reflexivity.
Defined.

(** The hash effect runs whenever the render map is a new object. *)
Lemma runEffects_new_render (old new : Session) (d : string) (n : Z) :
  isLoaded (viewerState new) = true →
  locationHash new = "#page-" +:+ d →
  Js.parseInt d = Some n →
  renderedPages (viewerState new) !! (n + pageOffset (viewerState new)) = Some true →
  is_Some (surface new !! (n + pageOffset (viewerState new))) →
  ∃ rest, (runEffects true old new).2 = ScrollIntoView (n + pageOffset (viewerState new)) :: rest.
Proof.
  intros Hnew Hhash Hparse Hrendered [spans Hanchor].
  unfold runEffects. simpl orb. cbv iota.
  unfold tryScrollToAnchor at 1. rewrite Hnew, Hhash.
  destruct (pageHash_parts d) as [-> ->]. simpl negb. simpl orb. cbv iota.
  rewrite Hparse. simpl fmap. cbv beta iota. rewrite Hrendered.
  unfold scrollToPage at 1. rewrite Hanchor.
  destruct (if _ : bool then targetPageEffect _ _ _ _ else _) as [st2 r2].
  simpl. by eexists.
Qed.

(** X21: with a page fragment in the URL, every completed page render
    scrolls back to the page of the fragment. In a loaded viewer whose
    fragment is "#page-<n>", with [n] plus the offset a rendered page whose
    anchor is on the surface, the completion of any page, new or rendered
    before, runs the hash effect again, and the first request of the event
    is a scroll to that page. *)
Theorem page_render_scrolls_to_fragment (s : Session) (p : Z) (d : string) (n : Z) :
  isLoaded (viewerState s) = true →
  locationHash s = "#page-" +:+ d →
  Js.parseInt d = Some n →
  renderedPages (viewerState s) !! (n + pageOffset (viewerState s)) = Some true →
  is_Some (surface s !! (n + pageOffset (viewerState s))) →
  ∃ rest, (step (PageRenderSuccess p) s).2
          = ScrollIntoView (n + pageOffset (viewerState s)) :: rest.
Proof.
  intros Hloaded Hhash Hparse Hrendered Hanchor.
  apply (runEffects_new_render s (withState (onPageRenderSuccess p (viewerState s)) s) d n).
  - exact (isLoaded_more_pages _ p Hloaded).
  - exact Hhash.
  - exact Hparse.
  - change (<[p := true]> (renderedPages (viewerState s))
              !! (n + pageOffset (viewerState s)) = Some true).
    destruct (decide (p = n + pageOffset (viewerState s))) as [->|Hne].
    + apply lookup_insert_eq.
    + by rewrite lookup_insert_ne.
  - exact Hanchor.
Qed.
Lemma page_render_scrolls_to_fragment_witness :
  ∃ rest, (step (PageRenderSuccess 1) linkedSession).2
          = ScrollIntoView (2 + pageOffset (viewerState linkedSession)) :: rest.
Proof.
  apply (page_render_scrolls_to_fragment linkedSession 1 "2" 2).
  - vm_compute. reflexivity.
  - vm_compute. reflexivity.
  - reflexivity.
  - vm_compute. reflexivity.
  - vm_compute. by eexists.
Defined.

(** ** Runs of the page and of the upload panel *)

Lemma viewer_shown_only_with_document_witness :
  is_Some (RunEvaluationPage.pdfBlobUrl
             (RunEvaluationPage.host
                (hostRun twoSubmissions (RunEvaluationPage.initialPage unit)))).
Proof.
  destruct (viewer_shown_only_with_document unit twoSubmissions) as (_ & Hvisible & _).
  apply Hvisible. reflexivity.
Defined.

Lemma evaluation_cycle_witness :
  ∃ shown,
    RunEvaluationPage.error
      (RunEvaluationPage.host
         (RunEvaluationPage.handleEvaluate_settled (inr "")
            (RunEvaluationPage.handleEvaluate (Some RunEvaluationPage.secondReport)
               RunEvaluationPage.citationOpened))) = Some shown
    ∧ shown ≠ EmptyString.
Proof.
  destruct (evaluation_cycle unit RunEvaluationPage.citationOpened
              RunEvaluationPage.secondReport (inr EmptyString))
    as (_ & _ & _ & _ & _ & _ & shown & Hshown & Hne & _).
  by exists shown.
Defined.

Lemma only_pdf_is_evaluated_witness :
  UploadPanel.type {| UploadPanel.name := "prospectus.pdf"; UploadPanel.type := "application/pdf" |}
    = "application/pdf"%string
  ∧ ("ERISA" : string) ≠ EmptyString.
Proof.
  destruct (only_pdf_is_evaluated panelSession) as [_ Hcalls].
  apply Hcalls. vm_compute. do 6 right. left.
Defined.

(** ** Inputs that are not integers *)

Lemma parseInt_unfold (s : string) :
  Js.parseInt s =
  match Js.trimStart s with
  | String c r =>
      if Ascii.eqb c "-" then Z.opp <$> Js.digits r None
      else if Ascii.eqb c "+" then Js.digits r None
      else Js.digits (String c r) None
  | EmptyString => None
  end.
Proof.
  unfold Js.parseInt. destruct (Js.trimStart s) as [|c r]; [done|].
  destruct c as [[] [] [] [] [] [] [] []]; reflexivity.
Qed.

Lemma trimStart_decompose (s : string) :
  ∃ ws, allWhiteSpace ws = true ∧ s = ws +:+ Js.trimStart s.
Proof.
  induction s as [|c s (ws & Hws & Hs)]; [by exists EmptyString|].
  cbn [Js.trimStart]. destruct (Js.isWhiteSpace c) eqn:Hc.
  - exists (String c ws). split; [cbn [allWhiteSpace]; by rewrite Hc|].
    by rewrite append_cons, <- Hs.
  - by exists EmptyString.
Qed.

Lemma digits_started (s : string) (acc : Z) : is_Some (Js.digits s (Some acc)).
Proof.
  revert acc. induction s as [|c s IH]; intros acc; [by eexists|].
  cbn [Js.digits]. destruct (Js.digitValue c); [apply IH|by eexists].
Qed.

Lemma digits_Some_iff (s : string) :
  is_Some (Js.digits s None) ↔ ∃ c r, s = String c r ∧ is_Some (Js.digitValue c).
Proof.
  destruct s as [|c r]; cbn [Js.digits].
  - split; [intros [? ?]; discriminate | intros (? & ? & ? & _); discriminate].
  - destruct (Js.digitValue c) as [d|] eqn:Hd.
    + split; [intros _; exists c, r; by rewrite Hd | intros _; apply digits_started].
    + split; [intros [? ?]; discriminate|].
      intros (c' & r' & [= <- <-] & [? H]). congruence.
Qed.

Lemma digit_plain (c : ascii) :
  is_Some (Js.digitValue c) →
  Js.isWhiteSpace c = false ∧ Ascii.eqb c "-" = false ∧ Ascii.eqb c "+" = false.
Proof.
  intros [d Hd]. unfold Js.digitValue in Hd.
  destruct ((48 <=? N_of_ascii c)%N && (N_of_ascii c <=? 57)%N) eqn:Hr; [|discriminate].
  apply andb_true_iff in Hr as [H1 H2]. apply N.leb_le in H1, H2.
  split; [|split].
  - unfold Js.isWhiteSpace. apply orb_false_iff. split.
    + apply andb_false_iff. right. apply N.leb_gt. lia.
    + apply N.eqb_neq. lia.
  - apply Ascii.eqb_neq. intros ->. vm_compute in H1. by apply H1.
  - apply Ascii.eqb_neq. intros ->. vm_compute in H1. by apply H1.
Qed.

(** [parseInt] gives a number exactly for the strings that begin, after
    white space and at most one sign, with a digit. *)
Lemma parseInt_Some_iff (s : string) :
  is_Some (Js.parseInt s) ↔ leadingInteger s.
Proof.
  split.
  - intros Hsome. destruct (trimStart_decompose s) as (ws & Hws & Hs).
    rewrite parseInt_unfold in Hsome.
    destruct (Js.trimStart s) as [|c r]; [destruct Hsome; discriminate|].
    destruct (Ascii.eqb_spec c "-") as [->|Hminus].
    + apply fmap_is_Some, digits_Some_iff in Hsome as (d & r' & -> & Hd).
      exists ws, "-"%string, d, r'. repeat split; try done. tauto.
    + destruct (Ascii.eqb_spec c "+") as [->|Hplus].
      * apply digits_Some_iff in Hsome as (d & r' & -> & Hd).
        exists ws, "+"%string, d, r'. repeat split; try done. tauto.
      * apply digits_Some_iff in Hsome as (d & r' & [= <- <-] & Hd).
        exists ws, EmptyString, c, r. repeat split; try done. tauto.
  - intros (ws & sign & c & rest & Hws & Hsign & Hc & ->).
    destruct (digit_plain c Hc) as (Hnw & Hnm & Hnp).
    rewrite parseInt_unfold, trimStart_whiteSpace by done.
    destruct Hsign as [-> | [-> | ->]].
    + change (EmptyString +:+ String c rest) with (String c rest).
      cbn [Js.trimStart]. rewrite Hnw, Hnm, Hnp.
      apply digits_Some_iff. by exists c, rest.
    + change ("+" +:+ String c rest) with (String "+" (String c rest)).
      cbn [Js.trimStart]. change (Js.isWhiteSpace "+") with false. cbv iota.
      change (Ascii.eqb "+" "-") with false. change (Ascii.eqb "+" "+") with true. cbv iota.
      apply digits_Some_iff. by exists c, rest.
    + change ("-" +:+ String c rest) with (String "-" (String c rest)).
      cbn [Js.trimStart]. change (Js.isWhiteSpace "-") with false. cbv iota.
      change (Ascii.eqb "-" "-") with true. cbv iota.
      apply fmap_is_Some, digits_Some_iff. by exists c, rest.
Qed.

Lemma parseInt_None_iff (s : string) :
  Js.parseInt s = None ↔ ¬ leadingInteger s.
Proof.
  rewrite <- parseInt_Some_iff. destruct (Js.parseInt s) as [n|].
  - split; [discriminate|]. intros H. exfalso. apply H. by eexists.
  - split; [|done]. intros _ [? ?]. discriminate.
Qed.

(** C3, as the code has it: a page jump whose input does not begin, after
    white space and at most one sign, with a digit (so that [parseInt] gives
    [NaN]), or whose physical page [parsed + pageOffset] is below 1 or above
    the page count, requests no navigation and returns the state unchanged;
    as an event of the session it changes nothing at all. An input that
    begins with an integer is not discarded, whatever follows the digits. *)
Theorem handlePageJump_rejected (s : Session) :
  let st := viewerState s in
  (¬ leadingInteger (userPageInput st) ∨
   ∃ parsed, Js.parseInt (userPageInput st) = Some parsed ∧
     (parsed + pageOffset st < 1 ∨
      ∀ totalPages, numPages st = Some totalPages → totalPages < parsed + pageOffset st)) →
  handlePageJump (surface s) st = (st, []) ∧ step ClickGo s = (s, []).
Proof.
  intros st H.
  assert (Hj : handlePageJump (surface s) st = (st, [])).
  { unfold handlePageJump.
    destruct H as [Hno | (parsed & -> & Hrange)].
    { apply parseInt_None_iff in Hno. by rewrite Hno. }
    destruct Hrange as [Hlow | Hhigh].
    - replace (1 <=? parsed + pageOffset st) with false by (symmetry; lia). done.
    - destruct (numPages st) as [n|] eqn:Hn; simpl.
      + specialize (Hhigh n eq_refl).
        replace (parsed + pageOffset st <=? n) with false by (symmetry; lia).
        by rewrite andb_false_r.
      + destruct (1 <=? parsed + pageOffset st) eqn:H1; [|done].
        replace (parsed + pageOffset st <=? 0) with false by (symmetry; lia). done. }
  split; [done|]. simpl. by apply handle_noop.
Qed.

Lemma handlePageJump_rejected_witness :
  (handlePageJump (surface outOfRangeJump) (viewerState outOfRangeJump)
     = (viewerState outOfRangeJump, [])
   ∧ step ClickGo outOfRangeJump = (outOfRangeJump, []))
  ∧ (handlePageJump (blankSurface 10) (setUserPageInput "abc" (loadedState 10))
     = (setUserPageInput "abc" (loadedState 10), [])).
Proof.
  split.
  - apply (handlePageJump_rejected outOfRangeJump).
    right. exists 12. split; [reflexivity|].
    right. intros total Htotal. vm_compute in Htotal. injection Htotal as <-.
    vm_compute. reflexivity.
  - apply (handlePageJump_rejected
             (withState (setUserPageInput "abc" (loadedState 10))
                        (mount foxProps "" (blankSurface 10)))).
    left. apply parseInt_None_iff. reflexivity.
Defined.

(** C3, as stated, fails: "3.7" is not an integer numeral, yet the page jump
    reads it as 3 and scrolls to page 3. *)
Lemma page_jump_reads_decimal_as_integer :
  integerNumeral "3.7" = false
  ∧ (handlePageJump (surface decimalJump) (viewerState decimalJump)).2 = [ScrollIntoView 3]
  ∧ currentPage (handlePageJump (surface decimalJump) (viewerState decimalJump)).1 = Some 3
  ∧ ¬ pageJumpAsSpecified.
Proof.
  split; [reflexivity|]. split; [by vm_compute|]. split; [by vm_compute|].
  intros H. specialize (H (surface decimalJump) (viewerState decimalJump) eq_refl).
  apply (f_equal snd) in H. vm_compute in H. discriminate.
Qed.

(** C5, as the code has it: saving the offset edit ends the edit. A buffer
    that does not begin, after white space and at most one sign, with a
    digit leaves the offset as it was; a buffer that does commits the
    integer [parseInt] reads, which for a printed integer followed by text
    that does not go on with a digit is that integer; nothing else of the
    state changes and nothing is requested or raised. *)
Theorem handleOffsetSave_commit_or_discard (st : ViewerState) :
  isEditingOffset st = true →
  let st' := (handleOffsetSave st).1 in
  isEditingOffset st' = false
  ∧ (handleOffsetSave st).2 = []
  ∧ sameButOffsetControl st st'
  ∧ (Js.parseInt (offsetInput st) = None → pageOffset st' = pageOffset st)
  ∧ (∀ n, Js.parseInt (offsetInput st) = Some n → pageOffset st' = n)
  ∧ (¬ leadingInteger (offsetInput st) → pageOffset st' = pageOffset st)
  ∧ (leadingInteger (offsetInput st) → Js.parseInt (offsetInput st) = Some (pageOffset st'))
  ∧ (∀ ws n rest,
       allWhiteSpace ws = true → noLeadingDigit rest = true →
       offsetInput st = ws +:+ Js.toString n +:+ rest → pageOffset st' = n).
Proof.
  intros _.
  assert (Hcases : (Js.parseInt (offsetInput st) = None → pageOffset (handleOffsetSave st).1 = pageOffset st)
                 ∧ (∀ n, Js.parseInt (offsetInput st) = Some n → pageOffset (handleOffsetSave st).1 = n)).
  { unfold handleOffsetSave. destruct (Js.parseInt (offsetInput st)) as [n|]; simpl.
    - split; [discriminate|]. by intros m [= ->].
    - split; [done|discriminate]. }
  destruct Hcases as [Hnone Hsome].
  split; [done|]. split; [done|].
  split; [unfold handleOffsetSave; destruct (Js.parseInt _); by repeat split|].
  split; [exact Hnone|]. split; [exact Hsome|].
  split; [intros Hno; by apply Hnone, parseInt_None_iff|].
  split.
  - intros [n Hn]%parseInt_Some_iff. rewrite Hn. f_equal. symmetry. by apply Hsome.
  - intros ws n rest Hws Hrest Hbuf. apply Hsome. rewrite Hbuf. by apply parseInt_toString.
Qed.

Lemma handleOffsetSave_commit_or_discard_witness :
  pageOffset (handleOffsetSave badOffsetEdit).1 = pageOffset badOffsetEdit
  ∧ pageOffset (handleOffsetSave decimalOffsetEdit).1 = 2.
Proof.
  split.
  - destruct (handleOffsetSave_commit_or_discard badOffsetEdit eq_refl)
      as (_ & _ & _ & Hdiscard & _).
    apply Hdiscard. reflexivity.
  - destruct (handleOffsetSave_commit_or_discard decimalOffsetEdit eq_refl)
      as (_ & _ & _ & _ & Hcommit & _).
    apply Hcommit. reflexivity.
Defined.

(** C5, as stated, fails: the buffer "2.5" is not an integer numeral, yet
    saving it commits the offset 2 over the offset 0. *)
Lemma offset_save_commits_decimal :
  integerNumeral "2.5" = false
  ∧ pageOffset decimalOffsetEdit = 0
  ∧ pageOffset (handleOffsetSave decimalOffsetEdit).1 = 2
  ∧ ¬ offsetSaveAsSpecified.
Proof.
  split; [reflexivity|]. split; [reflexivity|]. split; [reflexivity|].
  intros H. specialize (H decimalOffsetEdit eq_refl eq_refl). vm_compute in H. discriminate.
Qed.
